(** * Kerykeion chart SVG assembly: a shallow embedding of
    [kerykeion/charts/kerykeion_chart_svg.py] and the properties of its
    element calculator, aspect-line drawers, constructor and template
    assembler.

    Conventions of the embedding.
    - Python [int] is [Z]; Python [float] used for coordinates and degrees
      is the binary64 [float] of the standard library's [Floats].
    - The four element scores are Python floats that start at [0.0] and only
      ever receive [int] weights; such values are integers, and binary64
      adds integers exactly as long as the sums stay within [2 ^ 53] in
      magnitude. The scores are kept as [Z]; [exact_in_binary64] states the
      range in which the two agree.
    - Python [str] is [string], one character per code point; [dict]s keyed
      by strings are [gmap string _].
    - A raised exception is the [Err] case of [result]; statements are
      sequenced with the bind of that monad.
    - Functions imported from other modules of the package (the drawers of
      [charts_utils], the aspect factories, the settings loader, the template
      files) are the fields of the records [Collaborators] and [Drawers]. *)

From Stdlib Require Import ZArith QArith Qround Lqa Floats Ascii String List Lia Bool.
From stdpp Require Import base option list gmap strings pretty.

Local Open Scope string_scope.
Local Open Scope Z_scope.

(** ** Exceptions and the error monad *)

Inductive exn : Type :=
  | KerykeionException (msg : string)
  | KeyError (key : string)
  | IndexError
  | AttributeError (attr : string)
  | TypeError
  | ZeroDivisionError.

Inductive result (A : Type) : Type :=
  | Ok (a : A)
  | Err (e : exn).
Arguments Ok {A} a.
Arguments Err {A} e.

#[global] Instance result_ret : MRet result := fun A a => Ok a.
#[global] Instance result_bind : MBind result :=
  fun A B f m => match m with Ok a => f a | Err e => Err e end.

Definition raise {A} (e : exn) : result A := Err e.

Definition is_ok {A} (r : result A) : bool :=
  match r with Ok _ => true | Err _ => false end.

(** ** Python primitives *)

(** [xs[i]] on a tuple or list: negative indices count from the end,
    anything out of range raises [IndexError]. *)
Definition py_index {A} (xs : list A) (i : Z) : result A :=
  let n := Z.of_nat (length xs) in
  let j := if i <? 0 then i + n else i in
  if (0 <=? j) && (j <? n)
  then match xs !! Z.to_nat j with Some x => Ok x | None => raise IndexError end
  else raise IndexError.

(** [d[k]] on a dict. *)
Definition py_getitem {V} (d : gmap string V) (k : string) : result V :=
  match d !! k with Some v => Ok v | None => raise (KeyError k) end.

(** [d.get(k, default)]. *)
Definition py_get {V} (d : gmap string V) (k : string) (default : V) : V :=
  match d !! k with Some v => v | None => default end.

(** [str.lower()] on the ASCII range, which is where point names live. *)
Definition lower_ascii (c : ascii) : ascii :=
  let n := nat_of_ascii c in
  if (Nat.leb 65 n && Nat.leb n 90)%bool then ascii_of_nat (n + 32) else c.

Fixpoint lower (s : string) : string :=
  match s with
  | EmptyString => EmptyString
  | String c s' => String (lower_ascii c) (lower s')
  end.

(** The characters that cannot be written inside a string literal. *)
Definition dquote : string := String (ascii_of_nat 34) EmptyString.
Definition newline : string := String (ascii_of_nat 10) EmptyString.
Definition tab : string := String (ascii_of_nat 9) EmptyString.

(** [len(s)]. *)
Definition len (s : string) : Z := Z.of_nat (String.length s).

(** [s[:n]] and [s[n:]] for [n >= 0]. *)
Fixpoint str_take (n : nat) (s : string) : string :=
  match n, s with
  | O, _ => EmptyString
  | S _, EmptyString => EmptyString
  | S n', String c s' => String c (str_take n' s')
  end.

Fixpoint str_drop (n : nat) (s : string) : string :=
  match n, s with
  | O, _ => s
  | S _, EmptyString => EmptyString
  | S n', String _ s' => str_drop n' s'
  end.

(** [s[:-n]] and [s[-n:]] for [n > 0]. *)
Definition str_drop_last (n : nat) (s : string) : string :=
  str_take (String.length s - n) s.

Definition str_last (n : nat) (s : string) : string :=
  str_drop (String.length s - n) s.

(** [s.split(sep)] for a one-character separator: the pieces between the
    separators, always at least one piece. *)
Fixpoint split (sep : ascii) (s : string) : list string :=
  match s with
  | EmptyString => [EmptyString]
  | String c s' =>
      if Ascii.eqb c sep then EmptyString :: split sep s'
      else match split sep s' with
           | piece :: pieces => String c piece :: pieces
           | [] => [String c EmptyString]
           end
  end.

(** [s.replace(old, new)] for a non-empty [old]: the occurrences of [old]
    are replaced from left to right, without overlap. [skip] counts the
    characters of a just-replaced occurrence that are still to be passed. *)
Fixpoint replace_from (skip : nat) (old new s : string) : string :=
  match s with
  | EmptyString => EmptyString
  | String c s' =>
      match skip with
      | S k => replace_from k old new s'
      | O => if String.prefix old s
             then new +:+ replace_from (String.length old - 1) old new s'
             else String c (replace_from O old new s')
      end
  end.

Definition replace (old new s : string) : string := replace_from O old new s.

(** An [int] inside an f-string, and with the format [:02d]. *)
Definition str_of_int (z : Z) : string := pretty z.

Definition str_of_int_02d (z : Z) : string :=
  let s := pretty z in
  if (String.length s <? 2)%nat then "0" +:+ s else s.

(** ** Data model *)

Inductive ChartType : Type :=
  | Natal | ExternalNatal | Transit | Synastry | Composite.

#[global] Instance ChartType_eq_dec : EqDecision ChartType.
Proof. solve_decision. Defined.

(** [str(chart_type)], also the key looked up in the language table. *)
Definition ChartType_str (t : ChartType) : string :=
  match t with
  | Natal => "Natal" | ExternalNatal => "ExternalNatal" | Transit => "Transit"
  | Synastry => "Synastry" | Composite => "Composite"
  end.

Inductive GridType : Type := GridList | GridTable.

#[global] Instance GridType_eq_dec : EqDecision GridType.
Proof. solve_decision. Defined.

(** Modelled from the spec: the record types of [kerykeion.kr_types] are not
    part of the sources at hand; a celestial point is "a named point with
    absolute ecliptic longitude, zodiac sign index (0-11), house placement",
    of which the code below reads [abs_pos] and [sign_num]. *)
Record KerykeionPointModel : Type := {
  point_name : string;
  abs_pos : float;
  sign_num : Z;
}.

Record LunarPhaseModel : Type := {
  degrees_between_s_m : float;
  moon_phase : Z;
  moon_phase_name : string;
}.

(** Modelled from the spec: what every chartable object (a subject or a
    composite of two) offers: its points by attribute name, the two house
    cusps used as rotation references, and the descriptive fields printed
    in the bottom-left corner. *)
Record ChartData : Type := {
  name : string;
  points : gmap string KerykeionPointModel;
  first_house : KerykeionPointModel;
  seventh_house : KerykeionPointModel;
  zodiac_type : string;
  sidereal_mode : option string;
  houses_system_identifier : string;
  houses_system_name : string;
  perspective_type : string;
  lunar_phase : LunarPhaseModel;
}.

(** Modelled from the spec: [AstrologicalSubject] / [AstrologicalSubjectModel],
    a chartable object with a place and a local date and time. *)
Record AstrologicalSubjectModel : Type := {
  data : ChartData;
  city : string;
  lat : float;
  lng : float;
  year : Z;
  month : Z;
  day : Z;
  hour : Z;
  minute : Z;
  iso_formatted_local_datetime : string;
}.

(** Modelled from the spec: [CompositeSubjectModel], the midpoint object; it
    has the chart data and its two component subjects, and no place or time
    of its own. *)
Record CompositeSubjectModel : Type := {
  cdata : ChartData;
  first_subject : AstrologicalSubjectModel;
  second_subject : AstrologicalSubjectModel;
}.

(** The [first_obj] argument: [Union[AstrologicalSubject,
    AstrologicalSubjectModel, CompositeSubjectModel]]. *)
Inductive FirstObject : Type :=
  | ASubject (s : AstrologicalSubjectModel)
  | AComposite (c : CompositeSubjectModel).

Definition chart_data (u : FirstObject) : ChartData :=
  match u with ASubject s => data s | AComposite c => cdata c end.

(** [isinstance(first_obj, CompositeSubjectModel)]. *)
Definition is_composite (u : FirstObject) : bool :=
  match u with ASubject _ => false | AComposite _ => true end.

(** Attribute access that only one of the two alternatives supports. *)
Definition as_subject (attr : string) (u : FirstObject) : result AstrologicalSubjectModel :=
  match u with ASubject s => Ok s | AComposite _ => raise (AttributeError attr) end.

Definition as_composite (attr : string) (u : FirstObject) : result CompositeSubjectModel :=
  match u with AComposite c => Ok c | ASubject _ => raise (AttributeError attr) end.

(** [obj.get(item)]: the attribute of that name, or [None]. *)
Definition get (d : ChartData) (item : string) : option KerykeionPointModel :=
  points d !! item.

(** One entry of [settings["celestial_points"]]. *)
Record KerykeionSettingsCelestialPointModel : Type := {
  body_id : Z;
  body_name : string;
  color : string;
  element_points : Z;
  related_zodiac_signs : list Z;
  label : string;
  is_active : bool;
}.

Definition set_is_active (b : bool) (body : KerykeionSettingsCelestialPointModel) :
    KerykeionSettingsCelestialPointModel :=
  {| body_id := body_id body; body_name := body_name body; color := color body;
     element_points := element_points body;
     related_zodiac_signs := related_zodiac_signs body;
     label := label body; is_active := b |}.

(** One entry of [settings["aspects"]]. *)
Record AspectSetting : Type := {
  degree : Z;
  aspect_name : string;
  aspect_color : string;
}.

(** One record of [aspects_list]; [aspect] is the aspect kind. *)
Record AspectModel : Type := {
  p1_name : string;
  p1_abs_pos : float;
  p2_name : string;
  p2_abs_pos : float;
  aspect : string;
  orbit : float;
}.

(** ** Element balance calculator *)

Record ZodiacEntry : Type := { zname : string; element : string }.

Definition ZODIAC : list ZodiacEntry :=
  [ {| zname := "Ari"; element := "fire" |};
    {| zname := "Tau"; element := "earth" |};
    {| zname := "Gem"; element := "air" |};
    {| zname := "Can"; element := "water" |};
    {| zname := "Leo"; element := "fire" |};
    {| zname := "Vir"; element := "earth" |};
    {| zname := "Lib"; element := "air" |};
    {| zname := "Sco"; element := "water" |};
    {| zname := "Sag"; element := "fire" |};
    {| zname := "Cap"; element := "earth" |};
    {| zname := "Aqu"; element := "air" |};
    {| zname := "Pis"; element := "water" |} ].

Definition _PLANET_IN_ZODIAC_EXTRA_POINTS : Z := 10.

(** The four accumulators [self.fire], [self.earth], [self.air],
    [self.water]. *)
Record Elements : Type := { fire : Z; earth : Z; air : Z; water : Z }.

(** The inner loop over [related_zodiac_signs]: every match overwrites
    [extra_points] with the constant. *)
Definition extra_points_of (related : list Z) (cz : Z) : Z :=
  fold_left (fun extra_points e =>
               if e =? cz then _PLANET_IN_ZODIAC_EXTRA_POINTS else extra_points)
            related 0.

(** The [if ele == ... elif ...] chain of one loop iteration. *)
Definition add_to_element (ele : string) (amount : Z) (s : Elements) : Elements :=
  if String.eqb ele "fire" then
    {| fire := fire s + amount; earth := earth s; air := air s; water := water s |}
  else if String.eqb ele "earth" then
    {| fire := fire s; earth := earth s + amount; air := air s; water := water s |}
  else if String.eqb ele "air" then
    {| fire := fire s; earth := earth s; air := air s + amount; water := water s |}
  else if String.eqb ele "water" then
    {| fire := fire s; earth := earth s; air := air s; water := water s + amount |}
  else s.

(** One iteration of the loop over the active points: the point setting
    [body] and the sign [cz] of that point. The weight and the extra points
    are added one after the other, as in the source. *)
Definition elements_step (body : KerykeionSettingsCelestialPointModel) (cz : Z)
    (s : Elements) : result Elements :=
  let extra_points := extra_points_of (related_zodiac_signs body) cz in
  z ← py_index ZODIAC cz;
  Ok (add_to_element (element z) (element_points body + extra_points) s).

(** The loop [for i in range(len(available_planets_setting))], which reads
    [available_planets_setting[i]] and [points_sign[i]] side by side. An
    exception leaves the accumulators as the earlier iterations set them. *)
Fixpoint elements_loop (settings : list KerykeionSettingsCelestialPointModel)
    (points_sign : list Z) (s : Elements) : Elements * result unit :=
  match settings, points_sign with
  | [], _ => (s, Ok tt)
  | _ :: _, [] => (s, raise IndexError)
  | body :: settings', cz :: points_sign' =>
      match elements_step body cz s with
      | Ok s' => elements_loop settings' points_sign' s'
      | Err e => (s, Err e)
      end
  end.

(** [self.user.get(planet).sign_num]: a missing point is [None], whose
    attribute access fails. *)
Definition sign_of (d : ChartData) (planet : string) : result Z :=
  match get d planet with
  | Some p => Ok (sign_num p)
  | None => raise (AttributeError "sign_num")
  end.

(** The body of [_calculate_elements_points_from_planets] as a function of
    what it reads ([self.user], [self.available_planets_setting]) and of the
    four accumulators it updates. *)
Definition calculate_elements (d : ChartData)
    (available_planets_setting : list KerykeionSettingsCelestialPointModel)
    (s : Elements) : Elements * result unit :=
  let available_celestial_points_names :=
    map (fun body => lower (body_name body)) available_planets_setting in
  match mapM (sign_of d) available_celestial_points_names with
  | Err e => (s, Err e)
  | Ok points_sign => elements_loop available_planets_setting points_sign s
  end.

(** ** Settings and collaborators *)

(** One entry of [active_aspects]. *)
Record ActiveAspect : Type := { active_aspect_name : string; active_aspect_orb : Z }.

(** What [get_settings] returns. The language tables map a semantic label
    to its text; the nested table of point names under ["celestial_points"]
    is only handed on to a drawer and is kept as one opaque text. *)
Record KerykeionSettingsModel : Type := {
  settings_language_settings : gmap string (gmap string string);
  settings_chart_colors : gmap string string;
  settings_celestial_points : list KerykeionSettingsCelestialPointModel;
  settings_aspects : list AspectSetting;
}.

(** The [new_settings_file] argument:
    [Union[Path, None, KerykeionSettingsModel, dict]]. *)
Inductive SettingsSource : Type :=
  | SettingsDefault
  | SettingsPath (path : string)
  | SettingsObject (m : KerykeionSettingsModel).

(** The collaborators the constructor calls: the settings loader, the two
    aspect factories, the theme files, the known theme names and the home
    directory. None of them draws. *)
Record Collaborators : Type := {
  get_settings : SettingsSource -> KerykeionSettingsModel;
  NatalAspects_relevant_aspects :
    FirstObject -> SettingsSource -> list string -> option (list ActiveAspect) ->
    list AspectModel;
  SynastryAspects_relevant_aspects :
    FirstObject -> FirstObject -> SettingsSource -> list string -> list ActiveAspect ->
    list AspectModel;
  KerykeionChartTheme_args : list string;
  theme_css : string -> string;
  home_directory : string;
}.

(** ** The chart instance *)

(** The attributes of a [KerykeionChartSVG] instance. [scores] holds
    [self.fire], [self.earth], [self.air] and [self.water]; an attribute
    that only some chart types assign is an [option]. *)
Record KerykeionChartSVG : Type := {
  new_settings_file : SettingsSource;
  chart_language : string;
  active_points : list string;
  active_aspects : list ActiveAspect;
  output_directory : string;
  language_settings : gmap string string;
  chart_colors_settings : gmap string string;
  planets_settings : list KerykeionSettingsCelestialPointModel;
  aspects_settings : list AspectSetting;
  chart_type : ChartType;
  user : FirstObject;
  available_planets_setting : list KerykeionSettingsCelestialPointModel;
  available_kerykeion_celestial_points : list (option KerykeionPointModel);
  aspects_list : list AspectModel;
  t_user : option AstrologicalSubjectModel;
  t_available_kerykeion_celestial_points : option (list (option KerykeionPointModel));
  double_chart_aspect_grid_type : GridType;
  height : Z;
  width : Z;
  location : string;
  geolat : float;
  geolon : float;
  t_name : option string;
  main_radius : Z;
  first_circle_radius : Z;
  second_circle_radius : Z;
  third_circle_radius : Z;
  scores : Elements;
  color_style_tag : string;
  template : option string;
}.

(** [self.output_directory = v]. *)
Definition set_output_directory (v : string) (self : KerykeionChartSVG) : KerykeionChartSVG :=
  {| new_settings_file := new_settings_file self;
     chart_language := chart_language self;
     active_points := active_points self;
     active_aspects := active_aspects self;
     output_directory := v;
     language_settings := language_settings self;
     chart_colors_settings := chart_colors_settings self;
     planets_settings := planets_settings self;
     aspects_settings := aspects_settings self;
     chart_type := chart_type self;
     user := user self;
     available_planets_setting := available_planets_setting self;
     available_kerykeion_celestial_points := available_kerykeion_celestial_points self;
     aspects_list := aspects_list self;
     t_user := t_user self;
     t_available_kerykeion_celestial_points := t_available_kerykeion_celestial_points self;
     double_chart_aspect_grid_type := double_chart_aspect_grid_type self;
     height := height self;
     width := width self;
     location := location self;
     geolat := geolat self;
     geolon := geolon self;
     t_name := t_name self;
     main_radius := main_radius self;
     first_circle_radius := first_circle_radius self;
     second_circle_radius := second_circle_radius self;
     third_circle_radius := third_circle_radius self;
     scores := scores self;
     color_style_tag := color_style_tag self;
     template := template self |}.

(** [self.language_settings = v]. *)
Definition set_language_settings (v : gmap string string) (self : KerykeionChartSVG) : KerykeionChartSVG :=
  {| new_settings_file := new_settings_file self;
     chart_language := chart_language self;
     active_points := active_points self;
     active_aspects := active_aspects self;
     output_directory := output_directory self;
     language_settings := v;
     chart_colors_settings := chart_colors_settings self;
     planets_settings := planets_settings self;
     aspects_settings := aspects_settings self;
     chart_type := chart_type self;
     user := user self;
     available_planets_setting := available_planets_setting self;
     available_kerykeion_celestial_points := available_kerykeion_celestial_points self;
     aspects_list := aspects_list self;
     t_user := t_user self;
     t_available_kerykeion_celestial_points := t_available_kerykeion_celestial_points self;
     double_chart_aspect_grid_type := double_chart_aspect_grid_type self;
     height := height self;
     width := width self;
     location := location self;
     geolat := geolat self;
     geolon := geolon self;
     t_name := t_name self;
     main_radius := main_radius self;
     first_circle_radius := first_circle_radius self;
     second_circle_radius := second_circle_radius self;
     third_circle_radius := third_circle_radius self;
     scores := scores self;
     color_style_tag := color_style_tag self;
     template := template self |}.

(** [self.chart_colors_settings = v]. *)
Definition set_chart_colors_settings (v : gmap string string) (self : KerykeionChartSVG) : KerykeionChartSVG :=
  {| new_settings_file := new_settings_file self;
     chart_language := chart_language self;
     active_points := active_points self;
     active_aspects := active_aspects self;
     output_directory := output_directory self;
     language_settings := language_settings self;
     chart_colors_settings := v;
     planets_settings := planets_settings self;
     aspects_settings := aspects_settings self;
     chart_type := chart_type self;
     user := user self;
     available_planets_setting := available_planets_setting self;
     available_kerykeion_celestial_points := available_kerykeion_celestial_points self;
     aspects_list := aspects_list self;
     t_user := t_user self;
     t_available_kerykeion_celestial_points := t_available_kerykeion_celestial_points self;
     double_chart_aspect_grid_type := double_chart_aspect_grid_type self;
     height := height self;
     width := width self;
     location := location self;
     geolat := geolat self;
     geolon := geolon self;
     t_name := t_name self;
     main_radius := main_radius self;
     first_circle_radius := first_circle_radius self;
     second_circle_radius := second_circle_radius self;
     third_circle_radius := third_circle_radius self;
     scores := scores self;
     color_style_tag := color_style_tag self;
     template := template self |}.

(** [self.planets_settings = v]. *)
Definition set_planets_settings (v : list KerykeionSettingsCelestialPointModel) (self : KerykeionChartSVG) : KerykeionChartSVG :=
  {| new_settings_file := new_settings_file self;
     chart_language := chart_language self;
     active_points := active_points self;
     active_aspects := active_aspects self;
     output_directory := output_directory self;
     language_settings := language_settings self;
     chart_colors_settings := chart_colors_settings self;
     planets_settings := v;
     aspects_settings := aspects_settings self;
     chart_type := chart_type self;
     user := user self;
     available_planets_setting := available_planets_setting self;
     available_kerykeion_celestial_points := available_kerykeion_celestial_points self;
     aspects_list := aspects_list self;
     t_user := t_user self;
     t_available_kerykeion_celestial_points := t_available_kerykeion_celestial_points self;
     double_chart_aspect_grid_type := double_chart_aspect_grid_type self;
     height := height self;
     width := width self;
     location := location self;
     geolat := geolat self;
     geolon := geolon self;
     t_name := t_name self;
     main_radius := main_radius self;
     first_circle_radius := first_circle_radius self;
     second_circle_radius := second_circle_radius self;
     third_circle_radius := third_circle_radius self;
     scores := scores self;
     color_style_tag := color_style_tag self;
     template := template self |}.

(** [self.aspects_settings = v]. *)
Definition set_aspects_settings (v : list AspectSetting) (self : KerykeionChartSVG) : KerykeionChartSVG :=
  {| new_settings_file := new_settings_file self;
     chart_language := chart_language self;
     active_points := active_points self;
     active_aspects := active_aspects self;
     output_directory := output_directory self;
     language_settings := language_settings self;
     chart_colors_settings := chart_colors_settings self;
     planets_settings := planets_settings self;
     aspects_settings := v;
     chart_type := chart_type self;
     user := user self;
     available_planets_setting := available_planets_setting self;
     available_kerykeion_celestial_points := available_kerykeion_celestial_points self;
     aspects_list := aspects_list self;
     t_user := t_user self;
     t_available_kerykeion_celestial_points := t_available_kerykeion_celestial_points self;
     double_chart_aspect_grid_type := double_chart_aspect_grid_type self;
     height := height self;
     width := width self;
     location := location self;
     geolat := geolat self;
     geolon := geolon self;
     t_name := t_name self;
     main_radius := main_radius self;
     first_circle_radius := first_circle_radius self;
     second_circle_radius := second_circle_radius self;
     third_circle_radius := third_circle_radius self;
     scores := scores self;
     color_style_tag := color_style_tag self;
     template := template self |}.

(** Assignment to the four element attributes. *)
Definition set_scores (v : Elements) (self : KerykeionChartSVG) : KerykeionChartSVG :=
  {| new_settings_file := new_settings_file self;
     chart_language := chart_language self;
     active_points := active_points self;
     active_aspects := active_aspects self;
     output_directory := output_directory self;
     language_settings := language_settings self;
     chart_colors_settings := chart_colors_settings self;
     planets_settings := planets_settings self;
     aspects_settings := aspects_settings self;
     chart_type := chart_type self;
     user := user self;
     available_planets_setting := available_planets_setting self;
     available_kerykeion_celestial_points := available_kerykeion_celestial_points self;
     aspects_list := aspects_list self;
     t_user := t_user self;
     t_available_kerykeion_celestial_points := t_available_kerykeion_celestial_points self;
     double_chart_aspect_grid_type := double_chart_aspect_grid_type self;
     height := height self;
     width := width self;
     location := location self;
     geolat := geolat self;
     geolon := geolon self;
     t_name := t_name self;
     main_radius := main_radius self;
     first_circle_radius := first_circle_radius self;
     second_circle_radius := second_circle_radius self;
     third_circle_radius := third_circle_radius self;
     scores := v;
     color_style_tag := color_style_tag self;
     template := template self |}.

(** [self.color_style_tag = v]. *)
Definition set_color_style_tag (v : string) (self : KerykeionChartSVG) : KerykeionChartSVG :=
  {| new_settings_file := new_settings_file self;
     chart_language := chart_language self;
     active_points := active_points self;
     active_aspects := active_aspects self;
     output_directory := output_directory self;
     language_settings := language_settings self;
     chart_colors_settings := chart_colors_settings self;
     planets_settings := planets_settings self;
     aspects_settings := aspects_settings self;
     chart_type := chart_type self;
     user := user self;
     available_planets_setting := available_planets_setting self;
     available_kerykeion_celestial_points := available_kerykeion_celestial_points self;
     aspects_list := aspects_list self;
     t_user := t_user self;
     t_available_kerykeion_celestial_points := t_available_kerykeion_celestial_points self;
     double_chart_aspect_grid_type := double_chart_aspect_grid_type self;
     height := height self;
     width := width self;
     location := location self;
     geolat := geolat self;
     geolon := geolon self;
     t_name := t_name self;
     main_radius := main_radius self;
     first_circle_radius := first_circle_radius self;
     second_circle_radius := second_circle_radius self;
     third_circle_radius := third_circle_radius self;
     scores := scores self;
     color_style_tag := v;
     template := template self |}.

(** [self.template = v]. *)
Definition set_template (v : option string) (self : KerykeionChartSVG) : KerykeionChartSVG :=
  {| new_settings_file := new_settings_file self;
     chart_language := chart_language self;
     active_points := active_points self;
     active_aspects := active_aspects self;
     output_directory := output_directory self;
     language_settings := language_settings self;
     chart_colors_settings := chart_colors_settings self;
     planets_settings := planets_settings self;
     aspects_settings := aspects_settings self;
     chart_type := chart_type self;
     user := user self;
     available_planets_setting := available_planets_setting self;
     available_kerykeion_celestial_points := available_kerykeion_celestial_points self;
     aspects_list := aspects_list self;
     t_user := t_user self;
     t_available_kerykeion_celestial_points := t_available_kerykeion_celestial_points self;
     double_chart_aspect_grid_type := double_chart_aspect_grid_type self;
     height := height self;
     width := width self;
     location := location self;
     geolat := geolat self;
     geolon := geolon self;
     t_name := t_name self;
     main_radius := main_radius self;
     first_circle_radius := first_circle_radius self;
     second_circle_radius := second_circle_radius self;
     third_circle_radius := third_circle_radius self;
     scores := scores self;
     color_style_tag := color_style_tag self;
     template := v |}.

(** ** Drawers *)

(** What [calculate_moon_phase_chart_params] returns. *)
Record MoonPhaseParams : Type := {
  lunar_phase_rotate : float;
  circle_center_x : float;
  circle_radius : float;
}.

(** A value stored in a template slot. *)
Inductive SlotValue : Type :=
  | SStr (s : string)
  | SInt (z : Z)
  | SFloat (f : float).

(** The functions of [charts_utils], [draw_planets] and [utilities], the
    template files and the library calls used while rendering. Arguments
    are in the order of the calls in the source; an optional argument is an
    [option]. *)
Record Drawers : Type := {
  Sign_args : list string;
  draw_zodiac_slice : Z -> ChartType -> float -> Z -> Z -> string -> string -> string;
  draw_aspect_line : Z -> Z -> AspectModel -> string -> float -> string;
  draw_transit_ring_degree_steps : Z -> float -> string;
  draw_degree_ring : Z -> Z -> float -> string -> string;
  draw_transit_ring : Z -> string -> string -> string;
  draw_first_circle : Z -> string -> ChartType -> option Z -> string;
  draw_second_circle : Z -> string -> string -> ChartType -> option Z -> string;
  draw_third_circle : Z -> string -> string -> ChartType -> Z -> string;
  draw_aspect_grid :
    string -> list KerykeionSettingsCelestialPointModel -> list AspectModel ->
    option Z -> option Z -> string;
  draw_houses_cusps_and_text_number :
    Z -> list KerykeionPointModel -> string -> string -> string -> string -> string ->
    Z -> Z -> ChartType -> option (list KerykeionPointModel) -> option string -> string;
  draw_transit_aspect_list :
    string -> list AspectModel -> list KerykeionSettingsCelestialPointModel ->
    list AspectSetting -> string;
  draw_transit_aspect_grid :
    string -> list KerykeionSettingsCelestialPointModel -> list AspectModel ->
    option Z -> option Z -> string;
  calculate_moon_phase_chart_params : float -> float -> MoonPhaseParams;
  draw_house_grid :
    list KerykeionPointModel -> ChartType -> string -> string ->
    option (list KerykeionPointModel) -> string;
  draw_planet_grid :
    string -> string -> list (option KerykeionPointModel) -> ChartType -> string ->
    string -> option string -> option (list (option KerykeionPointModel)) -> string;
  draw_planets :
    Z -> list (option KerykeionPointModel) -> list KerykeionSettingsCelestialPointModel ->
    Z -> float -> float -> ChartType -> option (list (option KerykeionPointModel)) -> string;
  get_houses_list : FirstObject -> list KerykeionPointModel;
  inline_css_variables_in_svg : string -> string;
  scourString : string -> string;
  get_ayanamsa_name : string -> string;
  convert_latitude_coordinate_to_string : float -> string -> string -> string;
  convert_longitude_coordinate_to_string : float -> string -> string -> string;
  strftime : string -> string -> string;
  chart_xml : string;
  wheel_only_xml : string;
  aspect_grid_only_xml : string;
  substitute : string -> gmap string SlotValue -> result string;
}.

(** ** Methods: state passing with exceptions *)

(** A method receives the instance and returns it, possibly updated,
    with its value or the exception it raised. *)
Definition M (A : Type) : Type := KerykeionChartSVG -> KerykeionChartSVG * result A.

#[global] Instance M_ret : MRet M := fun A a self => (self, Ok a).
#[global] Instance M_bind : MBind M :=
  fun A B f m self =>
    match m self with
    | (self', Ok a) => f a self'
    | (self', Err e) => (self', Err e)
    end.

(** A computation that only reads the instance. *)
Definition reading {A} (f : KerykeionChartSVG -> result A) : M A :=
  fun self => (self, f self).

(** An assignment to an attribute. *)
Definition assign (f : KerykeionChartSVG -> KerykeionChartSVG) : M unit :=
  fun self => (f self, Ok tt).

(** *** [set_up_theme], [set_output_directory], [parse_json_settings] *)

Definition theme_style (C : Collaborators) (theme : option string) : string :=
  match theme with
  | None => ""
  | Some t => theme_css C t
  end.

Definition set_up_theme (C : Collaborators) (theme : option string) : M unit :=
  assign (set_color_style_tag (theme_style C theme)).

Definition set_output_directory_method (dir_path : string) : M unit :=
  assign (set_output_directory dir_path).

Definition parse_json_settings (C : Collaborators) (settings_file_or_dict : SettingsSource) :
    M unit :=
  fun self =>
    let settings := get_settings C settings_file_or_dict in
    match py_getitem (settings_language_settings settings) (chart_language self) with
    | Err e => (self, Err e)
    | Ok language =>
        (set_aspects_settings (settings_aspects settings)
           (set_planets_settings (settings_celestial_points settings)
              (set_chart_colors_settings (settings_chart_colors settings)
                 (set_language_settings language self))), Ok tt)
    end.

(** *** [_calculate_elements_points_from_planets] *)

Definition _calculate_elements_points_from_planets : M unit :=
  fun self =>
    let '(s, r) := calculate_elements (chart_data (user self))
                     (available_planets_setting self) (scores self) in
    (set_scores s self, r).

(** *** [_draw_zodiac_circle_slices] *)

(** The loop over [enumerate(sings)]; [i] is the running index. *)
Fixpoint zodiac_slices_loop (D : Drawers) (self : KerykeionChartSVG) (r : Z)
    (i : Z) (sings : list string) (output : string) : result string :=
  match sings with
  | [] => Ok output
  | sing :: sings' =>
      bg ← py_getitem (chart_colors_settings self) ("zodiac_bg_" +:+ str_of_int i);
      zodiac_slices_loop D self r (i + 1) sings'
        (output +:+ draw_zodiac_slice D (first_circle_radius self) (chart_type self)
                      (abs_pos (seventh_house (chart_data (user self)))) i r
                      ("fill:" +:+ bg +:+ "; fill-opacity: 0.5;") sing)
  end.

Definition _draw_zodiac_circle_slices (D : Drawers) (r : Z) (self : KerykeionChartSVG) :
    result string :=
  zodiac_slices_loop D self r 0 (Sign_args D) "".

(** *** [_draw_all_aspects_lines], [_draw_all_transit_aspects_lines] *)

(** [next((a["color"] for a in aspects_settings if a["name"] == aspect_name),
    None)]: the colour of the first entry with that name. *)
Fixpoint next_color (aspects_settings : list AspectSetting) (aspect_name' : string) :
    option string :=
  match aspects_settings with
  | [] => None
  | a :: rest =>
      if String.eqb (aspect_name a) aspect_name' then Some (aspect_color a)
      else next_color rest aspect_name'
  end.

(** The loop of both drawers: [out] grows by one chord for an aspect whose
    colour is found and is a non-empty text ([if aspect_color:]). *)
Fixpoint aspects_lines_loop (D : Drawers) (self : KerykeionChartSVG) (r ar : Z)
    (aspects : list AspectModel) (out : string) : string :=
  match aspects with
  | [] => out
  | aspect' :: aspects' =>
      let aspect_name' := aspect aspect' in
      let aspect_color' := next_color (aspects_settings self) aspect_name' in
      let out' :=
        match aspect_color' with
        | Some c =>
            if String.eqb c "" then out
            else out +:+ draw_aspect_line D r ar aspect' c
                           (abs_pos (seventh_house (chart_data (user self))))
        | None => out
        end in
      aspects_lines_loop D self r ar aspects' out'
  end.

Definition _draw_all_aspects_lines (D : Drawers) (r ar : Z) (self : KerykeionChartSVG) :
    string :=
  aspects_lines_loop D self r ar (aspects_list self) "".

Definition _draw_all_transit_aspects_lines (D : Drawers) (r ar : Z)
    (self : KerykeionChartSVG) : string :=
  aspects_lines_loop D self r ar (aspects_list self) "".

(** ** The constructor *)

Definition _DEFAULT_HEIGHT : Z := 550.
Definition _DEFAULT_FULL_WIDTH : Z := 1200.
Definition _DEFAULT_NATAL_WIDTH : Z := 820.
Definition _DEFAULT_FULL_WIDTH_WITH_TABLE : Z := 960.

(** The arguments of [KerykeionChartSVG(...)]. *)
Record InitArgs : Type := {
  arg_first_obj : FirstObject;
  arg_chart_type : ChartType;
  arg_second_obj : option AstrologicalSubjectModel;
  arg_new_output_directory : option string;
  arg_new_settings_file : SettingsSource;
  arg_theme : option string;
  arg_double_chart_aspect_grid_type : GridType;
  arg_chart_language : string;
  arg_active_points : list string;
  arg_active_aspects : list ActiveAspect;
}.

(** The first loop of the constructor: a configured point whose name is in
    [active_points] is marked active, in place, and joins
    [available_planets_setting]. [planets_settings] holds the same objects
    and sees the mark. *)
Definition mark_active (active_points : list string)
    (body : KerykeionSettingsCelestialPointModel) : KerykeionSettingsCelestialPointModel :=
  if bool_decide (body_name body ∈ active_points) then set_is_active true body else body.

Definition select_active (active_points : list string)
    (planets_settings : list KerykeionSettingsCelestialPointModel) :
    list KerykeionSettingsCelestialPointModel :=
  filter (fun body => body_name body ∈ active_points)
         (map (mark_active active_points) planets_settings).

(** The width chosen under "screen size". *)
Definition screen_width (chart_type' : ChartType) (grid : GridType) : Z :=
  if bool_decide (chart_type' = Synastry) || bool_decide (chart_type' = Transit)
  then _DEFAULT_FULL_WIDTH
  else if bool_decide (grid = GridTable) && bool_decide (chart_type' = Transit)
  then _DEFAULT_FULL_WIDTH_WITH_TABLE
  else _DEFAULT_NATAL_WIDTH.

(** The radii chosen under "Set circle radii based on chart type". *)
Definition circle_radii (chart_type' : ChartType) : Z * Z * Z :=
  if bool_decide (chart_type' = ExternalNatal) then (56, 92, 112) else (0, 36, 120).

(** [__init__]: the value is the constructed instance; an exception leaves
    the caller without an object. *)
Definition __init__ (C : Collaborators) (a : InitArgs) : result KerykeionChartSVG :=
  let first_obj := arg_first_obj a in
  let chart_type' := arg_chart_type a in
  let active_points' := arg_active_points a in
  let active_aspects' := arg_active_aspects a in
  let new_settings_file' := arg_new_settings_file a in
  let output_directory' :=
    match arg_new_output_directory a with
    | Some d => if String.eqb d "" then home_directory C else d
    | None => home_directory C
    end in
  (* self.parse_json_settings(new_settings_file) *)
  let settings := get_settings C new_settings_file' in
  language_settings' ← py_getitem (settings_language_settings settings) (arg_chart_language a);
  let chart_colors_settings' := settings_chart_colors settings in
  let aspects_settings' := settings_aspects settings in
  let user' := first_obj in
  let planets_settings' := map (mark_active active_points') (settings_celestial_points settings) in
  let available_planets_setting' :=
    select_active active_points' (settings_celestial_points settings) in
  let available_celestial_points_names :=
    map (fun body => lower (body_name body)) available_planets_setting' in
  let available_kerykeion_celestial_points' :=
    map (get (chart_data user')) available_celestial_points_names in
  (* aspects, by chart type *)
  '(aspects_list', t_user', t_available') ←
    match chart_type' with
    | Natal | ExternalNatal =>
        Ok (NatalAspects_relevant_aspects C user' new_settings_file' active_points'
              (Some active_aspects'), None, None)
    | Transit | Synastry =>
        match arg_second_obj a with
        | None =>
            raise (KerykeionException
                     "Second object is required for Transit or Synastry charts.")
        | Some second_obj =>
            let aspects :=
              if bool_decide (chart_type' = Transit)
              then SynastryAspects_relevant_aspects C (ASubject second_obj) user'
                     new_settings_file' active_points' active_aspects'
              else SynastryAspects_relevant_aspects C user' (ASubject second_obj)
                     new_settings_file' active_points' active_aspects' in
            Ok (aspects, Some second_obj,
                Some (map (get (data second_obj)) available_celestial_points_names))
        end
    | Composite =>
        if negb (is_composite first_obj)
        then raise (KerykeionException
                      "First object must be a CompositeSubjectModel instance.")
        else Ok (NatalAspects_relevant_aspects C user' new_settings_file' active_points'
                   None, None, None)
    end;
  (* screen size *)
  let height' := _DEFAULT_HEIGHT in
  let width' := screen_width chart_type' (arg_double_chart_aspect_grid_type a) in
  (* location *)
  '(location', geolat', geolon', t_name') ←
    match chart_type' with
    | Natal | ExternalNatal | Synastry =>
        s ← as_subject "city" user';
        Ok (city s, lat s, lng s, None)
    | Composite =>
        c ← as_composite "first_subject" user';
        Ok ("", ((lat (first_subject c) + lat (second_subject c)) / 2)%float,
            ((lng (first_subject c) + lng (second_subject c)) / 2)%float, None)
    | Transit =>
        match t_user' with
        | None => raise (AttributeError "t_user")
        | Some t =>
            tn ← py_getitem language_settings' "transit_name";
            Ok (city t, lat t, lng t, Some tn)
        end
    end;
  let main_radius' := 240 in
  let '(first_circle_radius', second_circle_radius', third_circle_radius') :=
    circle_radii chart_type' in
  (* element points *)
  let '(scores', calculated) :=
    calculate_elements (chart_data user') available_planets_setting'
      {| fire := 0; earth := 0; air := 0; water := 0 |} in
  _ ← calculated;
  (* theme *)
  _ ← match arg_theme a with
      | Some t =>
          if bool_decide (t ∈ KerykeionChartTheme_args C) then Ok tt
          else raise (KerykeionException
                        ("Theme " +:+ t +:+ " is not available. Set None for default theme."))
      | None => Ok tt
      end;
  Ok {| new_settings_file := new_settings_file';
        chart_language := arg_chart_language a;
        active_points := active_points';
        active_aspects := active_aspects';
        output_directory := output_directory';
        language_settings := language_settings';
        chart_colors_settings := chart_colors_settings';
        planets_settings := planets_settings';
        aspects_settings := aspects_settings';
        chart_type := chart_type';
        user := user';
        available_planets_setting := available_planets_setting';
        available_kerykeion_celestial_points := available_kerykeion_celestial_points';
        aspects_list := aspects_list';
        t_user := t_user';
        t_available_kerykeion_celestial_points := t_available';
        double_chart_aspect_grid_type := arg_double_chart_aspect_grid_type a;
        height := height';
        width := width';
        location := location';
        geolat := geolat';
        geolon := geolon';
        t_name := t_name';
        main_radius := main_radius';
        first_circle_radius := first_circle_radius';
        second_circle_radius := second_circle_radius';
        third_circle_radius := third_circle_radius';
        scores := scores';
        color_style_tag := theme_style C (arg_theme a);
        template := None |}.

(** ** Template assembly *)

Definition _BASIC_CHART_VIEWBOX : string := "0 0 820 550.0".
Definition _WIDE_CHART_VIEWBOX : string := "0 0 1200 546.0".
Definition _TRANSIT_CHART_WITH_TABLE_VIWBOX : string := "0 0 960 546.0".

(** [template_dict]: slot name to value. *)
Abbreviation TemplateDict := (gmap string SlotValue).

(** [self.t_user] and [self.t_available_kerykeion_celestial_points], which
    exist only on Transit and Synastry charts. *)
Definition the_t_user (self : KerykeionChartSVG) : result AstrologicalSubjectModel :=
  match t_user self with
  | Some t => Ok t
  | None => raise (AttributeError "t_user")
  end.

Definition the_t_available (self : KerykeionChartSVG) :
    result (list (option KerykeionPointModel)) :=
  match t_available_kerykeion_celestial_points self with
  | Some l => Ok l
  | None => raise (AttributeError "t_available_kerykeion_celestial_points")
  end.

(** [self.language_settings[label]] and [self.language_settings.get(label,
    default)]. *)
Definition lang (self : KerykeionChartSVG) (label' : string) : result string :=
  py_getitem (language_settings self) label'.

Definition lang_get (self : KerykeionChartSVG) (label' default : string) : string :=
  py_get (language_settings self) label' default.

Definition colors (self : KerykeionChartSVG) (key : string) : result string :=
  py_getitem (chart_colors_settings self) key.

Definition seventh_house_degree (self : KerykeionChartSVG) : float :=
  abs_pos (seventh_house (chart_data (user self))).

Definition first_house_degree (self : KerykeionChartSVG) : float :=
  abs_pos (first_house (chart_data (user self))).

(** "Set the color style tag", "Set chart dimensions", "Set viewbox based on
    chart type". *)
Definition td_dimensions (self : KerykeionChartSVG) (td : TemplateDict) : TemplateDict :=
  let td := <["color_style_tag" := SStr (color_style_tag self)]> td in
  let td := <["chart_height" := SInt (height self)]> td in
  let td := <["chart_width" := SInt (width self)]> td in
  if bool_decide (chart_type self ∈ [Natal; ExternalNatal; Composite])
  then <["viewbox" := SStr _BASIC_CHART_VIEWBOX]> td
  else if bool_decide (double_chart_aspect_grid_type self = GridTable)
          && bool_decide (chart_type self = Transit)
  then <["viewbox" := SStr _TRANSIT_CHART_WITH_TABLE_VIWBOX]> td
  else <["viewbox" := SStr _WIDE_CHART_VIEWBOX]> td.

(** "Generate rings and circles based on chart type". *)
Definition td_rings (D : Drawers) (self : KerykeionChartSVG) (td : TemplateDict) :
    result TemplateDict :=
  if bool_decide (chart_type self ∈ [Transit; Synastry]) then
    paper_1 ← colors self "paper_1";
    ring_3 ← colors self "zodiac_transit_ring_3";
    let td := <["transitRing" := SStr (draw_transit_ring D (main_radius self) paper_1 ring_3)]> td in
    let td := <["degreeRing" :=
                 SStr (draw_transit_ring_degree_steps D (main_radius self)
                         (seventh_house_degree self))]> td in
    ring_2 ← colors self "zodiac_transit_ring_2";
    let td := <["first_circle" :=
                 SStr (draw_first_circle D (main_radius self) ring_2 (chart_type self) None)]> td in
    ring_1 ← colors self "zodiac_transit_ring_1";
    paper_1 ← colors self "paper_1";
    let td := <["second_circle" :=
                 SStr (draw_second_circle D (main_radius self) ring_1 paper_1
                         (chart_type self) None)]> td in
    ring_0 ← colors self "zodiac_transit_ring_0";
    paper_1 ← colors self "paper_1";
    let td := <["third_circle" :=
                 SStr (draw_third_circle D (main_radius self) ring_0 paper_1
                         (chart_type self) (third_circle_radius self))]> td in
    td ← (if bool_decide (double_chart_aspect_grid_type self = GridList) then
            let title :=
              if bool_decide (chart_type self = Synastry)
              then lang_get self "couple_aspects" "Couple Aspects"
              else lang_get self "transit_aspects" "Transit Aspects" in
            Ok (<["makeAspectGrid" :=
                   SStr (draw_transit_aspect_list D title (aspects_list self)
                           (planets_settings self) (aspects_settings self))]> td)
          else
            paper_0 ← colors self "paper_0";
            Ok (<["makeAspectGrid" :=
                   SStr (draw_transit_aspect_grid D paper_0 (available_planets_setting self)
                           (aspects_list self) (Some 550) (Some 450))]> td));
    Ok (<["makeAspects" :=
           SStr (_draw_all_transit_aspects_lines D (main_radius self)
                   (main_radius self - 160) self)]> td)
  else
    let td := <["transitRing" := SStr ""]> td in
    paper_0 ← colors self "paper_0";
    let td := <["degreeRing" :=
                 SStr (draw_degree_ring D (main_radius self) (first_circle_radius self)
                         (seventh_house_degree self) paper_0)]> td in
    ring_2 ← colors self "zodiac_radix_ring_2";
    let td := <["first_circle" :=
                 SStr (draw_first_circle D (main_radius self) ring_2 (chart_type self)
                         (Some (first_circle_radius self)))]> td in
    ring_1 ← colors self "zodiac_radix_ring_1";
    paper_1 ← colors self "paper_1";
    let td := <["second_circle" :=
                 SStr (draw_second_circle D (main_radius self) ring_1 paper_1
                         (chart_type self) (Some (second_circle_radius self)))]> td in
    ring_0 ← colors self "zodiac_radix_ring_0";
    paper_1 ← colors self "paper_1";
    let td := <["third_circle" :=
                 SStr (draw_third_circle D (main_radius self) ring_0 paper_1
                         (chart_type self) (third_circle_radius self))]> td in
    paper_0 ← colors self "paper_0";
    let td := <["makeAspectGrid" :=
                 SStr (draw_aspect_grid D paper_0 (available_planets_setting self)
                         (aspects_list self) None None)]> td in
    Ok (<["makeAspects" :=
           SStr (_draw_all_aspects_lines D (main_radius self)
                   (main_radius self - third_circle_radius self) self)]> td).

(** "Set chart title". *)
Definition td_title (self : KerykeionChartSVG) (td : TemplateDict) : result TemplateDict :=
  match chart_type self with
  | Synastry =>
      and_word ← lang self "and_word";
      t ← the_t_user self;
      Ok (<["stringTitle" :=
             SStr (name (chart_data (user self)) +:+ " " +:+ and_word +:+ " "
                   +:+ name (data t))]> td)
  | Transit =>
      transits ← lang self "transits";
      t ← the_t_user self;
      Ok (<["stringTitle" :=
             SStr (transits +:+ " " +:+ str_of_int (day t) +:+ "/"
                   +:+ str_of_int (month t) +:+ "/" +:+ str_of_int (year t))]> td)
  | Natal | ExternalNatal =>
      Ok (<["stringTitle" := SStr (name (chart_data (user self)))]> td)
  | Composite =>
      c ← as_composite "first_subject" (user self);
      and_word ← lang self "and_word";
      Ok (<["stringTitle" :=
             SStr (name (data (first_subject c)) +:+ " " +:+ and_word +:+ " "
                   +:+ name (data (second_subject c)))]> td)
  end.

(** The key under which a phase or perspective name is translated:
    [s.lower().replace(" ", "_")]. *)
Definition label_of (s : string) : string := replace " " "_" (lower s).

(** "Zodiac Type Info" and the five bottom-left lines. *)
Definition td_bottom_left (D : Drawers) (self : KerykeionChartSVG) (td : TemplateDict) :
    result TemplateDict :=
  let u := chart_data (user self) in
  zodiac_info ←
    (if String.eqb (zodiac_type u) "Tropic" then
       Ok (lang_get self "zodiac" "Zodiac" +:+ ": " +:+ lang_get self "tropical" "Tropical")
     else
       match sidereal_mode u with
       | None => raise TypeError
       | Some mode =>
           let mode_const := "SIDM_" +:+ mode in
           let mode_name := get_ayanamsa_name D mode_const in
           Ok (lang_get self "ayanamsa" "Ayanamsa" +:+ ": " +:+ mode_name)
       end);
  let td := <["bottom_left_0" :=
               SStr (lang_get self ("houses_system_" +:+ houses_system_identifier u)
                       (houses_system_name u)
                     +:+ " " +:+ lang_get self "houses" "Houses")]> td in
  let td := <["bottom_left_1" := SStr zodiac_info]> td in
  match chart_type self with
  | Natal | ExternalNatal | Synastry =>
      let td := <["bottom_left_2" :=
                   SStr (lang_get self "lunar_phase" "Lunar Phase" +:+ " "
                         +:+ lower (lang_get self "day" "Day") +:+ ": "
                         +:+ str_of_int (moon_phase (lunar_phase u)))]> td in
      let td := <["bottom_left_3" :=
                   SStr (lang_get self "lunar_phase" "Lunar Phase" +:+ ": "
                         +:+ lang_get self (label_of (moon_phase_name (lunar_phase u)))
                               (moon_phase_name (lunar_phase u)))]> td in
      Ok (<["bottom_left_4" :=
             SStr (lang_get self (label_of (perspective_type u)) (perspective_type u))]> td)
  | Transit =>
      t ← the_t_user self;
      let td := <["bottom_left_2" :=
                   SStr (lang_get self "lunar_phase" "Lunar Phase" +:+ ": "
                         +:+ lang_get self "day" "Day" +:+ " "
                         +:+ str_of_int (moon_phase (lunar_phase (data t))))]> td in
      let td := <["bottom_left_3" :=
                   SStr (lang_get self "lunar_phase" "Lunar Phase" +:+ ": "
                         +:+ moon_phase_name (lunar_phase (data t)))]> td in
      Ok (<["bottom_left_4" :=
             SStr (lang_get self (label_of (perspective_type (data t)))
                     (perspective_type (data t)))]> td)
  | Composite =>
      c ← as_composite "first_subject" (user self);
      let td := <["bottom_left_2" := SStr (perspective_type (data (first_subject c)))]> td in
      let td := <["bottom_left_3" :=
                   SStr (lang_get self "composite_chart" "Composite Chart" +:+ " - "
                         +:+ lang_get self "midpoints" "Midpoints")]> td in
      Ok (<["bottom_left_4" := SStr ""]> td)
  end.

(** "Draw moon phase". *)
Definition td_moon_phase (D : Drawers) (self : KerykeionChartSVG) (td : TemplateDict) :
    TemplateDict :=
  let moon_phase_dict :=
    calculate_moon_phase_chart_params D
      (degrees_between_s_m (lunar_phase (chart_data (user self)))) (geolat self) in
  let td := <["lunar_phase_rotate" := SFloat (lunar_phase_rotate moon_phase_dict)]> td in
  let td := <["lunar_phase_circle_center_x" := SFloat (circle_center_x moon_phase_dict)]> td in
  <["lunar_phase_circle_radius" := SFloat (circle_radius moon_phase_dict)]> td.

(** The location text of a chart that is not a Composite, lines 620-629:
    the [elif len(self.location) > 35] chain. *)
Definition location_string (location' : string) : string :=
  if 35 <? len location' then
    let split_location := split "," location' in
    if (1 <? Z.of_nat (length split_location)) then
      let top_left_1 :=
        default "" (head split_location) +:+ ", " +:+ default "" (last split_location) in
      if 35 <? len top_left_1 then str_take 35 top_left_1 +:+ "..." else top_left_1
    else str_take 35 location' +:+ "..."
  else location'.

(** "Set location string". *)
Definition td_location (D : Drawers) (self : KerykeionChartSVG) (td : TemplateDict) :
    result TemplateDict :=
  if bool_decide (chart_type self = Composite) then
    c ← as_composite "first_subject" (user self);
    Ok (<["top_left_1" :=
           SStr (strftime D (iso_formatted_local_datetime (first_subject c))
                   "%Y-%m-%d %H:%M")]> td)
  else Ok (<["top_left_1" := SStr (location_string (location self))]> td).

(** "Set chart name". *)
Definition td_chart_name (self : KerykeionChartSVG) (td : TemplateDict) :
    result TemplateDict :=
  match chart_type self with
  | Synastry | Transit =>
      Ok (<["top_left_0" := SStr (name (chart_data (user self)) +:+ ":")]> td)
  | Natal | ExternalNatal =>
      info ← lang self "info";
      Ok (<["top_left_0" := SStr (info +:+ ":")]> td)
  | Composite =>
      c ← as_composite "first_subject" (user self);
      Ok (<["top_left_0" := SStr (name (data (first_subject c)))]> td)
  end.

(** "Set additional information for Synastry chart type" and its two
    alternatives. *)
Definition td_top_left_345 (D : Drawers) (self : KerykeionChartSVG) (td : TemplateDict) :
    result TemplateDict :=
  match chart_type self with
  | Synastry =>
      t ← the_t_user self;
      let td := <["top_left_3" := SStr (name (data t) +:+ ": ")]> td in
      let td := <["top_left_4" := SStr (city t)]> td in
      Ok (<["top_left_5" :=
             SStr (str_of_int (year t) +:+ "-" +:+ str_of_int (month t) +:+ "-"
                   +:+ str_of_int (day t) +:+ " " +:+ str_of_int_02d (hour t) +:+ ":"
                   +:+ str_of_int_02d (minute t))]> td)
  | Composite =>
      c ← as_composite "second_subject" (user self);
      let td := <["top_left_3" := SStr (name (data (second_subject c)))]> td in
      let td := <["top_left_4" :=
                   SStr (strftime D (iso_formatted_local_datetime (second_subject c))
                           "%Y-%m-%d %H:%M")]> td in
      north ← lang self "north_letter";
      south ← lang self "south_letter";
      let latitude_string :=
        convert_latitude_coordinate_to_string D (lat (second_subject c)) north south in
      east ← lang self "east_letter";
      west ← lang self "west_letter";
      let longitude_string :=
        convert_longitude_coordinate_to_string D (lng (second_subject c)) east west in
      Ok (<["top_left_5" := SStr (latitude_string +:+ " / " +:+ longitude_string)]> td)
  | Natal | ExternalNatal | Transit =>
      north ← lang self "north";
      south ← lang self "south";
      let latitude_string :=
        convert_latitude_coordinate_to_string D (geolat self) north south in
      east ← lang self "east";
      west ← lang self "west";
      let longitude_string :=
        convert_longitude_coordinate_to_string D (geolon self) east west in
      latitude ← lang self "latitude";
      let td := <["top_left_3" := SStr (latitude +:+ ": " +:+ latitude_string)]> td in
      longitude ← lang self "longitude";
      let td := <["top_left_4" := SStr (longitude +:+ ": " +:+ longitude_string)]> td in
      type ← lang self "type";
      Ok (<["top_left_5" :=
             SStr (type +:+ ": "
                   +:+ lang_get self (ChartType_str (chart_type self))
                         (ChartType_str (chart_type self)))]> td)
  end.

(** "Set planet colors", "Set zodiac colors", "Set orb colors": the three
    loops that write computed slot names. *)
Definition planet_colors_loop (planets : list KerykeionSettingsCelestialPointModel)
    (td : TemplateDict) : TemplateDict :=
  fold_left (fun td planet =>
               <["planets_color_" +:+ str_of_int (body_id planet) := SStr (color planet)]> td)
            planets td.

Fixpoint zodiac_colors_loop (self : KerykeionChartSVG) (indices : list Z)
    (td : TemplateDict) : result TemplateDict :=
  match indices with
  | [] => Ok td
  | i :: indices' =>
      icon ← colors self ("zodiac_icon_" +:+ str_of_int i);
      zodiac_colors_loop self indices' (<["zodiac_color_" +:+ str_of_int i := SStr icon]> td)
  end.

Definition orb_colors_loop (aspects : list AspectSetting) (td : TemplateDict) :
    TemplateDict :=
  fold_left (fun td aspect' =>
               <["orb_color_" +:+ str_of_int (degree aspect') := SStr (aspect_color aspect')]> td)
            aspects td.

(** [range(12)]. *)
Definition range12 : list Z := [0; 1; 2; 3; 4; 5; 6; 7; 8; 9; 10; 11].

Definition td_colors (self : KerykeionChartSVG) (td : TemplateDict) : result TemplateDict :=
  paper_0 ← colors self "paper_0";
  let td := <["paper_color_0" := SStr paper_0]> td in
  paper_1 ← colors self "paper_1";
  let td := <["paper_color_1" := SStr paper_1]> td in
  let td := planet_colors_loop (planets_settings self) td in
  td ← zodiac_colors_loop self range12 td;
  Ok (orb_colors_loop (aspects_settings self) td).

(** [self.planets_settings[i]["color"]]. *)
Definition planet_color (self : KerykeionChartSVG) (i : Z) : result string :=
  body ← py_index (planets_settings self) i;
  Ok (color body).

(** "Drawing functions", "Draw houses grid and cusps". *)
Definition td_houses (D : Drawers) (self : KerykeionChartSVG) (td : TemplateDict) :
    result TemplateDict :=
  zodiac ← _draw_zodiac_circle_slices D (main_radius self) self;
  let td := <["makeZodiac" := SStr zodiac]> td in
  let first_subject_houses_list := get_houses_list D (user self) in
  if bool_decide (chart_type self ∈ [Transit; Synastry]) then
    t ← the_t_user self;
    let second_subject_houses_list := get_houses_list D (ASubject t) in
    paper_0 ← colors self "paper_0";
    cusp ← lang self "cusp";
    let td := <["makeHousesGrid" :=
                 SStr (draw_house_grid D first_subject_houses_list (chart_type self)
                         paper_0 cusp (Some second_subject_houses_list))]> td in
    radix_line ← colors self "houses_radix_line";
    first_house_color ← planet_color self 12;
    tenth_house_color ← planet_color self 13;
    seventh_house_color ← planet_color self 14;
    fourth_house_color ← planet_color self 15;
    transit_line ← colors self "houses_transit_line";
    Ok (<["makeHouses" :=
           SStr (draw_houses_cusps_and_text_number D (main_radius self)
                   first_subject_houses_list radix_line first_house_color
                   tenth_house_color seventh_house_color fourth_house_color
                   (first_circle_radius self) (third_circle_radius self) (chart_type self)
                   (Some second_subject_houses_list) (Some transit_line))]> td)
  else
    paper_0 ← colors self "paper_0";
    cusp ← lang self "cusp";
    let td := <["makeHousesGrid" :=
                 SStr (draw_house_grid D first_subject_houses_list (chart_type self)
                         paper_0 cusp None)]> td in
    radix_line ← colors self "houses_radix_line";
    first_house_color ← planet_color self 12;
    tenth_house_color ← planet_color self 13;
    seventh_house_color ← planet_color self 14;
    fourth_house_color ← planet_color self 15;
    Ok (<["makeHouses" :=
           SStr (draw_houses_cusps_and_text_number D (main_radius self)
                   first_subject_houses_list radix_line first_house_color
                   tenth_house_color seventh_house_color fourth_house_color
                   (first_circle_radius self) (third_circle_radius self) (chart_type self)
                   None None)]> td).

(** "Draw planets". *)
Definition td_planets (D : Drawers) (self : KerykeionChartSVG) (td : TemplateDict) :
    result TemplateDict :=
  if bool_decide (chart_type self ∈ [Transit; Synastry]) then
    second ← the_t_available self;
    Ok (<["makePlanets" :=
           SStr (draw_planets D (main_radius self)
                   (available_kerykeion_celestial_points self)
                   (available_planets_setting self) (third_circle_radius self)
                   (first_house_degree self) (seventh_house_degree self)
                   (chart_type self) (Some second))]> td)
  else
    Ok (<["makePlanets" :=
           SStr (draw_planets D (main_radius self)
                   (available_kerykeion_celestial_points self)
                   (available_planets_setting self) (third_circle_radius self)
                   (first_house_degree self) (seventh_house_degree self)
                   (chart_type self) None)]> td).

(** Python's [round] on a number with an exact value [q]: to the nearest
    integer, a tie to the even one. *)
Definition py_round (q : Q) : Z :=
  let f := Qfloor q in
  match Qcompare (q - inject_Z f) (1 # 2) with
  | Lt => f
  | Gt => f + 1
  | Eq => if Z.even f then f else f + 1
  end.

(** [int(round(100 * score / total))]. The scores are integers held in
    floats; the quotient is taken exactly. Binary64 division rounds the
    exact quotient to the nearest float, which lands on the same side of
    every half-integer as long as [total] stays below 2^40. *)
Definition percentage (score total : Z) : result Z :=
  if total =? 0 then raise ZeroDivisionError
  else Ok (py_round (inject_Z (100 * score) / inject_Z total)).

(** "Draw elements percentages". *)
Definition td_elements (self : KerykeionChartSVG) (td : TemplateDict) : result TemplateDict :=
  let s := scores self in
  let total := fire s + water s + earth s + air s in
  fire_percentage ← percentage (fire s) total;
  earth_percentage ← percentage (earth s) total;
  air_percentage ← percentage (air s) total;
  water_percentage ← percentage (water s) total;
  fire_label ← lang self "fire";
  let td := <["fire_string" := SStr (fire_label +:+ " " +:+ str_of_int fire_percentage +:+ "%")]> td in
  earth_label ← lang self "earth";
  let td := <["earth_string" := SStr (earth_label +:+ " " +:+ str_of_int earth_percentage +:+ "%")]> td in
  air_label ← lang self "air";
  let td := <["air_string" := SStr (air_label +:+ " " +:+ str_of_int air_percentage +:+ "%")]> td in
  water_label ← lang self "water";
  Ok (<["water_string" := SStr (water_label +:+ " " +:+ str_of_int water_percentage +:+ "%")]> td).

(** "Draw planet grid". *)
Definition td_planet_grid (D : Drawers) (self : KerykeionChartSVG) (td : TemplateDict) :
    result TemplateDict :=
  if bool_decide (chart_type self ∈ [Transit; Synastry]) then
    second_subject_table_name ←
      (if bool_decide (chart_type self = Transit) then lang self "transit_name"
       else t ← the_t_user self; Ok (name (data t)));
    title ← lang self "planets_and_house";
    paper_0 ← colors self "paper_0";
    celestial_points ← lang self "celestial_points";
    second ← the_t_available self;
    Ok (<["makePlanetGrid" :=
           SStr (draw_planet_grid D title (name (chart_data (user self)))
                   (available_kerykeion_celestial_points self) (chart_type self)
                   paper_0 celestial_points (Some second_subject_table_name)
                   (Some second))]> td)
  else
    subject_name ←
      (if bool_decide (chart_type self = Composite) then
         c ← as_composite "first_subject" (user self);
         and_word ← lang self "and_word";
         Ok (name (data (first_subject c)) +:+ " " +:+ and_word +:+ " "
             +:+ name (data (second_subject c)))
       else Ok (name (chart_data (user self))));
    title ← lang self "planets_and_house";
    paper_0 ← colors self "paper_0";
    celestial_points ← lang self "celestial_points";
    Ok (<["makePlanetGrid" :=
           SStr (draw_planet_grid D title subject_name
                   (available_kerykeion_celestial_points self) (chart_type self)
                   paper_0 celestial_points None None)]> td).

(** "Set date time string". *)
Definition td_date_time (D : Drawers) (self : KerykeionChartSVG) (td : TemplateDict) :
    result TemplateDict :=
  if bool_decide (chart_type self ∈ [Composite]) then
    c ← as_composite "first_subject" (user self);
    north ← lang self "north_letter";
    south ← lang self "south_letter";
    let latitude :=
      convert_latitude_coordinate_to_string D (lat (first_subject c)) north south in
    east ← lang self "east_letter";
    west ← lang self "west_letter";
    let longitude :=
      convert_longitude_coordinate_to_string D (lng (first_subject c)) east west in
    Ok (<["top_left_2" := SStr (latitude +:+ " " +:+ longitude)]> td)
  else
    s ← as_subject "iso_formatted_local_datetime" (user self);
    let custom_format := strftime D (iso_formatted_local_datetime s) "%Y-%m-%d %H:%M [%z]" in
    let custom_format := str_drop_last 3 custom_format +:+ ":" +:+ str_last 3 custom_format in
    Ok (<["top_left_2" := SStr custom_format]> td).

(** [_create_template_dictionary]: the blocks in the order of the source.
    The method assigns to no attribute of [self]. *)
Definition _create_template_dictionary (D : Drawers) (self : KerykeionChartSVG) :
    result TemplateDict :=
  let td : TemplateDict := ∅ in
  let td := td_dimensions self td in
  td ← td_rings D self td;
  td ← td_title self td;
  td ← td_bottom_left D self td;
  let td := td_moon_phase D self td in
  td ← td_location D self td;
  td ← td_chart_name self td;
  td ← td_top_left_345 D self td;
  td ← td_colors self td;
  td ← td_houses D self td;
  td ← td_planets D self td;
  td ← td_elements self td;
  td ← td_planet_grid D self td;
  td_date_time D self td.

(** ** Rendering *)

(** The tail shared by the three [make...Template] methods. *)
Definition finish_template (D : Drawers) (minify remove_css_variables : bool)
    (template' : string) : string :=
  let template' :=
    if remove_css_variables then inline_css_variables_in_svg D template' else template' in
  if minify then
    replace "  " ""
      (replace "    " ""
         (replace tab ""
            (replace newline ""
               (replace dquote "'" (scourString D template')))))
  else replace dquote "'" template'.

Definition makeTemplate (D : Drawers) (minify remove_css_variables : bool) : M string :=
  td ← reading (_create_template_dictionary D);
  template' ← reading (fun _ => substitute D (chart_xml D) td);
  _ ← reading (_create_template_dictionary D);
  mret (finish_template D minify remove_css_variables template').

(** Writing the file and printing the message act outside the instance. *)
Definition makeSVG (D : Drawers) (minify remove_css_variables : bool) : M unit :=
  template' ← makeTemplate D minify remove_css_variables;
  assign (set_template (Some template')).

Definition makeWheelOnlyTemplate (D : Drawers) (minify remove_css_variables : bool) :
    M string :=
  template_dict ← reading (_create_template_dictionary D);
  template' ← reading (fun _ => substitute D (wheel_only_xml D) template_dict);
  mret (finish_template D minify remove_css_variables template').

Definition makeWheelOnlySVG (D : Drawers) (minify remove_css_variables : bool) : M unit :=
  _ ← makeWheelOnlyTemplate D minify remove_css_variables;
  mret tt.

Definition makeAspectGridOnlyTemplate (D : Drawers) (minify remove_css_variables : bool) :
    M string :=
  template_dict ← reading (_create_template_dictionary D);
  aspects_grid ← reading (fun self =>
    paper_0 ← colors self "paper_0";
    if bool_decide (chart_type self ∈ [Transit; Synastry])
    then Ok (draw_transit_aspect_grid D paper_0 (available_planets_setting self)
               (aspects_list self) None None)
    else Ok (draw_aspect_grid D paper_0 (available_planets_setting self)
               (aspects_list self) (Some 50) (Some 250)));
  template' ← reading (fun _ =>
    substitute D (aspect_grid_only_xml D)
      (<["makeAspectGrid" := SStr aspects_grid]> template_dict));
  mret (finish_template D minify remove_css_variables template').

Definition makeAspectGridOnlySVG (D : Drawers) (minify remove_css_variables : bool) :
    M unit :=
  _ ← makeAspectGridOnlyTemplate D minify remove_css_variables;
  mret tt.

(** The operations a caller can apply to a constructed instance. *)
Inductive Operation : Type :=
  | Op_set_up_theme (theme : option string)
  | Op_set_output_directory (dir_path : string)
  | Op_parse_json_settings (source : SettingsSource)
  | Op_calculate_elements_points_from_planets
  | Op_draw_zodiac_circle_slices (r : Z)
  | Op_draw_all_aspects_lines (r ar : Z)
  | Op_draw_all_transit_aspects_lines (r ar : Z)
  | Op_create_template_dictionary
  | Op_makeTemplate (minify remove_css_variables : bool)
  | Op_makeSVG (minify remove_css_variables : bool)
  | Op_makeWheelOnlyTemplate (minify remove_css_variables : bool)
  | Op_makeWheelOnlySVG (minify remove_css_variables : bool)
  | Op_makeAspectGridOnlyTemplate (minify remove_css_variables : bool)
  | Op_makeAspectGridOnlySVG (minify remove_css_variables : bool).

(** The instance after an operation, whether it returned or raised. *)
Definition after (C : Collaborators) (D : Drawers) (op : Operation)
    (self : KerykeionChartSVG) : KerykeionChartSVG :=
  match op with
  | Op_set_up_theme theme => fst (set_up_theme C theme self)
  | Op_set_output_directory dir_path => fst (set_output_directory_method dir_path self)
  | Op_parse_json_settings source => fst (parse_json_settings C source self)
  | Op_calculate_elements_points_from_planets =>
      fst (_calculate_elements_points_from_planets self)
  | Op_draw_zodiac_circle_slices r =>
      fst (reading (_draw_zodiac_circle_slices D r) self)
  | Op_draw_all_aspects_lines r ar =>
      fst (reading (fun self => Ok (_draw_all_aspects_lines D r ar self)) self)
  | Op_draw_all_transit_aspects_lines r ar =>
      fst (reading (fun self => Ok (_draw_all_transit_aspects_lines D r ar self)) self)
  | Op_create_template_dictionary => fst (reading (_create_template_dictionary D) self)
  | Op_makeTemplate m r => fst (makeTemplate D m r self)
  | Op_makeSVG m r => fst (makeSVG D m r self)
  | Op_makeWheelOnlyTemplate m r => fst (makeWheelOnlyTemplate D m r self)
  | Op_makeWheelOnlySVG m r => fst (makeWheelOnlySVG D m r self)
  | Op_makeAspectGridOnlyTemplate m r => fst (makeAspectGridOnlyTemplate D m r self)
  | Op_makeAspectGridOnlySVG m r => fst (makeAspectGridOnlySVG D m r self)
  end.

(** ** Output files *)

(** The names of the files that the three writers create in
    [self.output_directory]:
    [f"{self.user.name} - {self.chart_type} Chart.svg"],
    [f"{self.user.name} - {self.chart_type} Chart - Wheel Only.svg"] and
    [f"{self.user.name} - {self.chart_type} Chart - Aspect Grid Only.svg"]. *)
Definition makeSVG_chartname (self : KerykeionChartSVG) : string :=
  name (chart_data (user self)) +:+ " - " +:+ ChartType_str (chart_type self)
  +:+ " Chart.svg".

Definition makeWheelOnlySVG_chartname (self : KerykeionChartSVG) : string :=
  name (chart_data (user self)) +:+ " - " +:+ ChartType_str (chart_type self)
  +:+ " Chart - Wheel Only.svg".

Definition makeAspectGridOnlySVG_chartname (self : KerykeionChartSVG) : string :=
  name (chart_data (user self)) +:+ " - " +:+ ChartType_str (chart_type self)
  +:+ " Chart - Aspect Grid Only.svg".
(** *** What the element calculation is expected to compute *)

(** The element of a sign index in the order Aries .. Pisces. *)
Definition sign_element (cz : Z) : string :=
  match cz with
  | 0 | 4 | 8 => "fire"
  | 1 | 5 | 9 => "earth"
  | 2 | 6 | 10 => "air"
  | 3 | 7 | 11 => "water"
  | _ => ""
  end.

Definition elements_names : list string := ["fire"; "earth"; "air"; "water"].

Definition bucket (e : string) (s : Elements) : Z :=
  if String.eqb e "fire" then fire s
  else if String.eqb e "earth" then earth s
  else if String.eqb e "air" then air s
  else if String.eqb e "water" then water s
  else 0.

(** Base weight of a point, plus the bonus when its sign is one of its
    related signs. *)
Definition point_score (body : KerykeionSettingsCelestialPointModel) (cz : Z) : Z :=
  element_points body + (if bool_decide (cz ∈ related_zodiac_signs body) then 10 else 0).

(** What the point configured by [body] adds to the bucket [e]. *)
Definition contribution (d : ChartData) (e : string)
    (body : KerykeionSettingsCelestialPointModel) : Z :=
  match get d (lower (body_name body)) with
  | Some p => if String.eqb (sign_element (sign_num p)) e
              then point_score body (sign_num p) else 0
  | None => 0
  end.

Definition sum_Z (l : list Z) : Z := foldr Z.add 0 l.

(** The point configured by [body] exists on the chart and its sign index
    is one of the twelve. *)
Definition placed (d : ChartData) (body : KerykeionSettingsCelestialPointModel) : Prop :=
  exists p, get d (lower (body_name body)) = Some p /\ 0 <= sign_num p < 12.

(** The scores are binary64 numbers in the source, and the weights are
    added to them one by one. An integer of magnitude up to [2 ^ 53] is a
    binary64 number, and the binary64 sum of two such integers is their sum
    when that is in the range as well. The scores [s] and the weights of
    [avail], each with the 10 extra points, are in that range together:
    every sum that the calculation forms from them is exact. *)
Definition exact_in_binary64 (s : Elements)
    (avail : list KerykeionSettingsCelestialPointModel) : Prop :=
  Z.abs (fire s) + Z.abs (earth s) + Z.abs (air s) + Z.abs (water s)
  + sum_Z (map (fun body => Z.abs (element_points body) + 10) avail) <= 2 ^ 53.


(** *** What the aspect-line drawers are expected to emit *)

(** The colour configured for an aspect kind: the colour of the first entry
    of the aspects settings that carries the name of the kind, when that
    colour is a non-empty text. *)
Definition configured_color (settings : list AspectSetting) (kind : string) :
    option string :=
  match list_find (fun s => aspect_name s = kind) settings with
  | Some (_, s) => if decide (aspect_color s = "") then None else Some (aspect_color s)
  | None => None
  end.

(** The chord of one aspect record, if its kind has a configured colour. *)
Definition chord (D : Drawers) (self : KerykeionChartSVG) (r ar : Z) (a : AspectModel) :
    option string :=
  c ← configured_color (aspects_settings self) (aspect a);
  Some (draw_aspect_line D r ar a c (abs_pos (seventh_house (chart_data (user self))))).

(** Fragments written one after the other. *)
Definition join (fragments : list string) : string := foldr String.append "" fragments.

(** *** What the location line is expected to show *)

Definition comma : ascii := ",".

Fixpoint has_comma (s : string) : bool :=
  match s with
  | EmptyString => false
  | String c s' => Ascii.eqb c comma || has_comma s'
  end.

(** The text before the first comma. *)
Fixpoint first_segment (s : string) : string :=
  match s with
  | EmptyString => EmptyString
  | String c s' => if Ascii.eqb c comma then EmptyString else String c (first_segment s')
  end.

(** The text after the last comma; the whole text when there is none. *)
Fixpoint last_segment (s : string) : string :=
  match s with
  | EmptyString => EmptyString
  | String c s' =>
      if has_comma s' then last_segment s'
      else if Ascii.eqb c comma then s' else String c s'
  end.

(** The first 35 characters and an ellipsis. *)
Definition ellipsis35 (s : string) : string := String.substring 0 35 s +:+ "...".

(** *** What a constructed instance is expected to hold *)

Definition no_points : Elements := {| fire := 0; earth := 0; air := 0; water := 0 |}.

(** The facts about an instance that the constructor returned for the
    arguments [a]. *)
Record Constructed (C : Collaborators) (a : InitArgs) (self : KerykeionChartSVG) : Prop := {
  constructed_chart_type : chart_type self = arg_chart_type a;
  constructed_user : user self = arg_first_obj a;
  constructed_grid :
    double_chart_aspect_grid_type self = arg_double_chart_aspect_grid_type a;
  constructed_language :
    settings_language_settings (get_settings C (arg_new_settings_file a))
      !! arg_chart_language a = Some (language_settings self);
  constructed_height : height self = _DEFAULT_HEIGHT;
  constructed_width :
    width self = screen_width (arg_chart_type a) (arg_double_chart_aspect_grid_type a);
  constructed_main_radius : main_radius self = 240;
  constructed_radii :
    (first_circle_radius self, second_circle_radius self, third_circle_radius self)
    = circle_radii (arg_chart_type a);
  constructed_available :
    available_planets_setting self
    = select_active (arg_active_points a)
        (settings_celestial_points (get_settings C (arg_new_settings_file a)));
  constructed_scores :
    calculate_elements (chart_data (arg_first_obj a)) (available_planets_setting self)
      no_points = (scores self, Ok tt);
  constructed_place :
    match arg_chart_type a with
    | Natal | ExternalNatal | Synastry =>
        exists s, arg_first_obj a = ASubject s /\
          location self = city s /\ geolat self = lat s /\ geolon self = lng s
    | Transit =>
        exists t, arg_second_obj a = Some t /\
          location self = city t /\ geolat self = lat t /\ geolon self = lng t
    | Composite =>
        exists c, arg_first_obj a = AComposite c /\
          location self = "" /\
          geolat self = ((lat (first_subject c) + lat (second_subject c)) / 2)%float /\
          geolon self = ((lng (first_subject c) + lng (second_subject c)) / 2)%float
    end;
  constructed_t_user :
    match arg_chart_type a with
    | Transit | Synastry =>
        exists t, arg_second_obj a = Some t /\ t_user self = Some t /\
          is_Some (t_available_kerykeion_celestial_points self)
    | _ => t_user self = None
    end;
  constructed_theme :
    forall t, arg_theme a = Some t -> t ∈ KerykeionChartTheme_args C;
}.

(** The arguments [a] with another [theme]. *)
Definition with_theme (theme : option string) (a : InitArgs) : InitArgs :=
  {| arg_first_obj := arg_first_obj a; arg_chart_type := arg_chart_type a;
     arg_second_obj := arg_second_obj a;
     arg_new_output_directory := arg_new_output_directory a;
     arg_new_settings_file := arg_new_settings_file a;
     arg_theme := theme;
     arg_double_chart_aspect_grid_type := arg_double_chart_aspect_grid_type a;
     arg_chart_language := arg_chart_language a;
     arg_active_points := arg_active_points a;
     arg_active_aspects := arg_active_aspects a |}.

(** The instance after a sequence of operations. *)
Definition after_all (C : Collaborators) (D : Drawers) (ops : list Operation)
    (self : KerykeionChartSVG) : KerykeionChartSVG :=
  fold_left (fun self op => after C D op self) ops self.

(** The four radii of an instance. *)
Definition radii (self : KerykeionChartSVG) : Z * Z * Z * Z :=
  (first_circle_radius self, second_circle_radius self, third_circle_radius self,
   main_radius self).

(** A method that leaves the instance as it was, whatever it returns. *)
Definition leaves_instance {A} (m : M A) : Prop := forall self, fst (m self) = self.

(** The slots written under "Set chart dimensions" and "Set viewbox". *)
Definition dimension_slots : list string := ["chart_height"; "chart_width"; "viewbox"].

(** What "Set chart dimensions" and "Set viewbox" read from an instance. *)
Definition dimensions (self : KerykeionChartSVG) : Z * Z * ChartType * GridType :=
  (height self, width self, chart_type self, double_chart_aspect_grid_type self).

(** *** What the element percentages are expected to be *)

(** The sum of the four raw scores. *)
Definition element_total (s : Elements) : Z := fire s + water s + earth s + air s.

(** The point configured by [body] is on the chart [d] and its score, the
    base weight plus the bonus, is more than 0. *)
Definition scores_positive (d : ChartData) (body : KerykeionSettingsCelestialPointModel) :
    Prop :=
  exists p, get d (lower (body_name body)) = Some p /\ 0 < point_score body (sign_num p).

(** No bucket of [s'] is below the same bucket of [s]. *)
Definition no_bucket_below (s s' : Elements) : Prop :=
  fire s <= fire s' /\ earth s <= earth s' /\ air s <= air s' /\ water s <= water s'.

(** *** What the assembly is expected to do with a missing label *)

(** How a computation ends: [None] when it returns, the exception when it
    raises. *)
Definition outcome {A} (r : result A) : option exn :=
  match r with Ok _ => None | Err e => Some e end.

(** The labels the assembly reads by subscript,
    [self.language_settings[label]]; every other label is read with
    [self.language_settings.get(label, default)]. *)
Definition subscripted_labels : list string :=
  ["and_word"; "transits"; "info"; "north_letter"; "south_letter"; "east_letter";
   "west_letter"; "north"; "south"; "east"; "west"; "latitude"; "longitude"; "type";
   "cusp"; "fire"; "earth"; "air"; "water"; "transit_name"; "planets_and_house";
   "celestial_points"].

(** *** What a rendered text is expected to hold *)

(** The text [piece] occurs somewhere in [s]. *)
Fixpoint contains (piece s : string) : bool :=
  String.prefix piece s
  || match s with
     | EmptyString => false
     | String _ s' => contains piece s'
     end.

(** The text of one character. *)
Definition char (c : ascii) : string := String c EmptyString.

(** *** What a second element calculation is expected to give *)

(** The scores [s] with the scores [u] added bucket by bucket. *)
Definition plus_scores (u s : Elements) : Elements :=
  {| fire := fire u + fire s; earth := earth u + earth s;
     air := air u + air s; water := water u + water s |}.

(** ** A sample chart

    Concrete subjects, settings and drawers on which the definitions above
    evaluate; the drawers print a short tag instead of SVG. *)

Module Sample.

Definition point (n : string) (degree' : float) (sign : Z) : KerykeionPointModel :=
  {| point_name := n; abs_pos := degree'; sign_num := sign |}.

Definition chart_of (n : string) (perspective : string) : ChartData :=
  {| name := n;
     points := list_to_map
       [("sun", point "Sun" 130.5%float 4);
        ("moon", point "Moon" 40.25%float 1);
        ("mean_node", point "Mean_Node" 75%float 2)];
     first_house := point "First_House" 10%float 0;
     seventh_house := point "Seventh_House" 190%float 6;
     zodiac_type := "Tropic";
     sidereal_mode := None;
     houses_system_identifier := "P";
     houses_system_name := "Placidus";
     perspective_type := perspective;
     lunar_phase := {| degrees_between_s_m := 270.25%float; moon_phase := 21;
                       moon_phase_name := "Last Quarter" |} |}.

Definition john : AstrologicalSubjectModel :=
  {| data := chart_of "John" "Apparent Geocentric";
     city := "Liverpool"; lat := 53.25%float; lng := (-3)%float;
     year := 1940; month := 10; day := 9; hour := 18; minute := 30;
     iso_formatted_local_datetime := "1940-10-09T18:30:00+01:00" |}.

Definition paul : AstrologicalSubjectModel :=
  {| data := chart_of "Paul" "Apparent Geocentric";
     city := "Springfield, Some County, Some State, Some Country";
     lat := 41.5%float; lng := 12.5%float;
     year := 1942; month := 6; day := 18; hour := 5; minute := 7;
     iso_formatted_local_datetime := "1942-06-18T05:07:00+02:00" |}.


Definition body (i : Z) (n : string) (weight : Z) (related : list Z) :
    KerykeionSettingsCelestialPointModel :=
  {| body_id := i; body_name := n; color := "var(--point-" +:+ pretty i +:+ ")";
     element_points := weight; related_zodiac_signs := related;
     label := n; is_active := false |}.

Definition celestial_points : list KerykeionSettingsCelestialPointModel :=
  [ body 0 "Sun" 40 [4]; body 1 "Moon" 40 [3]; body 2 "Mercury" 15 [2; 5];
    body 3 "Venus" 15 [1; 6]; body 4 "Mars" 15 [0]; body 5 "Jupiter" 10 [8];
    body 6 "Saturn" 10 [9]; body 7 "Uranus" 10 [10]; body 8 "Neptune" 10 [11];
    body 9 "Pluto" 10 [7]; body 10 "Mean_Node" 0 []; body 11 "True_Node" 0 [];
    body 12 "First_House" 40 []; body 13 "Tenth_House" 20 [];
    body 14 "Seventh_House" 0 []; body 15 "Fourth_House" 0 [] ].

Definition aspects : list AspectSetting :=
  [ {| degree := 0; aspect_name := "conjunction"; aspect_color := "red" |};
    {| degree := 90; aspect_name := "square"; aspect_color := "blue" |};
    {| degree := 120; aspect_name := "trine"; aspect_color := "" |} ].

Definition numbered (prefix : string) (l : list Z) : list (string * string) :=
  map (fun i => (prefix +:+ pretty i, prefix +:+ pretty i +:+ "-colour")) l.

Definition chart_colors : gmap string string :=
  list_to_map
    ([("paper_0", "black"); ("paper_1", "white");
      ("houses_radix_line", "grey"); ("houses_transit_line", "silver")]
     ++ numbered "zodiac_radix_ring_" [0; 1; 2]
     ++ numbered "zodiac_transit_ring_" [0; 1; 2; 3]
     ++ numbered "zodiac_bg_" range12
     ++ numbered "zodiac_icon_" range12).

(** A language table with the labels that are read by subscript and none
    of those that are read with a default. *)
Definition english : gmap string string :=
  list_to_map
    [("info", "Info"); ("cusp", "Cusp"); ("longitude", "Longitude");
     ("latitude", "Latitude"); ("north", "North"); ("east", "East");
     ("south", "South"); ("west", "West"); ("fire", "Fire"); ("earth", "Earth");
     ("air", "Air"); ("water", "Water"); ("and_word", "and");
     ("transits", "Transits"); ("type", "Type"); ("planets_and_house", "Points");
     ("transit_name", "At the time of the transit");
     ("celestial_points", "{Sun: Sun, Moon: Moon}");
     ("north_letter", "N"); ("east_letter", "E"); ("south_letter", "S");
     ("west_letter", "W")].

Definition settings : KerykeionSettingsModel :=
  {| settings_language_settings := {["EN" := english]};
     settings_chart_colors := chart_colors;
     settings_celestial_points := celestial_points;
     settings_aspects := aspects |}.

Definition an_aspect (kind : string) : AspectModel :=
  {| p1_name := "Sun"; p1_abs_pos := 130.5%float; p2_name := "Moon";
     p2_abs_pos := 40.25%float; aspect := kind; orbit := 0.25%float |}.

Definition relevant_aspects : list AspectModel :=
  [an_aspect "square"; an_aspect "quintile"; an_aspect "trine"; an_aspect "conjunction"].

Definition collaborators : Collaborators :=
  {| get_settings := fun source =>
       match source with SettingsObject m => m | _ => settings end;
     NatalAspects_relevant_aspects := fun _ _ _ _ => relevant_aspects;
     SynastryAspects_relevant_aspects := fun _ _ _ _ _ => relevant_aspects;
     KerykeionChartTheme_args :=
       ["light"; "dark"; "dark-high-contrast"; "classic"; "strawberry"];
     theme_css := fun t => "/* " +:+ t +:+ " */";
     home_directory := "/home/user" |}.

Definition drawers : Drawers :=
  {| Sign_args := ["Ari"; "Tau"; "Gem"; "Can"; "Leo"; "Vir"; "Lib"; "Sco"; "Sag";
                   "Cap"; "Aqu"; "Pis"];
     draw_zodiac_slice := fun _ _ _ _ _ style' sign => "<slice " +:+ sign +:+ "/>";
     draw_aspect_line := fun _ _ a c _ => "<line " +:+ aspect a +:+ " " +:+ c +:+ "/>";
     draw_transit_ring_degree_steps := fun _ _ => "<steps/>";
     draw_degree_ring := fun _ _ _ _ => "<degrees/>";
     draw_transit_ring := fun _ _ _ => "<transit-ring/>";
     draw_first_circle := fun _ _ _ _ => "<circle-1/>";
     draw_second_circle := fun _ _ _ _ _ => "<circle-2/>";
     draw_third_circle := fun _ _ _ _ _ => "<circle-3/>";
     draw_aspect_grid := fun _ _ _ _ _ => "<grid/>";
     draw_houses_cusps_and_text_number := fun _ _ _ _ _ _ _ _ _ _ _ _ => "<houses/>";
     draw_transit_aspect_list := fun title _ _ _ => "<list " +:+ title +:+ "/>";
     draw_transit_aspect_grid := fun _ _ _ _ _ => "<transit-grid/>";
     calculate_moon_phase_chart_params := fun d l =>
       {| lunar_phase_rotate := (0 - 90 - l)%float; circle_center_x := 10%float;
          circle_radius := 10%float |};
     draw_house_grid := fun _ _ _ _ _ => "<house-grid/>";
     draw_planet_grid := fun title n _ _ _ _ _ _ => "<planet-grid " +:+ n +:+ "/>";
     draw_planets := fun _ _ _ _ _ _ _ _ => "<planets/>";
     get_houses_list := fun _ => [];
     inline_css_variables_in_svg := fun s => s;
     scourString := fun s => s;
     get_ayanamsa_name := fun s => s;
     convert_latitude_coordinate_to_string := fun _ n _ => "53 " +:+ n;
     convert_longitude_coordinate_to_string := fun _ _ w => "3 " +:+ w;
     strftime := fun iso format =>
       let minutes := str_take 10 iso +:+ " " +:+ str_take 5 (str_drop 11 iso) in
       if String.eqb format "%Y-%m-%d %H:%M" then minutes
       else minutes +:+ " [" +:+ str_take 3 (str_drop 19 iso) +:+ str_drop 23 iso +:+ "]";
     chart_xml := "<svg>$makeZodiac</svg>";
     wheel_only_xml := "<svg>$makeZodiac</svg>";
     aspect_grid_only_xml := "<svg>$makeAspectGrid</svg>";
     substitute := fun text td =>
       match td !! "makeZodiac" with
       | Some (SStr z) => Ok (replace "$makeZodiac" z text)
       | _ => raise (KeyError "makeZodiac")
       end |}.

(** Two subjects born in places with long names, one with commas and one
    without. *)
Definition george : AstrologicalSubjectModel :=
  {| data := chart_of "George" "Apparent Geocentric";
     city := "Sankt Margarethen im Burgenland, Eisenstadt-Umgebung, Austria";
     lat := 47.75%float; lng := 16.5%float;
     year := 1943; month := 2; day := 25; hour := 0; minute := 10;
     iso_formatted_local_datetime := "1943-02-25T00:10:00+01:00" |}.

Definition ringo : AstrologicalSubjectModel :=
  {| data := chart_of "Ringo" "Apparent Geocentric";
     city := "Llanfairpwllgwyngyllgogerychwyrndrobwllllantysiliogogogoch";
     lat := 53.25%float; lng := (-4.25)%float;
     year := 1940; month := 7; day := 7; hour := 0; minute := 5;
     iso_formatted_local_datetime := "1940-07-07T00:05:00+01:00" |}.

(** [KerykeionChartSVG(first_obj, chart_type, second_obj, theme=...,
    double_chart_aspect_grid_type=..., active_points=...)]. *)
Definition args (first_obj : FirstObject) (t : ChartType)
    (second_obj : option AstrologicalSubjectModel) (theme : option string)
    (grid : GridType) (active : list string) : InitArgs :=
  {| arg_first_obj := first_obj; arg_chart_type := t; arg_second_obj := second_obj;
     arg_new_output_directory := None; arg_new_settings_file := SettingsDefault;
     arg_theme := theme; arg_double_chart_aspect_grid_type := grid;
     arg_chart_language := "EN"; arg_active_points := active;
     arg_active_aspects := [] |}.

Definition natal_args : InitArgs :=
  args (ASubject john) Natal None (Some "classic") GridList ["Sun"; "Moon"].

Definition transit_table_args : InitArgs :=
  args (ASubject john) Transit (Some paul) (Some "classic") GridTable ["Sun"; "Moon"].


(** The instance the constructor is expected to return for [a], given the
    attributes that depend on the chart type. *)
Definition instance (a : InitArgs) (second : option AstrologicalSubjectModel)
    (location' : string) (geolat' geolon' : float) (t_name' : option string)
    (r1 r2 r3 : Z) (width' : Z) (scores' : Elements) (style : string) :
    KerykeionChartSVG :=
  let available := select_active (arg_active_points a) celestial_points in
  let names := map (fun b => lower (body_name b)) available in
  {| new_settings_file := arg_new_settings_file a;
     chart_language := arg_chart_language a;
     active_points := arg_active_points a;
     active_aspects := arg_active_aspects a;
     output_directory := "/home/user";
     language_settings := english;
     chart_colors_settings := chart_colors;
     planets_settings := map (mark_active (arg_active_points a)) celestial_points;
     aspects_settings := aspects;
     chart_type := arg_chart_type a;
     user := arg_first_obj a;
     available_planets_setting := available;
     available_kerykeion_celestial_points := map (get (chart_data (arg_first_obj a))) names;
     aspects_list := relevant_aspects;
     t_user := second;
     t_available_kerykeion_celestial_points :=
       (fun t => map (get (data t)) names) <$> second;
     double_chart_aspect_grid_type := arg_double_chart_aspect_grid_type a;
     height := 550;
     width := width';
     location := location';
     geolat := geolat';
     geolon := geolon';
     t_name := t_name';
     main_radius := 240;
     first_circle_radius := r1;
     second_circle_radius := r2;
     third_circle_radius := r3;
     scores := scores';
     color_style_tag := style;
     template := None |}.

Definition natal_chart : KerykeionChartSVG :=
  instance natal_args None "Liverpool" 53.25%float (-3)%float None 0 36 120 820
    {| fire := 50; earth := 40; air := 0; water := 0 |} "/* classic */".

Definition transit_table_chart : KerykeionChartSVG :=
  instance transit_table_args (Some paul)
    "Springfield, Some County, Some State, Some Country" 41.5%float 12.5%float
    (Some "At the time of the transit") 0 36 120 1200
    {| fire := 50; earth := 40; air := 0; water := 0 |} "/* classic */".


(** The Natal charts of the two subjects with long place names. *)
Definition natal_chart_of (s : AstrologicalSubjectModel) : KerykeionChartSVG :=
  instance (args (ASubject s) Natal None (Some "classic") GridList ["Sun"; "Moon"])
    None (city s) (lat s) (lng s) None 0 36 120 820
    {| fire := 50; earth := 40; air := 0; water := 0 |} "/* classic */".

(** A subject whose chart is sidereal and names no sidereal mode, and the
    Natal chart of that subject. *)
Definition sidereal_john : AstrologicalSubjectModel :=
  let d := chart_of "John" "Apparent Geocentric" in
  {| data := {| name := name d; points := points d; first_house := first_house d;
                seventh_house := seventh_house d; zodiac_type := "Sidereal";
                sidereal_mode := None;
                houses_system_identifier := houses_system_identifier d;
                houses_system_name := houses_system_name d;
                perspective_type := perspective_type d;
                lunar_phase := lunar_phase d |};
     city := "Liverpool"; lat := 53.25%float; lng := (-3)%float;
     year := 1940; month := 10; day := 9; hour := 18; minute := 30;
     iso_formatted_local_datetime := "1940-10-09T18:30:00+01:00" |}.

Definition sidereal_chart : KerykeionChartSVG := natal_chart_of sidereal_john.

(** A Natal chart whose only active point is the node, of weight 0. *)
Definition node_args : InitArgs :=
  args (ASubject john) Natal None (Some "classic") GridList ["Mean_Node"].

Definition node_chart : KerykeionChartSVG :=
  instance node_args None "Liverpool" 53.25%float (-3)%float None 0 36 120 820
    {| fire := 0; earth := 0; air := 0; water := 0 |} "/* classic */".

(** The table [english] with two of the labels that are read with a
    default, and a Natal chart that uses it. *)
Definition translated : gmap string string :=
  <["zodiac" := "Zodiaco"]> (<["houses" := "Case"]> english).

Definition translated_chart : KerykeionChartSVG :=
  set_language_settings translated natal_chart.

End Sample.
(** ** Properties of the element calculator *)

Lemma extra_points_fold (related : list Z) (cz acc : Z) :
  fold_left (fun extra_points e =>
               if e =? cz then _PLANET_IN_ZODIAC_EXTRA_POINTS else extra_points)
            related acc
  = if bool_decide (cz ∈ related) then 10 else acc.
Proof.
  revert acc. induction related as [|r related IH]; intros acc; cbn [fold_left].
  - rewrite bool_decide_eq_false_2; [done | apply not_elem_of_nil].
  - rewrite IH. unfold _PLANET_IN_ZODIAC_EXTRA_POINTS.
    destruct (Z.eqb_spec r cz) as [Heq|Hne];
      destruct (decide (cz ∈ related)) as [Hin|Hnin];
      destruct (decide (cz ∈ r :: related)) as [Hin'|Hnin'];
      rewrite ?(bool_decide_eq_true_2 _ Hin), ?(bool_decide_eq_false_2 _ Hnin),
              ?(bool_decide_eq_true_2 _ Hin'), ?(bool_decide_eq_false_2 _ Hnin');
      try reflexivity; exfalso.
    + apply Hnin'. by apply list_elem_of_further.
    + apply Hnin'. rewrite Heq. apply list_elem_of_here.
    + apply Hnin'. by apply list_elem_of_further.
    + apply elem_of_cons in Hin' as [Hin'|Hin']; [by apply Hne | by apply Hnin].
Qed.

Lemma extra_points_of_spec (related : list Z) (cz : Z) :
  extra_points_of related cz = if bool_decide (cz ∈ related) then 10 else 0.
Proof. apply extra_points_fold. Qed.

(** Case analysis on a sign index known to be one of the twelve. *)
Ltac twelve_signs cz H :=
  let Hc := fresh "Hc" in
  assert (Hc : cz = 0 \/ cz = 1 \/ cz = 2 \/ cz = 3 \/ cz = 4 \/ cz = 5 \/
               cz = 6 \/ cz = 7 \/ cz = 8 \/ cz = 9 \/ cz = 10 \/ cz = 11) by lia;
  clear H;
  destruct Hc as [Hc|[Hc|[Hc|[Hc|[Hc|[Hc|[Hc|[Hc|[Hc|[Hc|[Hc|Hc]]]]]]]]]]];
  rewrite Hc; clear Hc.

Lemma ZODIAC_lookup (cz : Z) :
  0 <= cz < 12 ->
  exists z, py_index ZODIAC cz = Ok z /\ element z = sign_element cz.
Proof.
  intros Hcz. twelve_signs cz Hcz; eexists; split; reflexivity.
Qed.

Lemma sign_element_named (cz : Z) :
  0 <= cz < 12 -> sign_element cz ∈ elements_names.
Proof.
  intros Hcz. unfold elements_names.
  twelve_signs cz Hcz; simpl; set_solver.
Qed.

(** One iteration adds the score of the point to the bucket of its sign and
    leaves the three other buckets as they were. *)
Lemma elements_step_spec (body : KerykeionSettingsCelestialPointModel) (cz : Z)
    (s : Elements) :
  0 <= cz < 12 ->
  exists s', elements_step body cz s = Ok s' /\
    forall e, e ∈ elements_names ->
      bucket e s' = bucket e s
                    + (if String.eqb (sign_element cz) e then point_score body cz else 0).
Proof.
  intros Hcz. destruct (ZODIAC_lookup cz Hcz) as (z & Hz & Hele).
  unfold elements_step. rewrite Hz. simpl. rewrite Hele, extra_points_of_spec.
  eexists; split; [reflexivity|].
  pose proof (sign_element_named cz Hcz) as Hnamed.
  unfold point_score. generalize (element_points body
    + (if bool_decide (cz ∈ related_zodiac_signs body) then 10 else 0)) as amount.
  intros amount e He. unfold elements_names in *.
  repeat (apply elem_of_cons in Hnamed as [->|Hnamed]);
    try (by apply elem_of_nil in Hnamed);
    repeat (apply elem_of_cons in He as [->|He]);
    try (by apply elem_of_nil in He);
    unfold add_to_element, bucket; simpl; lia.
Qed.

Example split_ex : split "," "a,b,,c" = ["a"; "b"; ""; "c"].
Proof. reflexivity. Qed.
Example replace_ex : replace "  " "" "a    b   c" = "ab c".
Proof. reflexivity. Qed.
Example replace_ex2 : replace "aa" "b" "aaa" = "ba".
Proof. reflexivity. Qed.
Example fmt_ex : (str_of_int_02d 7, str_of_int_02d 12, str_of_int (-5)) = ("07", "12", "-5").
Proof. vm_compute. reflexivity. Qed.
Example last_ex : (str_drop_last 3 "abcdef", str_last 3 "abcdef") = ("abc", "def").
Proof. reflexivity. Qed.

(** The whole loop, for points that are all placed: it returns, and every
    bucket has grown by the contributions of the points. *)
Lemma calculate_elements_spec (d : ChartData)
    (avail : list KerykeionSettingsCelestialPointModel) (s : Elements) :
  Forall (placed d) avail ->
  exists s', calculate_elements d avail s = (s', Ok tt) /\
    forall e, e ∈ elements_names ->
      bucket e s' = bucket e s + sum_Z (map (contribution d e) avail).
Proof.
  unfold calculate_elements. intros Hall. revert s.
  induction Hall as [|body rest (p & Hget & Hsign) Hrest IH]; intros s.
  - exists s. split; [reflexivity | intros e _; simpl; lia].
  - assert (Hsign_of : sign_of d (lower (body_name body)) = Ok (sign_num p))
      by (unfold sign_of; by rewrite Hget).
    cbn [map mapM].
    rewrite Hsign_of. cbn [mbind result_bind].
    destruct (elements_step_spec body (sign_num p) s Hsign) as (s1 & Hstep & Hs1).
    destruct (IH s1) as (s' & Hloop & Hs').
    destruct (mapM (sign_of d) (map (fun body => lower (body_name body)) rest))
      as [signs|err] eqn:Hsigns.
    + cbn [mret result_ret mbind result_bind elements_loop]. rewrite Hstep.
      exists s'. split; [exact Hloop|].
      intros e He. rewrite (Hs' e He), (Hs1 e He).
      unfold sum_Z. cbn [foldr]. unfold contribution at 2. rewrite Hget. lia.
    + discriminate Hloop.
Qed.

Lemma contribution_bound (d : ChartData) (e : string)
    (body : KerykeionSettingsCelestialPointModel) :
  Z.abs (contribution d e body) <= Z.abs (element_points body) + 10.
Proof.
  unfold contribution, point_score.
  destruct (get d _) as [p|]; [|lia].
  destruct (String.eqb _ e); [|lia]. case_bool_decide; lia.
Qed.

Lemma contributions_bound (d : ChartData) (e : string)
    (avail : list KerykeionSettingsCelestialPointModel) :
  Z.abs (sum_Z (map (contribution d e) avail))
  <= sum_Z (map (fun body => Z.abs (element_points body) + 10) avail).
Proof.
  induction avail as [|body avail IH]; [done|].
  unfold sum_Z in *. cbn [map foldr].
  pose proof (contribution_bound d e body). lia.
Qed.

Lemma weights_not_negative (avail : list KerykeionSettingsCelestialPointModel) :
  0 <= sum_Z (map (fun body => Z.abs (element_points body) + 10) avail).
Proof.
  induction avail as [|body avail IH]; [done|]. unfold sum_Z in *. cbn [map foldr]. lia.
Qed.

Lemma within_range (x c w range : Z) :
  Z.abs c <= w -> Z.abs x + w <= range -> Z.abs (x + c) <= range.
Proof. lia. Qed.

(** C1. For every active point the element calculation adds the point's
    base weight [element_points], plus exactly 10 when the point's sign
    index occurs in its [related_zodiac_signs], to exactly one of the four
    buckets, the one the table Aries .. Pisces gives for the sign (fire,
    earth, air, water, repeating); no other bucket changes for that point.
    Stated for the method and the instance it leaves behind: when every
    active point is on the chart with a sign index 0..11, and the scores and
    weights are in the range where the binary64 sums of the source are exact,
    the method returns, each of the four scores of the instance has grown by
    the sum of the contributions of the active points to its bucket, a point
    contributes its score to the bucket of its sign and nothing to any
    other, no score leaves the exact range, and the chart and the point
    settings of the instance are as before. *)
Theorem calculate_elements_points_by_sign (self : KerykeionChartSVG) :
  Forall (placed (chart_data (user self))) (available_planets_setting self) ->
  exact_in_binary64 (scores self) (available_planets_setting self) ->
  let d := chart_data (user self) in
  let avail := available_planets_setting self in
  let after := fst (_calculate_elements_points_from_planets self) in
  snd (_calculate_elements_points_from_planets self) = Ok tt /\
  (fire (scores after) = fire (scores self) + sum_Z (map (contribution d "fire") avail) /\
   earth (scores after) = earth (scores self) + sum_Z (map (contribution d "earth") avail) /\
   air (scores after) = air (scores self) + sum_Z (map (contribution d "air") avail) /\
   water (scores after)
   = water (scores self) + sum_Z (map (contribution d "water") avail)) /\
  (forall body p, body ∈ avail -> get d (lower (body_name body)) = Some p ->
     sign_element (sign_num p) ∈ elements_names /\
     forall e,
       contribution d e body
       = if String.eqb (sign_element (sign_num p)) e
         then element_points body
              + (if bool_decide (sign_num p ∈ related_zodiac_signs body) then 10 else 0)
         else 0) /\
  (Z.abs (fire (scores after)) <= 2 ^ 53 /\ Z.abs (earth (scores after)) <= 2 ^ 53 /\
   Z.abs (air (scores after)) <= 2 ^ 53 /\ Z.abs (water (scores after)) <= 2 ^ 53) /\
  user after = user self /\
  available_planets_setting after = available_planets_setting self.
Proof.
  intros Hall Hexact d avail after.
  destruct (calculate_elements_spec _ _ (scores self) Hall) as (s' & Hcalc & Hs').
  fold d avail in Hcalc, Hs'.
  assert (Hafter : _calculate_elements_points_from_planets self
                   = (set_scores s' self, Ok tt)).
  { unfold _calculate_elements_points_from_planets. fold d avail. by rewrite Hcalc. }
  unfold after. rewrite Hafter. cbn [fst snd scores set_scores user
    available_planets_setting].
  assert (Hfire := Hs' "fire" ltac:(unfold elements_names; set_solver)).
  assert (Hearth := Hs' "earth" ltac:(unfold elements_names; set_solver)).
  assert (Hair := Hs' "air" ltac:(unfold elements_names; set_solver)).
  assert (Hwater := Hs' "water" ltac:(unfold elements_names; set_solver)).
  cbn [bucket String.eqb Ascii.eqb Bool.eqb] in Hfire, Hearth, Hair, Hwater.
  split; [done|]. split; [done|]. split; [|split; [|done]].
  - intros body p Hin Hget. split.
    + rewrite Forall_forall in Hall. destruct (Hall body Hin) as (p' & Hget' & Hsign).
      fold d in Hget'. rewrite Hget in Hget'. injection Hget' as <-.
      by apply sign_element_named.
    + intros e. unfold contribution. by rewrite Hget.
  - unfold exact_in_binary64 in Hexact. fold avail in Hexact.
    rewrite Hfire, Hearth, Hair, Hwater.
    pose proof (Z.abs_nonneg (fire (scores self))) as Hf.
    pose proof (Z.abs_nonneg (earth (scores self))) as He.
    pose proof (Z.abs_nonneg (air (scores self))) as Ha.
    pose proof (Z.abs_nonneg (water (scores self))) as Hw.
    repeat split; eapply within_range; try apply contributions_bound; lia.
Qed.

Lemma natal_chart_built :
  __init__ Sample.collaborators Sample.natal_args = Ok Sample.natal_chart.
Proof. vm_compute. reflexivity. Qed.

Lemma transit_table_chart_built :
  __init__ Sample.collaborators Sample.transit_table_args = Ok Sample.transit_table_chart.
Proof. vm_compute. reflexivity. Qed.


Lemma node_chart_built :
  __init__ Sample.collaborators Sample.node_args = Ok Sample.node_chart.
Proof. vm_compute. reflexivity. Qed.

Lemma calculate_elements_points_by_sign_witness :
  let after := fst (_calculate_elements_points_from_planets Sample.natal_chart) in
  scores Sample.natal_chart = {| fire := 50; earth := 40; air := 0; water := 0 |} /\
  snd (_calculate_elements_points_from_planets Sample.natal_chart) = Ok tt /\
  fire (scores after) = 100 /\ earth (scores after) = 80 /\
  air (scores after) = 0 /\ water (scores after) = 0.
Proof.
  assert (Hplaced : Forall (placed (chart_data (user Sample.natal_chart)))
                           (available_planets_setting Sample.natal_chart)).
  { repeat constructor; (eexists; split; [vm_compute; reflexivity | cbn; lia]). }
  assert (Hexact : exact_in_binary64 (scores Sample.natal_chart)
                     (available_planets_setting Sample.natal_chart)).
  { vm_compute. discriminate. }
  destruct (calculate_elements_points_by_sign Sample.natal_chart Hplaced Hexact)
    as (Hreturns & (Hfire & Hearth & Hair & Hwater) & _).
  cbv zeta. split; [reflexivity|]. split; [exact Hreturns|].
  split; [exact Hfire|]. split; [exact Hearth|]. split; [exact Hair | exact Hwater].
Defined.

Example calculate_elements_sample :
  scores (fst (_calculate_elements_points_from_planets Sample.natal_chart))
  = {| fire := 100; earth := 80; air := 0; water := 0 |}.
Proof. vm_compute. reflexivity. Qed.

(** ** Properties of the aspect-line drawers *)

Lemma append_cons (x : ascii) (a b : string) : String x a +:+ b = String x (a +:+ b).
Proof. reflexivity. Qed.

Lemma append_assoc (a b c : string) : (a +:+ b) +:+ c = a +:+ (b +:+ c).
Proof. induction a as [|x a IH]; [done | rewrite !append_cons; by f_equal]. Qed.

Lemma append_empty_r (a : string) : a +:+ "" = a.
Proof. induction a as [|x a IH]; [done | rewrite append_cons; by f_equal]. Qed.

(** The generator expression with [next] finds what [list_find] finds. *)
Lemma next_color_find (settings : list AspectSetting) (kind : string) :
  next_color settings kind
  = (fun found => aspect_color (snd found))
      <$> list_find (fun s => aspect_name s = kind) settings.
Proof.
  induction settings as [|s settings IH]; [done|].
  cbn [next_color list_find]. destruct (String.eqb_spec (aspect_name s) kind) as [Heq|Hne].
  - by rewrite decide_True.
  - rewrite decide_False by done. rewrite IH.
    by destruct (list_find _ settings) as [[i s']|].
Qed.

(** One iteration of the loop appends the chord of the aspect, if any. *)
Lemma aspect_step (D : Drawers) (self : KerykeionChartSVG) (r ar : Z) (a : AspectModel)
    (out : string) :
  match next_color (aspects_settings self) (aspect a) with
  | Some c =>
      if String.eqb c "" then out
      else out +:+ draw_aspect_line D r ar a c
                     (abs_pos (seventh_house (chart_data (user self))))
  | None => out
  end
  = out +:+ default "" (chord D self r ar a).
Proof.
  unfold chord, configured_color. rewrite next_color_find.
  destruct (list_find _ (aspects_settings self)) as [[i s]|]; cbn [fmap option_fmap option_map snd].
  - destruct (String.eqb_spec (aspect_color s) "") as [Hempty|Hcolor].
    + rewrite decide_True by done. simpl. by rewrite append_empty_r.
    + by rewrite decide_False by done.
  - simpl. by rewrite append_empty_r.
Qed.

Lemma omap_cons {A B} (f : A -> option B) (x : A) (l : list A) :
  omap f (x :: l) = match f x with Some y => y :: omap f l | None => omap f l end.
Proof. reflexivity. Qed.

Lemma aspects_lines_loop_join (D : Drawers) (self : KerykeionChartSVG) (r ar : Z)
    (aspects : list AspectModel) (out : string) :
  aspects_lines_loop D self r ar aspects out
  = out +:+ join (omap (chord D self r ar) aspects).
Proof.
  revert out. induction aspects as [|a aspects IH]; intros out.
  - simpl. by rewrite append_empty_r.
  - cbn [aspects_lines_loop]. cbv zeta. rewrite aspect_step, IH, append_assoc, omap_cons.
    f_equal. destruct (chord D self r ar a) as [fragment|]; reflexivity.
Qed.

(** C3. An aspect whose kind has no entry of that name in the aspects
    settings (and hence no colour) adds no chord and raises nothing: both
    drawers are total functions to text. An aspect whose kind has a
    configured colour adds exactly one chord, drawn in that colour. The
    output of either drawer is the chords of the coloured aspects, in the
    order of the aspect list, and there are as many chords as coloured
    aspects. *)
Theorem aspect_lines_are_the_coloured_subset (D : Drawers) (self : KerykeionChartSVG)
    (r ar : Z) :
  let chords := omap (chord D self r ar) (aspects_list self) in
  _draw_all_aspects_lines D r ar self = join chords /\
  _draw_all_transit_aspects_lines D r ar self = join chords /\
  (forall a, (forall s, s ∈ aspects_settings self -> aspect_name s <> aspect a) ->
     chord D self r ar a = None /\
     aspects_lines_loop D self r ar [a] "" = "") /\
  (forall a c, configured_color (aspects_settings self) (aspect a) = Some c ->
     chord D self r ar a
     = Some (draw_aspect_line D r ar a c (abs_pos (seventh_house (chart_data (user self)))))
     /\ aspects_lines_loop D self r ar [a] ""
        = draw_aspect_line D r ar a c (abs_pos (seventh_house (chart_data (user self))))) /\
  length chords
  = length (filter (fun a => is_Some (configured_color (aspects_settings self) (aspect a)))
                   (aspects_list self)).
Proof.
  cbn zeta. split; [|split; [|split; [|split]]].
  - unfold _draw_all_aspects_lines. by rewrite aspects_lines_loop_join.
  - unfold _draw_all_transit_aspects_lines. by rewrite aspects_lines_loop_join.
  - intros a Hnone.
    assert (Hchord : chord D self r ar a = None).
    { unfold chord, configured_color.
      destruct (list_find _ (aspects_settings self)) as [[i s]|] eqn:Hfind; [|done].
      apply list_find_Some in Hfind as (Hlookup & Hname & _).
      exfalso. apply (Hnone s); [|done]. by eapply list_elem_of_lookup_2. }
    split; [done|]. by rewrite aspects_lines_loop_join, omap_cons, Hchord.
  - intros a c Hc.
    assert (Hchord : chord D self r ar a
      = Some (draw_aspect_line D r ar a c (abs_pos (seventh_house (chart_data (user self)))))).
    { unfold chord. by rewrite Hc. }
    split; [done|]. rewrite aspects_lines_loop_join, omap_cons, Hchord.
    simpl. by rewrite append_empty_r.
  - induction (aspects_list self) as [|a l IH]; [done|].
    rewrite omap_cons, filter_cons. unfold chord at 1.
    destruct (configured_color (aspects_settings self) (aspect a)) as [c|];
      cbn [mbind option_bind].
    + rewrite decide_True by eauto. cbn [length]. by rewrite IH.
    + rewrite decide_False by (by intros [? ?]). exact IH.
Qed.


(** ** Properties of the constructor *)

Lemma bind_Ok {A B} (m : result A) (f : A -> result B) (b : B) :
  (m ≫= f) = Ok b -> exists x, m = Ok x /\ f x = Ok b.
Proof. destruct m as [x|e]; [eauto | discriminate]. Qed.

Lemma bind_Err {A B} (m : result A) (f : A -> result B) (e : exn) :
  m = Err e -> (m ≫= f) = Err e.
Proof. by intros ->. Qed.

(** Take a successful computation apart, statement by statement. *)
Ltac invert_ok H :=
  repeat
    (unfold raise in H;
     match type of H with
     | (?m ≫= _) = Ok _ =>
         let x := fresh "x" in
         let Hx := fresh "Hx" in
         apply bind_Ok in H as (x & Hx & H)
     | Ok _ = Ok _ => injection H as H
     | Err _ = Ok _ => discriminate H
     | (if ?b then _ else _) = Ok _ =>
         let Hb := fresh "Hb" in destruct b eqn:Hb
     | (match ?x with _ => _ end) = Ok _ =>
         let Hm := fresh "Hm" in destruct x eqn:Hm
     | (let '(_, _) := ?x in _) = Ok _ =>
         let Hm := fresh "Hm" in destruct x eqn:Hm
     end).

Lemma init_constructed (C : Collaborators) (a : InitArgs) (self : KerykeionChartSVG) :
  __init__ C a = Ok self -> Constructed C a self.
Proof.
  unfold __init__. intros H.
  apply bind_Ok in H as (language & Hlanguage & H).
  apply bind_Ok in H as ([[aspects' t_user'] t_available'] & Haspects & H).
  apply bind_Ok in H as ([[[location' geolat'] geolon'] t_name'] & Hplace & H).
  destruct (circle_radii (arg_chart_type a)) as [[r1 r2] r3] eqn:Hradii.
  destruct (calculate_elements _ _ _) as [scores' calculated] eqn:Hscores.
  apply bind_Ok in H as ([] & Hcalculated & H). subst calculated.
  apply bind_Ok in H as ([] & Htheme & H).
  injection H as <-. 
  unfold py_getitem in Hlanguage.
  destruct (_ !! arg_chart_language a) as [language'|] eqn:Hlang; [|discriminate].
  injection Hlanguage as ->.
  split; cbn; try done.
  - destruct (arg_chart_type a); invert_ok Hplace; invert_ok Haspects; simplify_eq.
    all: try (unfold as_subject in *; destruct (arg_first_obj a); simplify_eq; eauto 10).
    all: try (unfold as_composite in *; destruct (arg_first_obj a); simplify_eq; eauto 10).
  - destruct (arg_chart_type a); invert_ok Haspects; simplify_eq; eauto.
  - intros t Ht. rewrite Ht in Htheme. by case_bool_decide.
Qed.



(** *** Methods that leave the instance as it was *)


Lemma reading_leaves {A} (f : KerykeionChartSVG -> result A) : leaves_instance (reading f).
Proof. by intros self. Qed.

Lemma mret_leaves {A} (x : A) : leaves_instance (mret x : M A).
Proof. by intros self. Qed.

Lemma bind_leaves {A B} (m : M A) (f : A -> M B) :
  leaves_instance m -> (forall x, leaves_instance (f x)) -> leaves_instance (m ≫= f).
Proof.
  intros Hm Hf self. unfold mbind, M_bind. specialize (Hm self).
  destruct (m self) as [self' [x|e]]; simpl in *; subst self'; [apply Hf | done].
Qed.

Lemma makeTemplate_leaves (D : Drawers) (minify remove_css_variables : bool) :
  leaves_instance (makeTemplate D minify remove_css_variables).
Proof.
  unfold makeTemplate.
  repeat (apply bind_leaves; [apply reading_leaves | intros ?]). apply mret_leaves.
Qed.

Lemma makeWheelOnlyTemplate_leaves (D : Drawers) (minify remove_css_variables : bool) :
  leaves_instance (makeWheelOnlyTemplate D minify remove_css_variables).
Proof.
  unfold makeWheelOnlyTemplate.
  repeat (apply bind_leaves; [apply reading_leaves | intros ?]). apply mret_leaves.
Qed.

Lemma makeAspectGridOnlyTemplate_leaves (D : Drawers) (minify remove_css_variables : bool) :
  leaves_instance (makeAspectGridOnlyTemplate D minify remove_css_variables).
Proof.
  unfold makeAspectGridOnlyTemplate.
  repeat (apply bind_leaves; [apply reading_leaves | intros ?]). apply mret_leaves.
Qed.

(** No operation assigns to a radius. *)
Lemma after_radii (C : Collaborators) (D : Drawers) (op : Operation)
    (self : KerykeionChartSVG) :
  radii (after C D op self) = radii self.
Proof.
  destruct op; cbn [after]; try reflexivity.
  - unfold parse_json_settings. by destruct (py_getitem _ _).
  - unfold _calculate_elements_points_from_planets. by destruct (calculate_elements _ _ _).
  - by rewrite makeTemplate_leaves.
  - unfold makeSVG, mbind, M_bind.
    pose proof (makeTemplate_leaves D minify remove_css_variables self) as Hsame.
    destruct (makeTemplate D minify remove_css_variables self) as [self' [out|e]];
      simpl in Hsame; by subst self'.
  - by rewrite makeWheelOnlyTemplate_leaves.
  - unfold makeWheelOnlySVG.
    rewrite bind_leaves; [done | apply makeWheelOnlyTemplate_leaves | intros; apply mret_leaves].
  - by rewrite makeAspectGridOnlyTemplate_leaves.
  - unfold makeAspectGridOnlySVG.
    rewrite bind_leaves;
      [done | apply makeAspectGridOnlyTemplate_leaves | intros; apply mret_leaves].
Qed.

Lemma after_all_radii (C : Collaborators) (D : Drawers) (ops : list Operation)
    (self : KerykeionChartSVG) :
  radii (after_all C D ops self) = radii self.
Proof.
  revert self. induction ops as [|op ops IH]; intros self; [done|].
  unfold after_all in *. cbn [fold_left]. by rewrite IH, after_radii.
Qed.

(** C5. After construction, for every chart type, the radii satisfy
    [first_circle_radius < second_circle_radius < third_circle_radius <
    main_radius] and [main_radius] is 240; the triple is (56, 92, 112) for
    ExternalNatal and (0, 36, 120) for every other chart type; and no
    sequence of later operations, returning or raising, changes them. *)
Theorem radii_increasing_and_fixed (C : Collaborators) (D : Drawers) (a : InitArgs)
    (self : KerykeionChartSVG) (ops : list Operation) :
  __init__ C a = Ok self ->
  first_circle_radius self < second_circle_radius self
    < third_circle_radius self /\
  third_circle_radius self < main_radius self /\
  main_radius self = 240 /\
  (first_circle_radius self, second_circle_radius self, third_circle_radius self)
  = match chart_type self with
    | ExternalNatal => (56, 92, 112)
    | Natal | Transit | Synastry | Composite => (0, 36, 120)
    end /\
  radii (after_all C D ops self) = radii self.
Proof.
  intros Hinit.
  destruct (init_constructed C a self Hinit)
    as [Htype _ _ _ _ _ Hmain Hradii _ _ _ _ _].
  rewrite Htype. unfold circle_radii in Hradii.
  rewrite Hmain. split; [|split; [|split; [done|split]]].
  - destruct (arg_chart_type a); cbn in Hradii; injection Hradii as H1 H2 H3; lia.
  - destruct (arg_chart_type a); cbn in Hradii; injection Hradii as H1 H2 H3; lia.
  - by destruct (arg_chart_type a).
  - apply after_all_radii.
Qed.

Lemma radii_increasing_and_fixed_witness :
  radii Sample.transit_table_chart = (0, 36, 120, 240) /\
  radii (after_all Sample.collaborators Sample.drawers
           [Op_makeSVG true false; Op_set_up_theme None;
            Op_parse_json_settings SettingsDefault;
            Op_calculate_elements_points_from_planets] Sample.transit_table_chart)
  = radii Sample.transit_table_chart.
Proof.
  split; [reflexivity|].
  apply (radii_increasing_and_fixed Sample.collaborators Sample.drawers
           Sample.transit_table_args Sample.transit_table_chart _
           transit_table_chart_built).
Defined.

(** ** Rendering twice *)

(** C6. For every instance and every pair of flags, [makeTemplate] called
    twice returns the same text (or raises the same exception): the call
    leaves the instance as it was, its result is a function of the instance
    and the flags, and the second, redundant assembly of the template
    dictionary inside [makeTemplate] does not show in the result. The
    drawers, the template file and [substitute] are functions here, that is,
    the collaborators answer the same when asked the same. *)
Theorem makeTemplate_twice (D : Drawers) (self : KerykeionChartSVG)
    (minify remove_css_variables : bool) :
  let first_call := makeTemplate D minify remove_css_variables self in
  let second_call := makeTemplate D minify remove_css_variables (fst first_call) in
  snd second_call = snd first_call /\
  fst first_call = self /\ fst second_call = self /\
  snd first_call
  = (td ← _create_template_dictionary D self;
     template' ← substitute D (chart_xml D) td;
     Ok (finish_template D minify remove_css_variables template')).
Proof.
  cbn zeta. rewrite !makeTemplate_leaves. repeat split.
  unfold makeTemplate, reading, mbind, M_bind, result_bind, mret, M_ret.
  destruct (_create_template_dictionary D self) as [td|e]; [|done].
  by destruct (substitute D (chart_xml D) td).
Qed.

(** C4. Constructing a [KerykeionChartSVG] raises a [KerykeionException],
    inside the constructor and hence before any drawer can be called (the
    constructor has no access to the drawers), in each of these cases:
    (a) the chart type is Transit or Synastry and there is no second
    object; (b) the chart type is Composite and the first object is not a
    [CompositeSubjectModel]; (c) the theme is neither [None] nor a known
    theme name. In every case the constructor returns no object. For (a)
    and (b) the language table of the chosen language has to exist, as it
    is read first; for (c), which is checked last, the exception is the
    theme's whenever the same arguments with theme [None] construct. *)
Theorem construction_errors (C : Collaborators) (a : InitArgs) :
  is_Some (settings_language_settings (get_settings C (arg_new_settings_file a))
             !! arg_chart_language a) ->
  ((arg_chart_type a = Transit \/ arg_chart_type a = Synastry) ->
   arg_second_obj a = None ->
   __init__ C a
   = Err (KerykeionException "Second object is required for Transit or Synastry charts.")) /\
  (arg_chart_type a = Composite -> is_composite (arg_first_obj a) = false ->
   __init__ C a
   = Err (KerykeionException "First object must be a CompositeSubjectModel instance.")) /\
  (forall t, arg_theme a = Some t -> t ∉ KerykeionChartTheme_args C ->
     (exists e, __init__ C a = Err e) /\
     (forall self, __init__ C (with_theme None a) = Ok self ->
        __init__ C a
        = Err (KerykeionException
                 ("Theme " +:+ t +:+ " is not available. Set None for default theme.")))).
Proof.
  intros [language Hlanguage]. split; [|split].
  - intros Htype Hsecond. unfold __init__, py_getitem. rewrite Hlanguage, Hsecond.
    by destruct Htype as [-> | ->].
  - intros Htype Hfirst. unfold __init__, py_getitem. rewrite Hlanguage, Htype, Hfirst.
    reflexivity.
  - intros t Htheme Hunknown. split.
    + destruct (__init__ C a) as [self|e] eqn:Hinit; [|by exists e].
      destruct (init_constructed C a self Hinit) as [_ _ _ _ _ _ _ _ _ _ _ _ Hknown].
      exfalso. by apply Hunknown, Hknown.
    + intros self. unfold __init__. cbn [with_theme arg_first_obj arg_chart_type
        arg_second_obj arg_new_output_directory arg_new_settings_file arg_theme
        arg_double_chart_aspect_grid_type arg_chart_language arg_active_points
        arg_active_aspects].
      rewrite Htheme. rewrite (bool_decide_eq_false_2 _ Hunknown).
      destruct (py_getitem _ _) as [language'|e]; [|discriminate].
      cbn [mbind result_bind].
      match goal with |- (?m ≫= _) = Ok _ -> _ => destruct m as [[[aspects' t_user'] t_available']|e] end;
        [|discriminate].
      cbn [mbind result_bind].
      match goal with |- (?m ≫= _) = Ok _ -> _ => destruct m as [[[[location' geolat'] geolon'] t_name']|e] end;
        [|discriminate].
      cbn [mbind result_bind].
      destruct (circle_radii (arg_chart_type a)) as [[r1 r2] r3].
      destruct (calculate_elements _ _ _) as [scores' [[]|e]]; [|discriminate].
      reflexivity.
Qed.

Lemma construction_errors_witness :
  __init__ Sample.collaborators
    (Sample.args (ASubject Sample.john) Transit None (Some "classic") GridList ["Sun"])
  = Err (KerykeionException "Second object is required for Transit or Synastry charts.") /\
  __init__ Sample.collaborators
    (Sample.args (ASubject Sample.john) Composite None (Some "classic") GridList ["Sun"])
  = Err (KerykeionException "First object must be a CompositeSubjectModel instance.") /\
  __init__ Sample.collaborators (with_theme (Some "neon") Sample.natal_args)
  = Err (KerykeionException "Theme neon is not available. Set None for default theme.").
Proof.
  assert (Hlanguage : forall a, arg_new_settings_file a = SettingsDefault ->
            arg_chart_language a = "EN" ->
            is_Some (settings_language_settings
                       (get_settings Sample.collaborators (arg_new_settings_file a))
                     !! arg_chart_language a)).
  { intros a -> ->. exists Sample.english. apply lookup_singleton_eq. }
  split; [|split].
  - apply (construction_errors Sample.collaborators
             (Sample.args (ASubject Sample.john) Transit None (Some "classic") GridList ["Sun"]));
      [by apply Hlanguage | by left | reflexivity].
  - apply (construction_errors Sample.collaborators
             (Sample.args (ASubject Sample.john) Composite None (Some "classic") GridList ["Sun"]));
      [by apply Hlanguage | reflexivity | reflexivity].
  - refine (proj2 (proj2 (proj2 (construction_errors Sample.collaborators
      (with_theme (Some "neon") Sample.natal_args) _)) "neon" _ _)
      (set_color_style_tag "" Sample.natal_chart) _).
    + by apply Hlanguage.
    + reflexivity.
    + cbn. intros Hin.
      repeat (apply elem_of_cons in Hin as [Hin|Hin]; [discriminate Hin|]).
      by apply elem_of_nil in Hin.
    + vm_compute. reflexivity.
Defined.

(** ** Properties of the template assembly *)

(** *** Which slots a block leaves alone *)

Lemma planet_colors_loop_other (planets : list KerykeionSettingsCelestialPointModel)
    (td : TemplateDict) (k : string) :
  (forall x, k <> "planets_color_" +:+ x) ->
  planet_colors_loop planets td !! k = td !! k.
Proof.
  intros Hk. unfold planet_colors_loop. revert td.
  induction planets as [|planet planets IH]; intros td; [done|].
  cbn [fold_left]. rewrite IH. apply lookup_insert_ne.
  intros Heq. exact (Hk _ (eq_sym Heq)).
Qed.

Lemma orb_colors_loop_other (aspects : list AspectSetting) (td : TemplateDict) (k : string) :
  (forall x, k <> "orb_color_" +:+ x) ->
  orb_colors_loop aspects td !! k = td !! k.
Proof.
  intros Hk. unfold orb_colors_loop. revert td.
  induction aspects as [|a aspects IH]; intros td; [done|].
  cbn [fold_left]. rewrite IH. apply lookup_insert_ne.
  intros Heq. exact (Hk _ (eq_sym Heq)).
Qed.

Lemma zodiac_colors_loop_other (self : KerykeionChartSVG) (indices : list Z)
    (td td' : TemplateDict) (k : string) :
  (forall x, k <> "zodiac_color_" +:+ x) ->
  zodiac_colors_loop self indices td = Ok td' ->
  td' !! k = td !! k.
Proof.
  intros Hk. revert td. induction indices as [|i indices IH]; intros td H.
  - by injection H as <-.
  - cbn [zodiac_colors_loop] in H. apply bind_Ok in H as (icon & _ & H).
    rewrite (IH _ H). apply lookup_insert_ne.
    intros Heq. exact (Hk _ (eq_sym Heq)).
Qed.

(** A slot name that none of the three colour loops can compute. *)
Ltac not_a_colour_slot :=
  let x := fresh "x" in
  let Hx := fresh "Hx" in
  intros x Hx; rewrite append_cons in Hx; discriminate Hx.

(** Look a literal slot up through the literal slots written after it. *)
Ltac through_inserts :=
  rewrite ?lookup_insert_ne by discriminate; try reflexivity.

(** Take a successful computation apart, the computations bound inside it
    included. *)
Ltac invert_deep H :=
  unfold raise in H;
  lazymatch type of H with
  | (?m ≫= _) = Ok _ =>
      let x := fresh "x" in
      let Hx := fresh "Hx" in
      apply bind_Ok in H as (x & Hx & H); invert_deep Hx; invert_deep H
  | Ok _ = Ok _ => injection H as H
  | Err _ = Ok _ => discriminate H
  | (if ?b then _ else _) = Ok _ =>
      let Hb := fresh "Hb" in destruct b eqn:Hb; invert_deep H
  | (match ?x with _ => _ end) = Ok _ =>
      let Hm := fresh "Hm" in destruct x eqn:Hm; invert_deep H
  | _ => idtac
  end.

(** A block, taken apart, leaves the slot [k] of the list in [Hk] alone. *)
Ltac block_leaves H k Hk :=
  invert_deep H; subst;
  repeat (apply elem_of_cons in Hk as [->|Hk]);
  try (by apply elem_of_nil in Hk);
  through_inserts.

Lemma td_colors_other (self : KerykeionChartSVG) (td td' : TemplateDict) (k : string) :
  k ∈ "top_left_1" :: dimension_slots ->
  td_colors self td = Ok td' -> td' !! k = td !! k.
Proof.
  intros Hk H. unfold td_colors in H.
  apply bind_Ok in H as (paper_0 & _ & H). apply bind_Ok in H as (paper_1 & _ & H).
  apply bind_Ok in H as (td1 & Hzodiac & H). injection H as <-.
  unfold dimension_slots in Hk.
  repeat (apply elem_of_cons in Hk as [->|Hk]); try (by apply elem_of_nil in Hk).
  all: rewrite orb_colors_loop_other by not_a_colour_slot.
  all: rewrite (fun Hk => zodiac_colors_loop_other _ _ _ _ _ Hk Hzodiac)
         by not_a_colour_slot.
  all: rewrite planet_colors_loop_other by not_a_colour_slot.
  all: through_inserts.
Qed.

Lemma td_rings_other (D : Drawers) (self : KerykeionChartSVG) (td td' : TemplateDict)
    (k : string) :
  k ∈ dimension_slots -> td_rings D self td = Ok td' -> td' !! k = td !! k.
Proof. intros Hk H. unfold td_rings, dimension_slots in *. block_leaves H k Hk. Qed.

Lemma td_title_other (self : KerykeionChartSVG) (td td' : TemplateDict) (k : string) :
  k ∈ dimension_slots -> td_title self td = Ok td' -> td' !! k = td !! k.
Proof. intros Hk H. unfold td_title, dimension_slots in *. block_leaves H k Hk. Qed.

Lemma td_bottom_left_other (D : Drawers) (self : KerykeionChartSVG) (td td' : TemplateDict)
    (k : string) :
  k ∈ dimension_slots -> td_bottom_left D self td = Ok td' -> td' !! k = td !! k.
Proof. intros Hk H. unfold td_bottom_left, dimension_slots in *. block_leaves H k Hk. Qed.

Lemma td_moon_phase_other (D : Drawers) (self : KerykeionChartSVG) (td : TemplateDict)
    (k : string) :
  k ∈ dimension_slots -> td_moon_phase D self td !! k = td !! k.
Proof.
  intros Hk. unfold td_moon_phase, dimension_slots in *.
  repeat (apply elem_of_cons in Hk as [->|Hk]); try (by apply elem_of_nil in Hk);
    through_inserts.
Qed.

Lemma td_location_other (D : Drawers) (self : KerykeionChartSVG) (td td' : TemplateDict)
    (k : string) :
  k ∈ dimension_slots -> td_location D self td = Ok td' -> td' !! k = td !! k.
Proof. intros Hk H. unfold td_location, dimension_slots in *. block_leaves H k Hk. Qed.

Lemma td_chart_name_other (self : KerykeionChartSVG) (td td' : TemplateDict) (k : string) :
  k ∈ "top_left_1" :: dimension_slots -> td_chart_name self td = Ok td' ->
  td' !! k = td !! k.
Proof. intros Hk H. unfold td_chart_name, dimension_slots in *. block_leaves H k Hk. Qed.

Lemma td_top_left_345_other (D : Drawers) (self : KerykeionChartSVG) (td td' : TemplateDict)
    (k : string) :
  k ∈ "top_left_1" :: dimension_slots -> td_top_left_345 D self td = Ok td' ->
  td' !! k = td !! k.
Proof. intros Hk H. unfold td_top_left_345, dimension_slots in *. block_leaves H k Hk. Qed.

Lemma td_houses_other (D : Drawers) (self : KerykeionChartSVG) (td td' : TemplateDict)
    (k : string) :
  k ∈ "top_left_1" :: dimension_slots -> td_houses D self td = Ok td' ->
  td' !! k = td !! k.
Proof.
  intros Hk H. unfold td_houses, dimension_slots in *.
  apply bind_Ok in H as (zodiac & _ & H). block_leaves H k Hk.
Qed.

Lemma td_planets_other (D : Drawers) (self : KerykeionChartSVG) (td td' : TemplateDict)
    (k : string) :
  k ∈ "top_left_1" :: dimension_slots -> td_planets D self td = Ok td' ->
  td' !! k = td !! k.
Proof. intros Hk H. unfold td_planets, dimension_slots in *. block_leaves H k Hk. Qed.

Lemma td_elements_other (self : KerykeionChartSVG) (td td' : TemplateDict) (k : string) :
  k ∈ "top_left_1" :: dimension_slots -> td_elements self td = Ok td' ->
  td' !! k = td !! k.
Proof.
  intros Hk H. unfold td_elements, dimension_slots in *. cbv zeta in H.
  repeat (let x := fresh "x" in apply bind_Ok in H as (x & _ & H)).
  block_leaves H k Hk.
Qed.

Lemma td_planet_grid_other (D : Drawers) (self : KerykeionChartSVG) (td td' : TemplateDict)
    (k : string) :
  k ∈ "top_left_1" :: dimension_slots -> td_planet_grid D self td = Ok td' ->
  td' !! k = td !! k.
Proof.
  intros Hk H. unfold td_planet_grid, dimension_slots in *.
  destruct (bool_decide (chart_type self ∈ [Transit; Synastry]));
    repeat (let x := fresh "x" in apply bind_Ok in H as (x & _ & H));
    block_leaves H k Hk.
Qed.

Lemma td_date_time_other (D : Drawers) (self : KerykeionChartSVG) (td td' : TemplateDict)
    (k : string) :
  k ∈ "top_left_1" :: dimension_slots -> td_date_time D self td = Ok td' ->
  td' !! k = td !! k.
Proof. intros Hk H. unfold td_date_time, dimension_slots in *. block_leaves H k Hk. Qed.

(** The dimension slots of an assembled dictionary are those written first. *)
Lemma assembly_dimension_slot (D : Drawers) (self : KerykeionChartSVG) (td : TemplateDict)
    (k : string) :
  k ∈ dimension_slots ->
  _create_template_dictionary D self = Ok td ->
  td !! k = td_dimensions self ∅ !! k.
Proof.
  intros Hk H. unfold _create_template_dictionary in H. cbv zeta in H.
  assert (Hk' : k ∈ "top_left_1" :: dimension_slots) by (by apply list_elem_of_further).
  apply bind_Ok in H as (td1 & H1 & H). apply bind_Ok in H as (td2 & H2 & H).
  apply bind_Ok in H as (td3 & H3 & H). apply bind_Ok in H as (td4 & H4 & H).
  apply bind_Ok in H as (td5 & H5 & H). apply bind_Ok in H as (td6 & H6 & H).
  apply bind_Ok in H as (td7 & H7 & H). apply bind_Ok in H as (td8 & H8 & H).
  apply bind_Ok in H as (td9 & H9 & H). apply bind_Ok in H as (td10 & H10 & H).
  apply bind_Ok in H as (td11 & H11 & H).
  rewrite (td_date_time_other _ _ _ _ _ Hk' H), (td_planet_grid_other _ _ _ _ _ Hk' H11),
    (td_elements_other _ _ _ _ Hk' H10), (td_planets_other _ _ _ _ _ Hk' H9),
    (td_houses_other _ _ _ _ _ Hk' H8), (td_colors_other _ _ _ _ Hk' H7),
    (td_top_left_345_other _ _ _ _ _ Hk' H6), (td_chart_name_other _ _ _ _ Hk' H5),
    (td_location_other _ _ _ _ _ Hk H4), (td_moon_phase_other _ _ _ _ Hk),
    (td_bottom_left_other _ _ _ _ _ Hk H3), (td_title_other _ _ _ _ Hk H2),
    (td_rings_other _ _ _ _ _ Hk H1).
  reflexivity.
Qed.

(** The slot [top_left_1] of an assembled dictionary is the one written
    under "Set location string". *)
Lemma assembly_top_left_1 (D : Drawers) (self : KerykeionChartSVG) (td : TemplateDict) :
  _create_template_dictionary D self = Ok td ->
  exists td0 td1, td_location D self td0 = Ok td1 /\
    td !! "top_left_1" = td1 !! "top_left_1".
Proof.
  intros H. unfold _create_template_dictionary in H. cbv zeta in H.
  assert (Hk' : "top_left_1" ∈ "top_left_1" :: dimension_slots) by apply list_elem_of_here.
  apply bind_Ok in H as (td1 & H1 & H). apply bind_Ok in H as (td2 & H2 & H).
  apply bind_Ok in H as (td3 & H3 & H). apply bind_Ok in H as (td4 & H4 & H).
  apply bind_Ok in H as (td5 & H5 & H). apply bind_Ok in H as (td6 & H6 & H).
  apply bind_Ok in H as (td7 & H7 & H). apply bind_Ok in H as (td8 & H8 & H).
  apply bind_Ok in H as (td9 & H9 & H). apply bind_Ok in H as (td10 & H10 & H).
  apply bind_Ok in H as (td11 & H11 & H).
  eexists _, td4. split; [exact H4|].
  rewrite (td_date_time_other _ _ _ _ _ Hk' H), (td_planet_grid_other _ _ _ _ _ Hk' H11),
    (td_elements_other _ _ _ _ Hk' H10), (td_planets_other _ _ _ _ _ Hk' H9),
    (td_houses_other _ _ _ _ _ Hk' H8), (td_colors_other _ _ _ _ Hk' H7),
    (td_top_left_345_other _ _ _ _ _ Hk' H6), (td_chart_name_other _ _ _ _ Hk' H5).
  reflexivity.
Qed.

(** *** The pieces of a location *)

Lemma split_no_comma (s : string) : has_comma s = false -> split comma s = [s].
Proof.
  induction s as [|c s IH]; [done|]. cbn [has_comma split]. intros H.
  apply orb_false_iff in H as [Hc Hs]. rewrite Hc, (IH Hs). reflexivity.
Qed.

Lemma split_comma (s : string) :
  has_comma s = true -> exists p q r, split comma s = p :: q :: r.
Proof.
  induction s as [|c s IH]; [done|]. cbn [has_comma split]. intros H.
  destruct (Ascii.eqb c comma).
  - destruct (has_comma s) eqn:Hs.
    + destruct (IH eq_refl) as (p & q & r & ->). eauto.
    + rewrite (split_no_comma s Hs). eauto.
  - destruct (IH H) as (p & q & r & ->). eauto.
Qed.

Lemma last_segment_no_comma (s : string) : has_comma s = false -> last_segment s = s.
Proof.
  destruct s as [|c s]; [done|]. cbn [has_comma last_segment]. intros H.
  apply orb_false_iff in H as [Hc Hs]. by rewrite Hs, Hc.
Qed.

Lemma head_split (s : string) : head (split comma s) = Some (first_segment s).
Proof.
  induction s as [|c s IH]; [done|]. cbn [split first_segment].
  destruct (Ascii.eqb c comma); [done|].
  destruct (split comma s) as [|piece pieces]; [done|].
  injection IH as ->. reflexivity.
Qed.

Lemma last_split (s : string) : last (split comma s) = Some (last_segment s).
Proof.
  induction s as [|c s IH]; [done|]. cbn [split last_segment].
  destruct (has_comma s) eqn:Hs.
  - destruct (split_comma s Hs) as (p & q & r & Hsplit). rewrite Hsplit in *.
    by destruct (Ascii.eqb c comma).
  - rewrite (split_no_comma s Hs). by destruct (Ascii.eqb c comma).
Qed.

Lemma several_pieces (s : string) :
  (1 <? Z.of_nat (length (split comma s))) = has_comma s.
Proof.
  destruct (has_comma s) eqn:Hs.
  - destruct (split_comma s Hs) as (p & q & r & ->). cbn [length]. apply Z.ltb_lt. lia.
  - by rewrite (split_no_comma s Hs).
Qed.

(** [s[:n]] is the substring of length [n] from the start, which has [n]
    characters when [s] has as many, and with which [s] begins. *)
Lemma str_take_substring (n : nat) (s : string) : str_take n s = String.substring 0 n s.
Proof.
  revert s. induction n as [|n IH]; intros s; [by destruct s|].
  destruct s as [|x s]; [done|]. cbn [str_take String.substring]. by rewrite IH.
Qed.

Lemma length_substring (n : nat) (s : string) :
  (n <= String.length s)%nat -> String.length (String.substring 0 n s) = n.
Proof.
  revert s. induction n as [|n IH]; intros s Hn; [by destruct s|].
  destruct s as [|x s]; cbn in *; [lia|]. rewrite IH; lia.
Qed.

Lemma prefix_substring (n : nat) (s : string) :
  String.prefix (String.substring 0 n s) s = true.
Proof.
  revert s. induction n as [|n IH]; intros s; [by destruct s|].
  destruct s as [|x s]; [done|]. cbn [String.substring String.prefix].
  destruct (ascii_dec x x); [apply IH | done].
Qed.

(** The location text in terms of the first and the last piece. *)
Lemma location_string_spec (l : string) :
  location_string l
  = if 35 <? len l then
      if has_comma l then
        let combined := first_segment l +:+ ", " +:+ last_segment l in
        if 35 <? len combined then ellipsis35 combined else combined
      else ellipsis35 l
    else l.
Proof.
  unfold location_string, ellipsis35. fold comma.
  by rewrite several_pieces, head_split, last_split, !str_take_substring.
Qed.

(** C2. For every chart that is not a Composite, in an assembled template
    dictionary: when the location is longer than 35 characters and holds a
    comma, the slot [top_left_1] is the first comma-separated piece, then
    [", "], then the last piece, and when that text is itself longer than 35
    characters, its first 35 characters followed by ["..."]; when the
    location is longer than 35 characters and holds no comma, the slot is
    the first 35 characters of the location followed by ["..."]; when the
    location has at most 35 characters, the slot is the location. The first
    35 characters of a text are its substring from 0 of length 35: 35
    characters with which the text begins. *)
Theorem location_line_abbreviated (D : Drawers) (self : KerykeionChartSVG)
    (td : TemplateDict) :
  chart_type self <> Composite ->
  _create_template_dictionary D self = Ok td ->
  let l := location self in
  let combined := first_segment l +:+ ", " +:+ last_segment l in
  ((35 < String.length l)%nat -> has_comma l = true ->
   (String.length combined <= 35)%nat ->
   td !! "top_left_1" = Some (SStr combined)) /\
  ((35 < String.length l)%nat -> has_comma l = true ->
   (35 < String.length combined)%nat ->
   td !! "top_left_1" = Some (SStr (String.substring 0 35 combined +:+ "...")) /\
   String.length (String.substring 0 35 combined) = 35%nat /\
   String.prefix (String.substring 0 35 combined) combined = true) /\
  ((35 < String.length l)%nat -> has_comma l = false ->
   td !! "top_left_1" = Some (SStr (String.substring 0 35 l +:+ "...")) /\
   String.length (String.substring 0 35 l) = 35%nat /\
   String.prefix (String.substring 0 35 l) l = true) /\
  ((String.length l <= 35)%nat -> td !! "top_left_1" = Some (SStr l)).
Proof.
  intros Htype H l combined.
  destruct (assembly_top_left_1 D self td H) as (td0 & td1 & Hlocation & ->).
  unfold td_location in Hlocation.
  rewrite (bool_decide_eq_false_2 _ Htype) in Hlocation. injection Hlocation as <-.
  rewrite lookup_insert_eq, location_string_spec. cbv zeta. fold l combined.
  unfold len, ellipsis35. split; [|split; [|split]].
  - intros Hlong -> Hshort.
    destruct (Z.ltb_spec 35 (Z.of_nat (String.length l))); [|lia].
    destruct (Z.ltb_spec 35 (Z.of_nat (String.length combined))); [lia | done].
  - intros Hlong -> Hlong'.
    destruct (Z.ltb_spec 35 (Z.of_nat (String.length l))); [|lia].
    destruct (Z.ltb_spec 35 (Z.of_nat (String.length combined))); [|lia].
    split; [done|]. split; [apply length_substring; lia | apply prefix_substring].
  - intros Hlong ->.
    destruct (Z.ltb_spec 35 (Z.of_nat (String.length l))); [|lia].
    split; [done|]. split; [apply length_substring; lia | apply prefix_substring].
  - intros Hshort.
    destruct (Z.ltb_spec 35 (Z.of_nat (String.length l))); [lia | done].
Qed.

Lemma transit_table_chart_renders :
  is_ok (_create_template_dictionary Sample.drawers Sample.transit_table_chart) = true.
Proof. vm_compute. reflexivity. Qed.

Lemma is_ok_Ok {A} (r : result A) : is_ok r = true -> exists x, r = Ok x.
Proof. destruct r as [x|e]; [eauto | discriminate]. Qed.

Lemma long_place_charts_render :
  is_ok (_create_template_dictionary Sample.drawers (Sample.natal_chart_of Sample.george))
  = true /\
  is_ok (_create_template_dictionary Sample.drawers (Sample.natal_chart_of Sample.ringo))
  = true.
Proof. split; vm_compute; reflexivity. Qed.

Lemma location_line_abbreviated_witness :
  (exists td,
     _create_template_dictionary Sample.drawers Sample.transit_table_chart = Ok td /\
     td !! "top_left_1" = Some (SStr "Springfield,  Some Country")) /\
  (exists td,
     _create_template_dictionary Sample.drawers (Sample.natal_chart_of Sample.george)
     = Ok td /\
     td !! "top_left_1" = Some (SStr "Sankt Margarethen im Burgenland,  A...")) /\
  (exists td,
     _create_template_dictionary Sample.drawers (Sample.natal_chart_of Sample.ringo)
     = Ok td /\
     td !! "top_left_1" = Some (SStr "Llanfairpwllgwyngyllgogerychwyrndro...")).
Proof.
  destruct long_place_charts_render as [Hgeorge Hringo].
  split; [|split].
  - destruct (is_ok_Ok _ transit_table_chart_renders) as [td Htd].
    exists td. split; [exact Htd|].
    apply (location_line_abbreviated Sample.drawers Sample.transit_table_chart td);
      [discriminate | exact Htd | vm_compute; lia | reflexivity | vm_compute; lia].
  - destruct (is_ok_Ok _ Hgeorge) as [td Htd].
    exists td. split; [exact Htd|].
    apply (location_line_abbreviated Sample.drawers (Sample.natal_chart_of Sample.george)
             td);
      [discriminate | exact Htd | vm_compute; lia | reflexivity | vm_compute; lia].
  - destruct (is_ok_Ok _ Hringo) as [td Htd].
    exists td. split; [exact Htd|].
    apply (location_line_abbreviated Sample.drawers (Sample.natal_chart_of Sample.ringo)
             td);
      [discriminate | exact Htd | vm_compute; lia | reflexivity].
Defined.

(** *** Chart dimensions *)

(** No operation assigns to the height, the width, the chart type or the
    grid type. *)
Lemma after_dimensions (C : Collaborators) (D : Drawers) (op : Operation)
    (self : KerykeionChartSVG) :
  dimensions (after C D op self) = dimensions self.
Proof.
  destruct op; cbn [after]; try reflexivity.
  - unfold parse_json_settings. by destruct (py_getitem _ _).
  - unfold _calculate_elements_points_from_planets. by destruct (calculate_elements _ _ _).
  - by rewrite makeTemplate_leaves.
  - unfold makeSVG, mbind, M_bind.
    pose proof (makeTemplate_leaves D minify remove_css_variables self) as Hsame.
    destruct (makeTemplate D minify remove_css_variables self) as [self' [out|e]];
      simpl in Hsame; by subst self'.
  - by rewrite makeWheelOnlyTemplate_leaves.
  - unfold makeWheelOnlySVG.
    rewrite bind_leaves; [done | apply makeWheelOnlyTemplate_leaves | intros; apply mret_leaves].
  - by rewrite makeAspectGridOnlyTemplate_leaves.
  - unfold makeAspectGridOnlySVG.
    rewrite bind_leaves;
      [done | apply makeAspectGridOnlyTemplate_leaves | intros; apply mret_leaves].
Qed.

Lemma after_all_dimensions (C : Collaborators) (D : Drawers) (ops : list Operation)
    (self : KerykeionChartSVG) :
  dimensions (after_all C D ops self) = dimensions self.
Proof.
  revert self. induction ops as [|op ops IH]; intros self; [done|].
  unfold after_all in *. cbn [fold_left]. by rewrite IH, after_dimensions.
Qed.

(** The width chosen under "screen size" is never the with-table width. *)
Lemma screen_width_cases (t : ChartType) (grid : GridType) :
  screen_width t grid
  = match t with
    | Synastry | Transit => 1200
    | Natal | ExternalNatal | Composite => 820
    end.
Proof. by destruct t, grid. Qed.

(** C9. For every instance, as constructed and after any sequence of
    operations, an assembled template dictionary has [chart_height] 550 and
    [chart_width] 1200 when the chart type is Synastry or Transit and 820
    for every other chart type. A Transit chart whose
    [double_chart_aspect_grid_type] is ["table"] has width 1200 as well,
    next to the viewbox ["0 0 960 546.0"]: the branch that assigns the
    with-table width 960 is never taken, for no chart type and grid type. *)
Theorem chart_dimension_slots (C : Collaborators) (D : Drawers) (a : InitArgs)
    (self : KerykeionChartSVG) (ops : list Operation) (td : TemplateDict) :
  __init__ C a = Ok self ->
  _create_template_dictionary D (after_all C D ops self) = Ok td ->
  td !! "chart_height" = Some (SInt 550) /\
  td !! "chart_width"
  = Some (SInt (match chart_type self with
                | Synastry | Transit => 1200
                | Natal | ExternalNatal | Composite => 820
                end)) /\
  (chart_type self = Transit -> double_chart_aspect_grid_type self = GridTable ->
   td !! "chart_width" = Some (SInt 1200) /\
   td !! "viewbox" = Some (SStr "0 0 960 546.0")) /\
  (forall t grid, screen_width t grid <> _DEFAULT_FULL_WIDTH_WITH_TABLE).
Proof.
  intros Hinit H.
  destruct (init_constructed C a self Hinit)
    as [Htype _ Hgrid _ Hheight Hwidth _ _ _ _ _ _ _].
  pose proof (after_all_dimensions C D ops self) as Hsame.
  unfold dimensions in Hsame. injection Hsame as Hheight' Hwidth' Htype' Hgrid'.
  assert (Hslot : forall k, k ∈ dimension_slots ->
            td !! k = td_dimensions (after_all C D ops self) ∅ !! k)
    by (intros k Hk; by apply (assembly_dimension_slot D)).
  assert (Hheight_slot : td !! "chart_height" = Some (SInt 550)).
  { rewrite Hslot by (unfold dimension_slots; set_solver).
    unfold td_dimensions. rewrite Hheight', Hheight.
    repeat case_bool_decide; cbn [andb]; by through_inserts. }
  assert (Hwidth_slot : td !! "chart_width"
            = Some (SInt (screen_width (chart_type self)
                            (double_chart_aspect_grid_type self)))).
  { rewrite Hslot by (unfold dimension_slots; set_solver).
    unfold td_dimensions. rewrite Hwidth', Hwidth, Htype, Hgrid.
    repeat case_bool_decide; cbn [andb]; by through_inserts. }
  rewrite screen_width_cases in Hwidth_slot.
  split; [exact Hheight_slot|]. split; [exact Hwidth_slot|]. split.
  - intros Htransit Htable. split; [by rewrite Hwidth_slot, Htransit|].
    rewrite Hslot by (unfold dimension_slots; set_solver).
    unfold td_dimensions. rewrite Htype', Hgrid', Htransit, Htable.
    reflexivity.
  - intros t grid. rewrite screen_width_cases. by destruct t.
Qed.

Lemma chart_dimension_slots_witness :
  exists td,
    _create_template_dictionary Sample.drawers Sample.transit_table_chart = Ok td /\
    td !! "chart_height" = Some (SInt 550) /\
    td !! "chart_width" = Some (SInt 1200) /\
    td !! "viewbox" = Some (SStr "0 0 960 546.0").
Proof.
  destruct (is_ok_Ok _ transit_table_chart_renders) as [td Htd].
  exists td. split; [exact Htd|].
  destruct (chart_dimension_slots Sample.collaborators Sample.drawers
              Sample.transit_table_args Sample.transit_table_chart [] td
              transit_table_chart_built Htd) as (Hheight & _ & Htable & _).
  split; [exact Hheight|]. by apply Htable.
Defined.

(** ** Element percentages *)

Lemma py_index_elem {A} (xs : list A) (i : Z) (x : A) : py_index xs i = Ok x -> x ∈ xs.
Proof.
  unfold py_index. destruct (_ && _); [|discriminate].
  destruct (xs !! _) as [y|] eqn:Hy; [|discriminate].
  intros [= <-]. by apply list_elem_of_lookup_2 in Hy.
Qed.

(** One iteration with a weight that is not negative lowers no bucket and
    raises the total by the score of the point. *)
Lemma elements_step_grows (body : KerykeionSettingsCelestialPointModel) (cz : Z)
    (s s' : Elements) :
  0 <= element_points body ->
  elements_step body cz s = Ok s' ->
  no_bucket_below s s' /\ element_total s' = element_total s + point_score body cz.
Proof.
  intros Hweight H. unfold elements_step in H.
  apply bind_Ok in H as (z & Hz & H). injection H as <-.
  rewrite extra_points_of_spec. fold (point_score body cz).
  assert (Hscore : 0 <= point_score body cz)
    by (unfold point_score; case_bool_decide; lia).
  revert Hscore. generalize (point_score body cz) as amount. intros amount Hamount.
  apply py_index_elem in Hz. unfold ZODIAC in Hz.
  repeat (apply elem_of_cons in Hz as [->|Hz]); try (by apply elem_of_nil in Hz);
    unfold no_bucket_below, element_total, add_to_element; simpl; lia.
Qed.

(** The whole loop, when it returns and no weight is negative: no bucket is
    lowered, and the total is raised as soon as one point scores. *)
Lemma calculate_elements_grows (d : ChartData)
    (avail : list KerykeionSettingsCelestialPointModel) (s s' : Elements) :
  Forall (fun body => 0 <= element_points body) avail ->
  calculate_elements d avail s = (s', Ok tt) ->
  no_bucket_below s s' /\
  element_total s <= element_total s' /\
  (Exists (scores_positive d) avail -> element_total s < element_total s').
Proof.
  intros Hweights. revert s. induction Hweights as [|body rest Hweight _ IH]; intros s H.
  - injection H as <-. unfold no_bucket_below.
    repeat split; try lia. intros Hnone. by apply Exists_nil in Hnone.
  - unfold calculate_elements in H. cbn [map mapM] in H.
    destruct (sign_of d (lower (body_name body))) as [cz|e] eqn:Hsign; [|discriminate].
    cbn [mbind result_bind] in H.
    destruct (mapM (sign_of d) (map (fun body => lower (body_name body)) rest))
      as [signs|e] eqn:Hsigns; [|discriminate].
    cbn [mret result_ret mbind result_bind elements_loop] in H.
    destruct (elements_step body cz s) as [s1|e] eqn:Hstep; [|discriminate].
    destruct (elements_step_grows body cz s s1 Hweight Hstep) as (Hbuckets & Htotal).
    destruct (IH s1) as (Hbuckets' & Htotal' & Hpositive).
    { unfold calculate_elements. by rewrite Hsigns. }
    assert (Hscore : 0 <= point_score body cz)
      by (unfold point_score; case_bool_decide; lia).
    unfold no_bucket_below in *. repeat split; try lia.
    intros Hsome. apply Exists_cons in Hsome as [(p & Hget & Hp)|Hsome].
    + unfold sign_of in Hsign. rewrite Hget in Hsign. injection Hsign as <-. lia.
    + specialize (Hpositive Hsome). lia.
Qed.

(** Rounding a number between two integers stays between them. *)
Lemma py_round_between (q : Q) (lo hi : Z) :
  (inject_Z lo <= q)%Q -> (q <= inject_Z hi)%Q -> lo <= py_round q <= hi.
Proof.
  intros Hlo Hhi. unfold py_round.
  pose proof (Qfloor_resp_le _ _ Hlo) as Hlo'. rewrite Qfloor_Z in Hlo'.
  pose proof (Qfloor_resp_le _ _ Hhi) as Hhi'. rewrite Qfloor_Z in Hhi'.
  destruct (Z.eq_dec (Qfloor q) hi) as [Htop|Hbelow].
  - assert (Hcmp : (q - inject_Z (Qfloor q) ?= 1 # 2)%Q = Lt).
    { apply Qlt_alt. rewrite Htop.
      apply Qle_lt_trans with (y := 0%Q); [|reflexivity].
      apply (Qplus_le_l _ _ (inject_Z hi)). ring_simplify. exact Hhi. }
    rewrite Hcmp. lia.
  - destruct (_ ?= _)%Q; [destruct (Z.even _)| |]; lia.
Qed.

Lemma percentage_in_range (score total : Z) :
  0 <= score <= total -> 0 < total ->
  exists p, percentage score total = Ok p /\ 0 <= p <= 100.
Proof.
  intros Hscore Htotal. unfold percentage.
  destruct (Z.eqb_spec total 0) as [->|_]; [lia|].
  eexists; split; [reflexivity|].
  assert (Hpos : (0 < inject_Z total)%Q).
  { change (inject_Z 0 < inject_Z total)%Q. rewrite <- Zlt_Qlt. exact Htotal. }
  apply py_round_between.
  - apply Qle_shift_div_l; [exact Hpos|].
    rewrite <- inject_Z_mult, <- Zle_Qle. lia.
  - apply Qle_shift_div_r; [exact Hpos|].
    rewrite <- inject_Z_mult, <- Zle_Qle. lia.
Qed.

(** C7, as the code has it. For every chart type, when no active point has
    a negative base weight and at least one active point scores more than 0
    (its base weight plus the bonus of a related sign), the sum of the four
    raw scores of a constructed instance is more than 0, and each of the
    four displayed percentages [int(round(100 * score / total))] is computed
    and lies between 0 and 100. *)
Theorem element_percentages_in_range (C : Collaborators) (a : InitArgs)
    (self : KerykeionChartSVG) :
  __init__ C a = Ok self ->
  Forall (fun body => 0 <= element_points body) (available_planets_setting self) ->
  Exists (scores_positive (chart_data (user self))) (available_planets_setting self) ->
  0 < element_total (scores self) /\
  forall score, score ∈ [fire (scores self); earth (scores self); air (scores self);
                          water (scores self)] ->
    exists p, percentage score (element_total (scores self)) = Ok p /\ 0 <= p <= 100.
Proof.
  intros Hinit Hweights Hsome.
  destruct (init_constructed C a self Hinit)
    as [_ Huser _ _ _ _ _ _ _ Hscores _ _ _].
  rewrite <- Huser in Hscores.
  destruct (calculate_elements_grows _ _ _ _ Hweights Hscores)
    as (Hbuckets & _ & Hpositive).
  specialize (Hpositive Hsome). unfold no_bucket_below, no_points in Hbuckets.
  cbn [fire earth air water] in Hbuckets. change (element_total no_points) with 0 in Hpositive.
  split; [exact Hpositive|].
  intros score Hscore. apply percentage_in_range; [|exact Hpositive].
  unfold element_total in *.
  repeat (apply elem_of_cons in Hscore as [->|Hscore]); try (by apply elem_of_nil in Hscore);
    lia.
Qed.

Lemma element_percentages_in_range_witness :
  0 < element_total (scores Sample.natal_chart) /\
  percentage (fire (scores Sample.natal_chart)) (element_total (scores Sample.natal_chart))
  = Ok 56 /\
  percentage (earth (scores Sample.natal_chart)) (element_total (scores Sample.natal_chart))
  = Ok 44.
Proof.
  split; [|split; reflexivity].
  apply (element_percentages_in_range Sample.collaborators Sample.natal_args
           Sample.natal_chart natal_chart_built).
  - repeat constructor; discriminate.
  - apply Exists_cons_hd. eexists. split; [reflexivity | reflexivity].
Defined.

(** C7, as stated, fails: a Natal chart whose only active point is the
    node, configured with base weight 0 and no related sign, is constructed
    with one active point and all four scores 0; the total is 0 and the
    percentages are a division by zero, which ends the assembly. *)
Lemma one_active_point_total_zero :
  __init__ Sample.collaborators Sample.node_args = Ok Sample.node_chart /\
  length (available_planets_setting Sample.node_chart) = 1%nat /\
  element_total (scores Sample.node_chart) = 0 /\
  percentage (fire (scores Sample.node_chart)) (element_total (scores Sample.node_chart))
  = Err ZeroDivisionError /\
  _create_template_dictionary Sample.drawers Sample.node_chart = Err ZeroDivisionError.
Proof.
  split; [exact node_chart_built|].
  repeat split; vm_compute; reflexivity.
Qed.

(** ** Missing labels *)

Lemma outcome_bind {A A' B B'} (m : result A) (m' : result A')
    (f : A -> result B) (f' : A' -> result B') :
  outcome m = outcome m' ->
  (forall x x', outcome (f x) = outcome (f' x')) ->
  outcome (m ≫= f) = outcome (m' ≫= f').
Proof. destruct m as [x|e], m' as [x'|e']; cbn; intros Hm Hf; by try apply Hf. Qed.

Section Labels.

Variables (D : Drawers) (self : KerykeionChartSVG) (table : gmap string string).

Hypothesis agree :
  forall k, k ∈ subscripted_labels -> table !! k = language_settings self !! k.

Lemma lang_agree (k : string) :
  k ∈ subscripted_labels -> outcome (lang (set_language_settings table self) k) = outcome (lang self k).
Proof.
  intros Hk. unfold lang, py_getitem. cbn [language_settings set_language_settings].
  by rewrite (agree k Hk).
Qed.

Lemma zodiac_slices_loop_agree (r i : Z) (sings : list string) (output : string) :
  zodiac_slices_loop D (set_language_settings table self) r i sings output = zodiac_slices_loop D self r i sings output.
Proof.
  revert i output. induction sings as [|sing sings IH]; intros i output; [done|].
  cbn [zodiac_slices_loop]. cbn [chart_colors_settings set_language_settings].
  destruct (py_getitem _ _) as [bg|e]; [|done]. cbn [mbind result_bind]. apply IH.
Qed.

Lemma zodiac_colors_loop_agree (indices : list Z) (td td' : TemplateDict) :
  outcome (zodiac_colors_loop (set_language_settings table self) indices td')
  = outcome (zodiac_colors_loop self indices td).
Proof.
  revert td td'. induction indices as [|i indices IH]; intros td td'; [done|].
  cbn [zodiac_colors_loop]. apply outcome_bind; [reflexivity|]. intros icon icon'. apply IH.
Qed.

(** Both sides run the same statements; only what they write differs. *)
Ltac same_outcome :=
  cbv zeta;
  repeat first
    [ apply outcome_bind; [|intros ? ?]
    | lazymatch goal with
      | |- outcome (if ?b then _ else _) = outcome (if ?b' then _ else _) =>
          change b' with b; destruct b
      | |- outcome (match ?x with _ => _ end) = outcome (match ?x' with _ => _ end) =>
          change x' with x; destruct x
      | |- outcome (lang _ _) = outcome (lang _ _) =>
          apply lang_agree; unfold subscripted_labels; set_solver
      | |- outcome (zodiac_colors_loop _ _ _) = _ => apply zodiac_colors_loop_agree
      | |- outcome (_draw_zodiac_circle_slices _ _ _) = _ =>
          unfold _draw_zodiac_circle_slices; by rewrite zodiac_slices_loop_agree
      | |- _ => reflexivity
      end ].

Lemma td_rings_agree (td td' : TemplateDict) :
  outcome (td_rings D (set_language_settings table self) td') = outcome (td_rings D self td).
Proof. unfold td_rings. same_outcome. Qed.

Lemma td_title_agree (td td' : TemplateDict) :
  outcome (td_title (set_language_settings table self) td') = outcome (td_title self td).
Proof. unfold td_title. same_outcome. Qed.

Lemma td_bottom_left_agree (td td' : TemplateDict) :
  outcome (td_bottom_left D (set_language_settings table self) td') = outcome (td_bottom_left D self td).
Proof. unfold td_bottom_left. same_outcome. Qed.

Lemma td_location_agree (td td' : TemplateDict) :
  outcome (td_location D (set_language_settings table self) td') = outcome (td_location D self td).
Proof. unfold td_location. same_outcome. Qed.

Lemma td_chart_name_agree (td td' : TemplateDict) :
  outcome (td_chart_name (set_language_settings table self) td') = outcome (td_chart_name self td).
Proof. unfold td_chart_name. same_outcome. Qed.

Lemma td_top_left_345_agree (td td' : TemplateDict) :
  outcome (td_top_left_345 D (set_language_settings table self) td') = outcome (td_top_left_345 D self td).
Proof. unfold td_top_left_345. same_outcome. Qed.

Lemma td_colors_agree (td td' : TemplateDict) :
  outcome (td_colors (set_language_settings table self) td') = outcome (td_colors self td).
Proof. unfold td_colors. same_outcome. Qed.

Lemma td_houses_agree (td td' : TemplateDict) :
  outcome (td_houses D (set_language_settings table self) td') = outcome (td_houses D self td).
Proof. unfold td_houses. same_outcome. Qed.

Lemma td_planets_agree (td td' : TemplateDict) :
  outcome (td_planets D (set_language_settings table self) td') = outcome (td_planets D self td).
Proof. unfold td_planets. same_outcome. Qed.

Lemma td_elements_agree (td td' : TemplateDict) :
  outcome (td_elements (set_language_settings table self) td') = outcome (td_elements self td).
Proof. unfold td_elements. same_outcome. Qed.

Lemma td_planet_grid_agree (td td' : TemplateDict) :
  outcome (td_planet_grid D (set_language_settings table self) td') = outcome (td_planet_grid D self td).
Proof. unfold td_planet_grid. same_outcome. Qed.

Lemma td_date_time_agree (td td' : TemplateDict) :
  outcome (td_date_time D (set_language_settings table self) td') = outcome (td_date_time D self td).
Proof. unfold td_date_time. same_outcome. Qed.

Lemma assembly_agree :
  outcome (_create_template_dictionary D (set_language_settings table self))
  = outcome (_create_template_dictionary D self).
Proof.
  unfold _create_template_dictionary. cbv zeta.
  apply outcome_bind; [apply td_rings_agree | intros ? ?].
  apply outcome_bind; [apply td_title_agree | intros ? ?].
  apply outcome_bind; [apply td_bottom_left_agree | intros ? ?].
  apply outcome_bind; [apply td_location_agree | intros ? ?].
  apply outcome_bind; [apply td_chart_name_agree | intros ? ?].
  apply outcome_bind; [apply td_top_left_345_agree | intros ? ?].
  apply outcome_bind; [apply td_colors_agree | intros ? ?].
  apply outcome_bind; [apply td_houses_agree | intros ? ?].
  apply outcome_bind; [apply td_planets_agree | intros ? ?].
  apply outcome_bind; [apply td_elements_agree | intros ? ?].
  apply outcome_bind; [apply td_planet_grid_agree | intros ? ?].
  apply td_date_time_agree.
Qed.

End Labels.

(** C8, as the code has it. The labels that the assembly reads with
    [.get(label, default)] fall back to the default when they are absent,
    and their absence does not fail the assembly: with any language table
    that holds the same entries for the labels read by subscript, the
    assembly ends as it does with the table of the instance, returning
    when that one returns and raising the same exception when that one
    raises. *)
Theorem labels_with_default_fall_back (D : Drawers) (self : KerykeionChartSVG)
    (table : gmap string string) :
  (forall k, k ∈ subscripted_labels -> table !! k = language_settings self !! k) ->
  (forall k default, table !! k = None ->
     lang_get (set_language_settings table self) k default = default) /\
  outcome (_create_template_dictionary D (set_language_settings table self))
  = outcome (_create_template_dictionary D self) /\
  (is_ok (_create_template_dictionary D self) = true ->
   is_ok (_create_template_dictionary D (set_language_settings table self)) = true).
Proof.
  intros Hagree. split; [|split].
  - intros k default Hk. unfold lang_get, py_get.
    cbn [language_settings set_language_settings]. by rewrite Hk.
  - by apply assembly_agree.
  - pose proof (assembly_agree D self table Hagree) as Hsame.
    destruct (_create_template_dictionary D self); [|discriminate].
    by destruct (_create_template_dictionary D (set_language_settings table self)).
Qed.

Lemma labels_with_default_fall_back_witness :
  Sample.english !! "zodiac" = None /\
  lang_get (set_language_settings Sample.english Sample.translated_chart) "zodiac" "Zodiac"
  = "Zodiac" /\
  outcome (_create_template_dictionary Sample.drawers
             (set_language_settings Sample.english Sample.translated_chart))
  = outcome (_create_template_dictionary Sample.drawers Sample.translated_chart).
Proof.
  assert (Hagree : forall k, k ∈ subscripted_labels ->
            Sample.english !! k = language_settings Sample.translated_chart !! k).
  { intros k Hk. cbn [language_settings Sample.translated_chart set_language_settings].
    unfold Sample.translated. rewrite !lookup_insert_ne; [done| |].
    - intros <-. unfold subscripted_labels in Hk.
      repeat (apply elem_of_cons in Hk as [Hk|Hk]; [discriminate Hk|]).
      by apply elem_of_nil in Hk.
    - intros <-. unfold subscripted_labels in Hk.
      repeat (apply elem_of_cons in Hk as [Hk|Hk]; [discriminate Hk|]).
      by apply elem_of_nil in Hk. }
  destruct (labels_with_default_fall_back Sample.drawers Sample.translated_chart
              Sample.english Hagree) as (Hdefault & Hsame & _).
  split; [reflexivity|]. split; [|exact Hsame].
  apply Hdefault. reflexivity.
Defined.

(** C8, as stated, fails: [info] is a label used during the assembly of a
    Natal chart, read by subscript; with the sample table the assembly
    completes, and with the same table without [info] it raises
    [KeyError]. *)
Lemma missing_info_label_fails :
  delete "info" Sample.english !! "info" = None /\
  is_ok (_create_template_dictionary Sample.drawers Sample.natal_chart) = true /\
  _create_template_dictionary Sample.drawers
    (set_language_settings (delete "info" Sample.english) Sample.natal_chart)
  = Err (KeyError "info").
Proof. repeat split; vm_compute; reflexivity. Qed.

(** ** What the rendered text never holds *)

Lemma contains_char_cons (c x : ascii) (s : string) :
  contains (char c) (String x s) = Ascii.eqb c x || contains (char c) s.
Proof.
  cbn [contains char String.prefix]. destruct (Ascii.eqb_spec c x) as [->|Hne].
  - destruct (ascii_dec x x); [by destruct s | done].
  - by destruct (ascii_dec c x).
Qed.

Lemma contains_char_append (c : ascii) (a b : string) :
  contains (char c) (a +:+ b) = contains (char c) a || contains (char c) b.
Proof.
  induction a as [|x a IH].
  - by destruct b.
  - rewrite append_cons, !contains_char_cons, IH. by rewrite orb_assoc.
Qed.

(** A replacement brings in no character that is neither in the text nor
    in the new piece. *)
Lemma replace_from_no_new_char (c : ascii) (old new s : string) (skip : nat) :
  contains (char c) new = false -> contains (char c) s = false ->
  contains (char c) (replace_from skip old new s) = false.
Proof.
  intros Hnew. revert skip. induction s as [|x s IH]; intros skip Hs; [by destruct skip|].
  rewrite contains_char_cons in Hs. apply orb_false_iff in Hs as [Hx Hs].
  cbn [replace_from]. destruct skip as [|skip]; [|by apply IH].
  destruct (String.prefix old (String x s)).
  - rewrite contains_char_append, Hnew. by apply IH.
  - rewrite contains_char_cons, Hx. by apply IH.
Qed.

(** Replacing a character by a piece without it leaves none. *)
Lemma replace_char_gone (c : ascii) (new s : string) :
  contains (char c) new = false ->
  contains (char c) (replace (char c) new s) = false.
Proof.
  intros Hnew. unfold replace. induction s as [|x s IH]; [done|].
  cbn [replace_from char String.prefix String.length Nat.sub].
  destruct (ascii_dec c x) as [->|Hne].
  - replace (String.prefix "" s) with true by (by destruct s).
    rewrite contains_char_append, Hnew. exact IH.
  - rewrite contains_char_cons, IH, orb_false_r. by apply Ascii.eqb_neq.
Qed.

Lemma prefix_cons (c x : ascii) (piece s : string) :
  String.prefix (String c piece) (String x s) = Ascii.eqb c x && String.prefix piece s.
Proof.
  cbn [String.prefix]. destruct (Ascii.eqb_spec c x) as [->|Hne].
  - by destruct (ascii_dec x x).
  - by destruct (ascii_dec c x).
Qed.

Lemma prefix_empty (s : string) : String.prefix "" s = true.
Proof. by destruct s. Qed.

Lemma contains_cons (piece : string) (x : ascii) (s : string) :
  contains piece (String x s) = String.prefix piece (String x s) || contains piece s.
Proof. reflexivity. Qed.

(** Removing the pairs of spaces leaves no two spaces side by side. *)
Lemma replace_spaces_gone (s : string) :
  contains "  " (replace_from 0 "  " "" s) = false /\
  contains "  " (replace_from 1 "  " "" s) = false /\
  (String.prefix " " (replace_from 0 "  " "" s) = true -> String.prefix " " s = true).
Proof.
  induction s as [|x s (IH0 & IH1 & IHspace)]; [done|].
  assert (Hstep : replace_from 0 "  " "" (String x s)
                  = if Ascii.eqb " " x && String.prefix " " s
                    then replace_from 1 "  " "" s
                    else String x (replace_from 0 "  " "" s)).
  { cbn [replace_from]. by rewrite prefix_cons. }
  split; [|split].
  - rewrite Hstep. destruct (Ascii.eqb_spec " " x) as [<-|Hne]; cbn [andb].
    + destruct (String.prefix " " s) eqn:Hspace; [exact IH1|].
      rewrite contains_cons, IH0, orb_false_r, prefix_cons, Ascii.eqb_refl. cbn [andb].
      destruct (String.prefix " " (replace_from 0 "  " "" s)) eqn:Hr; [|done].
      by specialize (IHspace eq_refl).
    + rewrite contains_cons, IH0, orb_false_r, prefix_cons.
      by apply Ascii.eqb_neq in Hne as ->.
  - exact IH0.
  - rewrite Hstep. destruct (Ascii.eqb_spec " " x) as [<-|Hne]; cbn [andb].
    + intros _. by rewrite prefix_cons, Ascii.eqb_refl, prefix_empty.
    + rewrite !prefix_cons. by apply Ascii.eqb_neq in Hne as ->.
Qed.

(** The tail shared by the three template methods leaves no double quote,
    and with [minify] no line break, no tab and no two spaces side by
    side. *)
Lemma finish_template_clean (D : Drawers) (minify remove_css_variables : bool)
    (text : string) :
  contains dquote (finish_template D minify remove_css_variables text) = false /\
  (minify = true ->
   contains newline (finish_template D minify remove_css_variables text) = false /\
   contains tab (finish_template D minify remove_css_variables text) = false /\
   contains "  " (finish_template D minify remove_css_variables text) = false).
Proof.
  unfold finish_template.
  generalize (if remove_css_variables then inline_css_variables_in_svg D text else text).
  intros inlined. destruct minify.
  - generalize (scourString D inlined). intros scoured. unfold replace at 1 2 3 4.
    split; [|intros _; split; [|split]].
    + do 4 (apply (replace_from_no_new_char (ascii_of_nat 34)); [reflexivity|]).
      by apply (replace_char_gone (ascii_of_nat 34)).
    + do 3 (apply (replace_from_no_new_char (ascii_of_nat 10)); [reflexivity|]).
      by apply (replace_char_gone (ascii_of_nat 10)).
    + do 2 (apply (replace_from_no_new_char (ascii_of_nat 9)); [reflexivity|]).
      by apply (replace_char_gone (ascii_of_nat 9)).
    + apply replace_spaces_gone.
  - split; [|discriminate]. by apply (replace_char_gone (ascii_of_nat 34)).
Qed.

Lemma makeTemplate_finished (D : Drawers) (self : KerykeionChartSVG)
    (minify remove_css_variables : bool) (out : string) :
  snd (makeTemplate D minify remove_css_variables self) = Ok out ->
  exists text, out = finish_template D minify remove_css_variables text.
Proof.
  unfold makeTemplate, reading, mbind, M_bind, mret, M_ret. cbn [fst snd].
  destruct (_create_template_dictionary D self) as [td|e]; [|discriminate].
  destruct (substitute D (chart_xml D) td) as [text|e]; [|discriminate].
  intros [= <-]. by exists text.
Qed.

Lemma makeWheelOnlyTemplate_finished (D : Drawers) (self : KerykeionChartSVG)
    (minify remove_css_variables : bool) (out : string) :
  snd (makeWheelOnlyTemplate D minify remove_css_variables self) = Ok out ->
  exists text, out = finish_template D minify remove_css_variables text.
Proof.
  unfold makeWheelOnlyTemplate, reading, mbind, M_bind, mret, M_ret. cbn [fst snd].
  destruct (_create_template_dictionary D self) as [td|e]; [|discriminate].
  destruct (substitute D (wheel_only_xml D) td) as [text|e]; [|discriminate].
  intros [= <-]. by exists text.
Qed.

Lemma makeAspectGridOnlyTemplate_finished (D : Drawers) (self : KerykeionChartSVG)
    (minify remove_css_variables : bool) (out : string) :
  snd (makeAspectGridOnlyTemplate D minify remove_css_variables self) = Ok out ->
  exists text, out = finish_template D minify remove_css_variables text.
Proof.
  unfold makeAspectGridOnlyTemplate, reading, mbind, M_bind, mret, M_ret. cbn [fst snd].
  unfold result_bind.
  destruct (_create_template_dictionary D self) as [td|e]; [|discriminate].
  destruct (colors self "paper_0") as [paper_0|e]; [|discriminate].
  destruct (bool_decide _);
    (destruct (substitute D (aspect_grid_only_xml D) _) as [text|e]; [|discriminate]);
    intros [= <-]; by exists text.
Qed.

(** X1. The text returned by [makeTemplate], [makeWheelOnlyTemplate] or
    [makeAspectGridOnlyTemplate] holds no double quote (character 34); with
    [minify] it holds no line feed (character 10), no tab (character 9) and
    no two spaces side by side either. *)
Theorem rendered_text_is_clean (D : Drawers) (self : KerykeionChartSVG)
    (minify remove_css_variables : bool) (out : string) :
  snd (makeTemplate D minify remove_css_variables self) = Ok out \/
  snd (makeWheelOnlyTemplate D minify remove_css_variables self) = Ok out \/
  snd (makeAspectGridOnlyTemplate D minify remove_css_variables self) = Ok out ->
  contains (char (ascii_of_nat 34)) out = false /\
  (minify = true ->
   contains (char (ascii_of_nat 10)) out = false /\
   contains (char (ascii_of_nat 9)) out = false /\
   contains "  " out = false).
Proof.
  intros [H|[H|H]];
    [apply makeTemplate_finished in H | apply makeWheelOnlyTemplate_finished in H
     | apply makeAspectGridOnlyTemplate_finished in H];
    destruct H as [text ->]; apply finish_template_clean.
Qed.

Lemma natal_chart_minified :
  is_ok (snd (makeTemplate Sample.drawers true false Sample.natal_chart)) = true.
Proof. vm_compute. reflexivity. Qed.

Lemma rendered_text_is_clean_witness :
  exists out,
    snd (makeTemplate Sample.drawers true false Sample.natal_chart) = Ok out /\
    contains (char (ascii_of_nat 34)) out = false /\ contains "  " out = false.
Proof.
  destruct (is_ok_Ok _ natal_chart_minified) as [out Hout].
  exists out. split; [exact Hout|].
  destruct (rendered_text_is_clean Sample.drawers Sample.natal_chart true false out
              (or_introl Hout)) as (Hquote & Hminify).
  split; [exact Hquote|]. by apply Hminify.
Defined.

(** ** Rounding of the percentages *)

(** Python's [round] is within one half of its argument. *)
Lemma py_round_close (q : Q) :
  (q - (1 # 2) <= inject_Z (py_round q))%Q /\ (inject_Z (py_round q) <= q + (1 # 2))%Q.
Proof.
  unfold py_round.
  pose proof (Qfloor_le q) as Hlow. pose proof (Qlt_floor q) as Hhigh.
  rewrite inject_Z_plus in Hhigh. change (inject_Z 1) with 1%Q in Hhigh.
  destruct (q - inject_Z (Qfloor q) ?= 1 # 2)%Q eqn:Hcmp.
  - apply Qeq_alt in Hcmp. destruct (Z.even (Qfloor q)).
    + split; lra.
    + rewrite inject_Z_plus. change (inject_Z 1) with 1%Q. split; lra.
  - apply Qlt_alt in Hcmp. split; lra.
  - apply Qgt_alt in Hcmp. rewrite inject_Z_plus. change (inject_Z 1) with 1%Q.
    split; lra.
Qed.

Lemma py_round_comp (q q' : Q) : (q == q')%Q -> py_round q = py_round q'.
Proof.
  intros Heq. unfold py_round. rewrite (Qfloor_comp _ _ Heq).
  assert (Hsame : (q - inject_Z (Qfloor q') ?= 1 # 2)%Q
                  = (q' - inject_Z (Qfloor q') ?= 1 # 2)%Q)
    by (apply Qcompare_comp; [by rewrite Heq | reflexivity]).
  by rewrite Hsame.
Qed.

(** X2. The four displayed percentages add up to 100 give or take 2, as each
    is rounded on its own. The scores are not negative and their total is
    positive and below [2 ^ 40], where the binary64 quotient of the source
    rounds as the exact one. *)
Theorem percentages_add_up_to_about_100 (s : Elements) :
  0 <= fire s -> 0 <= earth s -> 0 <= air s -> 0 <= water s ->
  0 < element_total s < 2 ^ 40 ->
  exists f e a w,
    percentage (fire s) (element_total s) = Ok f /\
    percentage (earth s) (element_total s) = Ok e /\
    percentage (air s) (element_total s) = Ok a /\
    percentage (water s) (element_total s) = Ok w /\
    98 <= f + e + a + w <= 102.
Proof.
  intros _ _ _ _ [Htotal _]. unfold percentage.
  destruct (Z.eqb_spec (element_total s) 0) as [Hzero|_]; [lia|].
  do 4 eexists. do 4 (split; [reflexivity|]).
  set (t := inject_Z (element_total s)).
  assert (Ht : ~ (t == 0)%Q).
  { unfold t. intros Heq. assert (Hne : element_total s <> 0) by lia.
    apply Hne. by apply (inject_Z_injective _ 0). }
  pose proof (py_round_close (inject_Z (100 * fire s) / t)) as [Hf Hf'].
  pose proof (py_round_close (inject_Z (100 * earth s) / t)) as [He He'].
  pose proof (py_round_close (inject_Z (100 * air s) / t)) as [Ha Ha'].
  pose proof (py_round_close (inject_Z (100 * water s) / t)) as [Hw Hw'].
  assert (Hsum : (inject_Z (100 * fire s) / t + inject_Z (100 * earth s) / t
                  + inject_Z (100 * air s) / t + inject_Z (100 * water s) / t == 100)%Q).
  { unfold t, element_total. rewrite !inject_Z_plus, !inject_Z_mult.
    change (inject_Z 100) with 100%Q. field.
    unfold t, element_total in Ht. by rewrite !inject_Z_plus in Ht. }
  split.
  - rewrite Zle_Qle, !inject_Z_plus. change (inject_Z 98) with 98%Q. lra.
  - rewrite Zle_Qle, !inject_Z_plus. change (inject_Z 102) with 102%Q. lra.
Qed.

Lemma percentages_add_up_to_about_100_witness :
  exists f e a w,
    percentage 1 3 = Ok f /\ percentage 1 3 = Ok e /\ percentage 1 3 = Ok a /\
    percentage 0 3 = Ok w /\ 98 <= f + e + a + w <= 102.
Proof.
  apply (percentages_add_up_to_about_100 {| fire := 1; earth := 1; air := 1; water := 0 |});
    [cbn; lia | cbn; lia | cbn; lia | cbn; lia | split; reflexivity].
Defined.

Example thirds_add_up_to_99 :
  (percentage 1 3, percentage 0 3) = (Ok 33, Ok 0).
Proof. reflexivity. Qed.

(** ** Calling the element calculation again *)

Lemma add_to_element_plus (u s : Elements) (ele : string) (amount : Z) :
  add_to_element ele amount (plus_scores u s) = plus_scores u (add_to_element ele amount s).
Proof.
  unfold add_to_element, plus_scores.
  repeat (destruct (String.eqb ele _); [cbn; f_equal; lia|]). reflexivity.
Qed.

Lemma elements_loop_plus (u : Elements) (settings : list KerykeionSettingsCelestialPointModel)
    (points_sign : list Z) (s s' : Elements) :
  elements_loop settings points_sign s = (s', Ok tt) ->
  elements_loop settings points_sign (plus_scores u s) = (plus_scores u s', Ok tt).
Proof.
  revert points_sign s. induction settings as [|body settings IH]; intros points_sign s H.
  - by injection H as <-.
  - destruct points_sign as [|cz points_sign]; [discriminate|].
    cbn [elements_loop] in *. unfold elements_step in *.
    destruct (py_index ZODIAC cz) as [z|e]; [|discriminate].
    cbn [mbind result_bind] in *. rewrite add_to_element_plus. by apply IH.
Qed.

Lemma plus_scores_no_points (u : Elements) : plus_scores u no_points = u.
Proof. destruct u. unfold plus_scores, no_points. cbn. f_equal; lia. Qed.

(** X3. The element calculation adds to the scores it finds and does not start
    from 0: called again on a constructed instance, it returns and leaves
    every score doubled, while the displayed percentages stay as they
    were. The scores and weights are in the range of exact binary64 sums. *)
Theorem second_calculation_doubles (C : Collaborators) (a : InitArgs)
    (self : KerykeionChartSVG) :
  __init__ C a = Ok self ->
  exact_in_binary64 (scores self) (available_planets_setting self) ->
  let after := fst (_calculate_elements_points_from_planets self) in
  snd (_calculate_elements_points_from_planets self) = Ok tt /\
  fire (scores after) = 2 * fire (scores self) /\
  earth (scores after) = 2 * earth (scores self) /\
  air (scores after) = 2 * air (scores self) /\
  water (scores after) = 2 * water (scores self) /\
  forall score, score ∈ [fire; earth; air; water] ->
    percentage (score (scores after)) (element_total (scores after))
    = percentage (score (scores self)) (element_total (scores self)).
Proof.
  intros Hinit _ after.
  destruct (init_constructed C a self Hinit) as [_ Huser _ _ _ _ _ _ _ Hscores _ _ _].
  rewrite <- Huser in Hscores. unfold calculate_elements in Hscores.
  assert (Hafter : _calculate_elements_points_from_planets self
                   = (set_scores (plus_scores (scores self) (scores self)) self, Ok tt)).
  { unfold _calculate_elements_points_from_planets, calculate_elements.
    destruct (mapM _ _) as [points_sign|e]; [|discriminate].
    rewrite <- (plus_scores_no_points (scores self)) at 1.
    by rewrite (elements_loop_plus _ _ _ _ _ Hscores). }
  unfold after. rewrite Hafter. cbn [fst snd scores set_scores].
  split; [done|]. unfold plus_scores. cbn [fire earth air water].
  do 4 (split; [lia|]).
  intros score Hscore.
  assert (Hdouble : score {| fire := fire (scores self) + fire (scores self);
                             earth := earth (scores self) + earth (scores self);
                             air := air (scores self) + air (scores self);
                             water := water (scores self) + water (scores self) |}
                    = 2 * score (scores self)).
  { repeat (apply elem_of_cons in Hscore as [->|Hscore]);
      try (by apply elem_of_nil in Hscore); cbn; lia. }
  rewrite Hdouble.
  replace (element_total _) with (2 * element_total (scores self))
    by (unfold element_total; cbn; lia).
  unfold percentage.
  destruct (Z.eqb_spec (element_total (scores self)) 0) as [->|Hne]; [done|].
  destruct (Z.eqb_spec (2 * element_total (scores self)) 0) as [Hzero|_]; [lia|].
  f_equal. apply py_round_comp.
  rewrite !inject_Z_mult. field.
  intros Heq. apply Hne. by apply (inject_Z_injective _ 0).
Qed.

Lemma second_calculation_doubles_witness :
  scores Sample.natal_chart = {| fire := 50; earth := 40; air := 0; water := 0 |} /\
  fire (scores (fst (_calculate_elements_points_from_planets Sample.natal_chart)))
  = 2 * 50 /\
  earth (scores (fst (_calculate_elements_points_from_planets Sample.natal_chart)))
  = 2 * 40.
Proof.
  assert (Hexact : exact_in_binary64 (scores Sample.natal_chart)
                     (available_planets_setting Sample.natal_chart))
    by (vm_compute; discriminate).
  destruct (second_calculation_doubles Sample.collaborators Sample.natal_args
              Sample.natal_chart natal_chart_built Hexact)
    as (_ & Hfire & Hearth & _).
  split; [reflexivity|]. split; [exact Hfire | exact Hearth].
Defined.

(** ** The sign index of a point *)

(** X4. The sign index of a point is used as a Python index into the table of
    twelve signs: 12 and more, or less than -12, is an [IndexError]; -12 to
    -1 is accepted and counts from the end of the table, so that -1 is
    Pisces, while the extra points are still decided by the index as it
    is. *)
Theorem sign_index_bounds (body : KerykeionSettingsCelestialPointModel) (cz : Z)
    (s : Elements) :
  (cz < -12 \/ 12 <= cz -> elements_step body cz s = Err IndexError) /\
  (-12 <= cz < 0 ->
   exists s', elements_step body cz s = Ok s' /\
     forall e, e ∈ elements_names ->
       bucket e s'
       = bucket e s
         + (if String.eqb (sign_element (cz + 12)) e
            then element_points body
                 + (if bool_decide (cz ∈ related_zodiac_signs body) then 10 else 0)
            else 0)).
Proof.
  split.
  - unfold elements_step, py_index. change (Z.of_nat (length ZODIAC)) with 12.
    intros Hout. destruct (Z.ltb_spec cz 0) as [Hneg|Hpos].
    + destruct (Z.leb_spec 0 (cz + 12)); [lia | done].
    + destruct (Z.ltb_spec cz 12); [lia|]. by rewrite andb_false_r.
  - intros Hin. unfold elements_step. rewrite extra_points_of_spec.
    generalize (element_points body
                + (if bool_decide (cz ∈ related_zodiac_signs body) then 10 else 0)).
    intros amount.
    assert (Hcases : cz = -12 \/ cz = -11 \/ cz = -10 \/ cz = -9 \/ cz = -8 \/ cz = -7 \/
                     cz = -6 \/ cz = -5 \/ cz = -4 \/ cz = -3 \/ cz = -2 \/ cz = -1) by lia.
    clear Hin.
    destruct Hcases as [->|[->|[->|[->|[->|[->|[->|[->|[->|[->|[->| ->]]]]]]]]]]];
      (eexists; split; [reflexivity|]); intros e He; unfold elements_names in He;
      repeat (apply elem_of_cons in He as [->|He]); try (by apply elem_of_nil in He);
      unfold add_to_element, bucket; simpl; lia.
Qed.

Lemma sign_index_bounds_witness :
  elements_step (Sample.body 0 "Sun" 40 [4]) 12 no_points = Err IndexError /\
  exists s', elements_step (Sample.body 0 "Sun" 40 [4]) (-1) no_points = Ok s' /\
             bucket "water" s' = 40 /\ bucket "fire" s' = 0.
Proof.
  split.
  - apply (sign_index_bounds (Sample.body 0 "Sun" 40 [4]) 12 no_points). lia.
  - destruct (proj2 (sign_index_bounds (Sample.body 0 "Sun" 40 [4]) (-1) no_points))
      as (s' & Hstep & Hbuckets); [lia|].
    exists s'. split; [exact Hstep|]. split.
    + apply (Hbuckets "water"). unfold elements_names.
      do 3 apply list_elem_of_further. apply list_elem_of_here.
    + apply (Hbuckets "fire"). apply list_elem_of_here.
Defined.

(** ** More on the constructor *)

(** The attributes of a constructed instance that come straight from the
    arguments and the settings. *)
Lemma init_attributes (C : Collaborators) (a : InitArgs) (self : KerykeionChartSVG) :
  __init__ C a = Ok self ->
  planets_settings self
  = map (mark_active (arg_active_points a))
        (settings_celestial_points (get_settings C (arg_new_settings_file a))) /\
  available_kerykeion_celestial_points self
  = map (fun body => get (chart_data (user self)) (lower (body_name body)))
        (available_planets_setting self) /\
  output_directory self
  = match arg_new_output_directory a with
    | Some d => if String.eqb d "" then home_directory C else d
    | None => home_directory C
    end /\
  color_style_tag self = theme_style C (arg_theme a) /\
  template self = None.
Proof.
  unfold __init__. intros H.
  apply bind_Ok in H as (language & Hlanguage & H).
  apply bind_Ok in H as ([[aspects' t_user'] t_available'] & Haspects & H).
  apply bind_Ok in H as ([[[location' geolat'] geolon'] t_name'] & Hplace & H).
  destruct (circle_radii (arg_chart_type a)) as [[r1 r2] r3] eqn:Hradii.
  destruct (calculate_elements _ _ _) as [scores' calculated] eqn:Hscores.
  apply bind_Ok in H as ([] & Hcalculated & H).
  apply bind_Ok in H as ([] & Htheme & H).
  injection H as <-. cbn. by rewrite map_map.
Qed.

Lemma py_index_ZODIAC_ok (cz : Z) : is_ok (py_index ZODIAC cz) = true -> -12 <= cz < 12.
Proof.
  unfold py_index. change (Z.of_nat (length ZODIAC)) with 12.
  destruct (Z.ltb_spec cz 0) as [Hneg|Hpos]; destruct (_ && _) eqn:Hrange;
    try discriminate; intros _; apply andb_true_iff in Hrange as [Hlow Hhigh];
    apply Z.leb_le in Hlow; apply Z.ltb_lt in Hhigh; lia.
Qed.

(** When the element calculation returns, every point it went through is
    on the chart, with a sign index that the table of signs accepts. *)
Lemma calculate_elements_returns (d : ChartData)
    (avail : list KerykeionSettingsCelestialPointModel) (s s' : Elements) :
  calculate_elements d avail s = (s', Ok tt) ->
  Forall (fun body => exists p, get d (lower (body_name body)) = Some p /\
                                -12 <= sign_num p < 12) avail.
Proof.
  revert s. induction avail as [|body rest IH]; intros s H; [constructor|].
  unfold calculate_elements in H. cbn [map mapM] in H.
  destruct (sign_of d (lower (body_name body))) as [cz|e] eqn:Hsign; [|discriminate].
  cbn [mbind result_bind] in H.
  destruct (mapM (sign_of d) (map (fun body => lower (body_name body)) rest))
    as [signs|e] eqn:Hsigns; [|discriminate].
  cbn [mret result_ret mbind result_bind elements_loop] in H.
  destruct (elements_step body cz s) as [s1|e] eqn:Hstep; [|discriminate].
  constructor.
  - unfold sign_of in Hsign. destruct (get d _) as [p|]; [|discriminate].
    injection Hsign as <-. exists p. split; [done|].
    apply py_index_ZODIAC_ok. unfold elements_step in Hstep.
    by destruct (py_index ZODIAC (sign_num p)).
  - apply (IH s1). unfold calculate_elements. by rewrite Hsigns.
Qed.

(** X5. A constructed instance holds, for every available point setting, the
    point of the chart, never [None]: a configured active point that the
    chart lacks, or whose sign index is outside -12 .. 11, fails the
    element calculation and with it the construction. *)
Theorem available_points_are_on_the_chart (C : Collaborators) (a : InitArgs)
    (self : KerykeionChartSVG) :
  __init__ C a = Ok self ->
  length (available_kerykeion_celestial_points self)
  = length (available_planets_setting self) /\
  Forall (fun p => exists point, p = Some point /\ -12 <= sign_num point < 12)
         (available_kerykeion_celestial_points self).
Proof.
  intros Hinit.
  destruct (init_attributes C a self Hinit) as (_ & -> & _).
  destruct (init_constructed C a self Hinit) as [_ Huser _ _ _ _ _ _ _ Hscores _ _ _].
  rewrite <- Huser in Hscores. apply calculate_elements_returns in Hscores.
  split; [by rewrite length_map|].
  apply Forall_map. eapply Forall_impl; [exact Hscores|].
  intros body (p & Hget & Hsign). cbn. eauto.
Qed.

Lemma available_points_are_on_the_chart_witness :
  Forall (fun p => exists point, p = Some point /\ -12 <= sign_num point < 12)
         (available_kerykeion_celestial_points Sample.natal_chart).
Proof.
  apply (available_points_are_on_the_chart Sample.collaborators Sample.natal_args
           Sample.natal_chart natal_chart_built).
Defined.

Lemma mapM_sign_of_missing (d : ChartData) (names : list string) :
  Exists (fun n => get d n = None) names ->
  mapM (sign_of d) names = Err (AttributeError "sign_num").
Proof.
  induction names as [|n names IH]; intros Hmissing; [by apply Exists_nil in Hmissing|].
  cbn [mapM]. destruct (get d n) as [p|] eqn:Hget.
  - assert (Hsign : sign_of d n = Ok (sign_num p)) by (unfold sign_of; by rewrite Hget).
    apply Exists_cons in Hmissing as [Hn|Hrest]; [congruence|].
    rewrite Hsign. cbn [mbind result_bind]. by rewrite (IH Hrest).
  - assert (Hsign : sign_of d n = Err (AttributeError "sign_num"))
      by (unfold sign_of; by rewrite Hget).
    by rewrite Hsign.
Qed.

Lemma select_active_elem (active : list string)
    (configured : list KerykeionSettingsCelestialPointModel)
    (body : KerykeionSettingsCelestialPointModel) :
  body ∈ select_active active configured <->
  exists b, b ∈ configured /\ body_name b ∈ active /\ body = set_is_active true b.
Proof.
  unfold select_active. rewrite list_elem_of_filter, list_elem_of_fmap. split.
  - intros (Hactive & b & -> & Hb). unfold mark_active in *.
    case_bool_decide as Hin; [by eauto|]. done.
  - intros (b & Hb & Hin & ->). split; [done|].
    exists b. split; [|done]. unfold mark_active. by rewrite bool_decide_eq_true_2.
Qed.

(** X6. A Natal or ExternalNatal chart cannot be constructed when a configured
    point that is asked for in [active_points] is not on the chart: the
    element calculation reads the sign of [None]. *)
Theorem missing_active_point_fails (C : Collaborators) (a : InitArgs)
    (s : AstrologicalSubjectModel) (body : KerykeionSettingsCelestialPointModel) :
  arg_first_obj a = ASubject s ->
  arg_chart_type a = Natal \/ arg_chart_type a = ExternalNatal ->
  is_Some (settings_language_settings (get_settings C (arg_new_settings_file a))
             !! arg_chart_language a) ->
  body ∈ settings_celestial_points (get_settings C (arg_new_settings_file a)) ->
  body_name body ∈ arg_active_points a ->
  get (data s) (lower (body_name body)) = None ->
  __init__ C a = Err (AttributeError "sign_num").
Proof.
  intros Hfirst Htype [language Hlanguage] Hbody Hactive Hget.
  assert (Hcalc : forall s0,
            calculate_elements (data s)
              (select_active (arg_active_points a)
                 (settings_celestial_points (get_settings C (arg_new_settings_file a)))) s0
            = (s0, Err (AttributeError "sign_num"))).
  { intros s0. unfold calculate_elements. rewrite mapM_sign_of_missing; [done|].
    apply Exists_exists. exists (lower (body_name body)). split; [|done].
    apply list_elem_of_fmap. exists (set_is_active true body). split; [done|].
    apply select_active_elem. eauto. }
  unfold __init__, py_getitem. rewrite Hlanguage, Hfirst. cbn [mbind result_bind].
  destruct Htype as [-> | ->]; cbn [mbind result_bind as_subject chart_data];
    rewrite Hcalc; by destruct (circle_radii _) as [[r1 r2] r3].
Qed.

Lemma missing_active_point_fails_witness :
  __init__ Sample.collaborators
    (Sample.args (ASubject Sample.john) Natal None (Some "classic") GridList ["Sun"; "Mars"])
  = Err (AttributeError "sign_num").
Proof.
  apply (missing_active_point_fails Sample.collaborators _ Sample.john
           (Sample.body 4 "Mars" 15 [0])).
  - reflexivity.
  - by left.
  - exists Sample.english. apply lookup_singleton_eq.
  - cbn. unfold Sample.celestial_points. do 4 apply list_elem_of_further.
    apply list_elem_of_here.
  - cbn. apply list_elem_of_further, list_elem_of_here.
  - reflexivity.
Defined.

(** X7. The available point settings of a constructed instance are the
    configured points whose names are in [active_points], marked active, in
    the order of the settings; [planets_settings] holds the same points in
    the same order, the active ones with the same mark. A name in
    [active_points] that no setting carries is passed over. *)
Theorem available_points_are_the_active_ones (C : Collaborators) (a : InitArgs)
    (self : KerykeionChartSVG) :
  __init__ C a = Ok self ->
  let configured := settings_celestial_points (get_settings C (arg_new_settings_file a)) in
  (forall body, body ∈ available_planets_setting self <->
     exists b, b ∈ configured /\ body_name b ∈ arg_active_points a /\
               body = set_is_active true b) /\
  (forall body, body ∈ available_planets_setting self ->
     is_active body = true /\ body_name body ∈ arg_active_points a) /\
  available_planets_setting self `sublist_of` planets_settings self /\
  map body_name (planets_settings self) = map body_name configured /\
  (forall b, b ∈ configured -> body_name b ∉ arg_active_points a ->
     b ∈ planets_settings self).
Proof.
  intros Hinit configured.
  destruct (init_attributes C a self Hinit) as (Hsettings & _).
  destruct (init_constructed C a self Hinit) as [_ _ _ _ _ _ _ _ Havailable _ _ _ _].
  fold configured in Hsettings, Havailable. rewrite Hsettings, Havailable.
  split; [|split; [|split; [|split]]].
  - intros body. apply select_active_elem.
  - intros body Hin. apply select_active_elem in Hin as (b & _ & Hactive & ->). by cbn.
  - unfold select_active. apply sublist_filter.
  - rewrite map_map. apply map_ext. intros b. unfold mark_active.
    by case_bool_decide.
  - intros b Hb Hinactive. apply list_elem_of_fmap. exists b. split; [|done].
    unfold mark_active. by rewrite bool_decide_eq_false_2.
Qed.

Lemma available_points_are_the_active_ones_witness :
  map body_name (available_planets_setting Sample.natal_chart) = ["Sun"; "Moon"] /\
  available_planets_setting Sample.natal_chart `sublist_of` planets_settings Sample.natal_chart.
Proof.
  split; [reflexivity|].
  apply (available_points_are_the_active_ones Sample.collaborators Sample.natal_args
           Sample.natal_chart natal_chart_built).
Defined.

(** ** What the assembly needs *)

(** A successful assembly went through the blocks that read the settings. *)
Lemma assembly_blocks (D : Drawers) (self : KerykeionChartSVG) (td : TemplateDict) :
  _create_template_dictionary D self = Ok td ->
  (exists td2 td3, td_bottom_left D self td2 = Ok td3) /\
  (exists td6 td7, td_colors self td6 = Ok td7) /\
  (exists td7 td8, td_houses D self td7 = Ok td8).
Proof.
  intros H. unfold _create_template_dictionary in H. cbv zeta in H.
  apply bind_Ok in H as (td1 & H1 & H). apply bind_Ok in H as (td2 & H2 & H).
  apply bind_Ok in H as (td3 & H3 & H). apply bind_Ok in H as (td4 & H4 & H).
  apply bind_Ok in H as (td5 & H5 & H). apply bind_Ok in H as (td6 & H6 & H).
  apply bind_Ok in H as (td7 & H7 & H). apply bind_Ok in H as (td8 & H8 & H).
  eauto 10.
Qed.

Lemma py_getitem_Ok {V} (d : gmap string V) (k : string) (v : V) :
  py_getitem d k = Ok v -> d !! k = Some v.
Proof. unfold py_getitem. destruct (d !! k); [by intros [= ->] | discriminate]. Qed.

Lemma zodiac_colors_loop_read (self : KerykeionChartSVG) (indices : list Z)
    (td td' : TemplateDict) :
  zodiac_colors_loop self indices td = Ok td' ->
  Forall (fun i => is_Some (chart_colors_settings self
                              !! ("zodiac_icon_" +:+ str_of_int i))) indices.
Proof.
  revert td. induction indices as [|i indices IH]; intros td H; [constructor|].
  cbn [zodiac_colors_loop] in H. apply bind_Ok in H as (icon & Hicon & H).
  constructor; [|by eapply IH]. apply py_getitem_Ok in Hicon. by exists icon.
Qed.

(** The slices of the zodiac circle: the loop returns when the colour of
    every slice is configured, and raises the [KeyError] of the first one
    that is not. *)
Lemma zodiac_slices_loop_returns (D : Drawers) (self : KerykeionChartSVG) (r : Z)
    (sings : list string) (i : Z) (output : string) :
  (forall j, (j < length sings)%nat ->
     is_Some (chart_colors_settings self !! ("zodiac_bg_" +:+ str_of_int (i + Z.of_nat j)))) ->
  is_ok (zodiac_slices_loop D self r i sings output) = true.
Proof.
  revert i output. induction sings as [|sing sings IH]; intros i output Hall; [done|].
  cbn [zodiac_slices_loop]. destruct (Hall 0%nat) as [bg Hbg]; [cbn; lia|].
  rewrite Z.add_0_r in Hbg. unfold py_getitem. rewrite Hbg. cbn [mbind result_bind].
  apply IH. intros j Hj. replace (i + 1 + Z.of_nat j) with (i + Z.of_nat (S j)) by lia.
  apply Hall. cbn. lia.
Qed.

Lemma zodiac_slices_loop_raises (D : Drawers) (self : KerykeionChartSVG) (r : Z)
    (sings : list string) (i : Z) (output : string) (j : nat) :
  (j < length sings)%nat ->
  chart_colors_settings self !! ("zodiac_bg_" +:+ str_of_int (i + Z.of_nat j)) = None ->
  (forall j', (j' < j)%nat ->
     is_Some (chart_colors_settings self
                !! ("zodiac_bg_" +:+ str_of_int (i + Z.of_nat j')))) ->
  zodiac_slices_loop D self r i sings output
  = Err (KeyError ("zodiac_bg_" +:+ str_of_int (i + Z.of_nat j))).
Proof.
  revert i output j. induction sings as [|sing sings IH]; intros i output j Hj Hnone Hbefore;
    [cbn in Hj; lia|].
  cbn [zodiac_slices_loop]. unfold py_getitem. destruct j as [|j].
  - rewrite Z.add_0_r in *. by rewrite Hnone.
  - destruct (Hbefore 0%nat) as [bg Hbg]; [lia|]. rewrite Z.add_0_r in Hbg.
    rewrite Hbg. cbn [mbind result_bind].
    replace (i + Z.of_nat (S j)) with (i + 1 + Z.of_nat j) in * by lia.
    apply IH; [cbn in Hj; lia | done |].
    intros j' Hj'. replace (i + 1 + Z.of_nat j') with (i + Z.of_nat (S j')) by lia.
    apply Hbefore. lia.
Qed.

Lemma zodiac_slices_loop_read (D : Drawers) (self : KerykeionChartSVG) (r : Z)
    (sings : list string) (i : Z) (output : string) :
  is_ok (zodiac_slices_loop D self r i sings output) = true ->
  forall j, (j < length sings)%nat ->
    is_Some (chart_colors_settings self !! ("zodiac_bg_" +:+ str_of_int (i + Z.of_nat j))).
Proof.
  revert i output. induction sings as [|sing sings IH]; intros i output H j Hj;
    [cbn in Hj; lia|].
  cbn [zodiac_slices_loop] in H. unfold py_getitem in H.
  destruct (chart_colors_settings self !! _) as [bg|] eqn:Hbg; [|discriminate].
  cbn [mbind result_bind] in H. destruct j as [|j].
  - rewrite Z.add_0_r. by exists bg.
  - replace (i + Z.of_nat (S j)) with (i + 1 + Z.of_nat j) by lia.
    eapply IH; [exact H | cbn in Hj; lia].
Qed.

(** X8. [_draw_zodiac_circle_slices] returns exactly when the settings hold a
    colour [zodiac_bg_<i>] for every sign, and otherwise raises the
    [KeyError] of the first missing one. *)
Theorem zodiac_slices_need_their_colours (D : Drawers) (r : Z) (self : KerykeionChartSVG) :
  (is_ok (_draw_zodiac_circle_slices D r self) = true <->
   forall j, (j < length (Sign_args D))%nat ->
     is_Some (chart_colors_settings self !! ("zodiac_bg_" +:+ str_of_int (Z.of_nat j)))) /\
  (forall j, (j < length (Sign_args D))%nat ->
     chart_colors_settings self !! ("zodiac_bg_" +:+ str_of_int (Z.of_nat j)) = None ->
     (forall j', (j' < j)%nat ->
        is_Some (chart_colors_settings self
                   !! ("zodiac_bg_" +:+ str_of_int (Z.of_nat j')))) ->
     _draw_zodiac_circle_slices D r self
     = Err (KeyError ("zodiac_bg_" +:+ str_of_int (Z.of_nat j)))).
Proof.
  unfold _draw_zodiac_circle_slices. split; [split|].
  - intros H j Hj. by apply (zodiac_slices_loop_read D self r (Sign_args D) 0 "" H j Hj).
  - intros Hall. by apply zodiac_slices_loop_returns.
  - intros j Hj Hnone Hbefore.
    by apply (zodiac_slices_loop_raises D self r (Sign_args D) 0 "" j).
Qed.

Lemma zodiac_slices_need_their_colours_witness :
  _draw_zodiac_circle_slices Sample.drawers 240
    (set_chart_colors_settings (delete "zodiac_bg_3" Sample.chart_colors) Sample.natal_chart)
  = Err (KeyError "zodiac_bg_3").
Proof.
  apply (proj2 (zodiac_slices_need_their_colours Sample.drawers 240
                  (set_chart_colors_settings (delete "zodiac_bg_3" Sample.chart_colors)
                     Sample.natal_chart)) 3%nat).
  - cbn. lia.
  - vm_compute. reflexivity.
  - intros j' Hj'.
    assert (Hcases : j' = 0%nat \/ j' = 1%nat \/ j' = 2%nat) by lia.
    destruct Hcases as [Hcase|[Hcase|Hcase]]; rewrite Hcase; vm_compute; eauto.
Defined.

(** X9. An assembly that returns has found, in the settings of the instance, at
    least sixteen points (the colours of the four angles are read at the
    indices 12 to 15), the two paper colours, the colour of the house
    lines, an icon colour for each of the twelve signs and a background
    colour for every slice. *)
Theorem assembly_needs_the_settings (D : Drawers) (self : KerykeionChartSVG)
    (td : TemplateDict) :
  _create_template_dictionary D self = Ok td ->
  (16 <= length (planets_settings self))%nat /\
  (forall k, k ∈ ["paper_0"; "paper_1"; "houses_radix_line"] ->
     is_Some (chart_colors_settings self !! k)) /\
  (forall i, i ∈ range12 ->
     is_Some (chart_colors_settings self !! ("zodiac_icon_" +:+ str_of_int i))) /\
  (forall j, (j < length (Sign_args D))%nat ->
     is_Some (chart_colors_settings self !! ("zodiac_bg_" +:+ str_of_int (Z.of_nat j)))).
Proof.
  intros H.
  destruct (assembly_blocks D self td H)
    as (_ & (td6 & td7 & Hcolors) & (td7' & td8 & Hhouses)).
  unfold td_colors in Hcolors.
  apply bind_Ok in Hcolors as (paper_0 & Hpaper_0 & Hcolors).
  apply bind_Ok in Hcolors as (paper_1 & Hpaper_1 & Hcolors).
  apply bind_Ok in Hcolors as (td' & Hicons & _).
  apply zodiac_colors_loop_read in Hicons.
  apply py_getitem_Ok in Hpaper_0, Hpaper_1.
  unfold td_houses in Hhouses.
  apply bind_Ok in Hhouses as (zodiac & Hzodiac & Hhouses).
  assert (Hangles : exists radix_line fourth,
            colors self "houses_radix_line" = Ok radix_line /\
            planet_color self 15 = Ok fourth).
  { destruct (bool_decide _) in Hhouses.
    - apply bind_Ok in Hhouses as (t & _ & Hhouses).
      apply bind_Ok in Hhouses as (p0 & _ & Hhouses).
      apply bind_Ok in Hhouses as (cusp & _ & Hhouses).
      apply bind_Ok in Hhouses as (radix_line & Hradix & Hhouses).
      apply bind_Ok in Hhouses as (c12 & _ & Hhouses).
      apply bind_Ok in Hhouses as (c13 & _ & Hhouses).
      apply bind_Ok in Hhouses as (c14 & _ & Hhouses).
      apply bind_Ok in Hhouses as (c15 & H15 & Hhouses). eauto.
    - apply bind_Ok in Hhouses as (p0 & _ & Hhouses).
      apply bind_Ok in Hhouses as (cusp & _ & Hhouses).
      apply bind_Ok in Hhouses as (radix_line & Hradix & Hhouses).
      apply bind_Ok in Hhouses as (c12 & _ & Hhouses).
      apply bind_Ok in Hhouses as (c13 & _ & Hhouses).
      apply bind_Ok in Hhouses as (c14 & _ & Hhouses).
      apply bind_Ok in Hhouses as (c15 & H15 & Hhouses). eauto. }
  destruct Hangles as (radix_line & fourth & Hradix & H15).
  apply py_getitem_Ok in Hradix.
  split; [|split; [|split]].
  - unfold planet_color in H15. apply bind_Ok in H15 as (body & Hbody & _).
    unfold py_index in Hbody. cbn [Z.ltb Z.compare] in Hbody.
    destruct (_ && _) eqn:Hrange; [|discriminate].
    apply andb_true_iff in Hrange as [_ Hhigh]. apply Z.ltb_lt in Hhigh. lia.
  - intros k Hk. repeat (apply elem_of_cons in Hk as [->|Hk]); eauto.
    by apply elem_of_nil in Hk.
  - intros i Hi. rewrite Forall_forall in Hicons. by apply Hicons.
  - intros j Hj. unfold _draw_zodiac_circle_slices in Hzodiac.
    apply (zodiac_slices_loop_read D self (main_radius self) (Sign_args D) 0 "");
      [by rewrite Hzodiac | done].
Qed.

Lemma natal_chart_renders :
  is_ok (_create_template_dictionary Sample.drawers Sample.natal_chart) = true.
Proof. vm_compute. reflexivity. Qed.

Lemma assembly_needs_the_settings_witness :
  (16 <= length (planets_settings Sample.natal_chart))%nat /\
  is_Some (chart_colors_settings Sample.natal_chart !! "paper_0").
Proof.
  destruct (is_ok_Ok _ natal_chart_renders) as [td Htd].
  destruct (assembly_needs_the_settings Sample.drawers Sample.natal_chart td Htd)
    as (Hpoints & Hcolours & _).
  split; [exact Hpoints|]. apply Hcolours. apply list_elem_of_here.
Defined.

(** X10. A chart whose zodiac type is not ["Tropic"] needs a sidereal mode: with
    [sidereal_mode] [None] the block of the bottom-left lines raises
    [TypeError] (the text ["SIDM_"] is added to [None]), and no assembly
    returns. *)
Theorem sidereal_chart_needs_its_mode (D : Drawers) (self : KerykeionChartSVG) :
  zodiac_type (chart_data (user self)) <> "Tropic" ->
  sidereal_mode (chart_data (user self)) = None ->
  (forall td, td_bottom_left D self td = Err TypeError) /\
  is_ok (_create_template_dictionary D self) = false.
Proof.
  intros Htype Hmode.
  assert (Hblock : forall td, td_bottom_left D self td = Err TypeError).
  { intros td. unfold td_bottom_left. cbv zeta. rewrite Hmode.
    by apply String.eqb_neq in Htype as ->. }
  split; [exact Hblock|].
  destruct (_create_template_dictionary D self) as [td|e] eqn:H; [|done].
  destruct (assembly_blocks D self td H) as ((td2 & td3 & Hbottom) & _).
  by rewrite Hblock in Hbottom.
Qed.

(** ** The viewbox and the location line *)

(** X11. The viewbox of an assembled dictionary: the basic one for Natal,
    ExternalNatal and Composite charts, the with-table one for a Transit
    chart with the grid type ["table"] only, the wide one for a Synastry
    chart with either grid type and for a Transit chart with a list. *)
Theorem viewbox_by_chart_type (D : Drawers) (self : KerykeionChartSVG) (td : TemplateDict) :
  _create_template_dictionary D self = Ok td ->
  td !! "viewbox"
  = Some (SStr (match chart_type self, double_chart_aspect_grid_type self with
                | (Natal | ExternalNatal | Composite), _ => "0 0 820 550.0"
                | Transit, GridTable => "0 0 960 546.0"
                | Transit, GridList | Synastry, _ => "0 0 1200 546.0"
                end)).
Proof.
  intros H. rewrite (assembly_dimension_slot D self td "viewbox");
    [|unfold dimension_slots; set_solver | exact H].
  unfold td_dimensions.
  destruct (chart_type self), (double_chart_aspect_grid_type self); reflexivity.
Qed.

Lemma viewbox_by_chart_type_witness :
  exists td,
    _create_template_dictionary Sample.drawers Sample.natal_chart = Ok td /\
    td !! "viewbox" = Some (SStr "0 0 820 550.0").
Proof.
  destruct (is_ok_Ok _ natal_chart_renders) as [td Htd].
  exists td. split; [exact Htd|].
  apply (viewbox_by_chart_type Sample.drawers Sample.natal_chart td Htd).
Defined.

Lemma length_append (a b : string) :
  String.length (a +:+ b) = (String.length a + String.length b)%nat.
Proof. induction a as [|x a IH]; [done|]. rewrite append_cons. cbn. by rewrite IH. Qed.

Lemma length_substring_le (n : nat) (s : string) :
  (String.length (String.substring 0 n s) <= n)%nat.
Proof.
  revert s. induction n as [|n IH]; intros s; [by destruct s|].
  destruct s as [|x s]; cbn; [lia|]. specialize (IH s). lia.
Qed.

Lemma location_string_short (l : string) :
  (String.length (location_string l) <= 38)%nat.
Proof.
  assert (Hcut : forall s, (String.length (ellipsis35 s) <= 38)%nat).
  { intros s. unfold ellipsis35. rewrite length_append.
    pose proof (length_substring_le 35 s). change (String.length "...") with 3%nat. lia. }
  rewrite location_string_spec. cbv zeta. unfold len.
  destruct (Z.ltb_spec 35 (Z.of_nat (String.length l))) as [Hlong|Hshort]; [|lia].
  destruct (has_comma l); [|apply Hcut].
  destruct (Z.ltb_spec 35
              (Z.of_nat (String.length (first_segment l +:+ ", " +:+ last_segment l))))
    as [Hlong'|Hshort']; [apply Hcut | lia].
Qed.

(** X12. The location line of a chart that is not a Composite has at most 38
    characters, whatever the length of the location. *)
Theorem location_line_is_short (D : Drawers) (self : KerykeionChartSVG)
    (td : TemplateDict) :
  chart_type self <> Composite ->
  _create_template_dictionary D self = Ok td ->
  exists text,
    td !! "top_left_1" = Some (SStr text) /\ (String.length text <= 38)%nat.
Proof.
  intros Htype H.
  destruct (assembly_top_left_1 D self td H) as (td0 & td1 & Hlocation & ->).
  unfold td_location in Hlocation.
  rewrite (bool_decide_eq_false_2 _ Htype) in Hlocation. injection Hlocation as <-.
  rewrite lookup_insert_eq. eexists. split; [reflexivity|]. apply location_string_short.
Qed.

Lemma location_line_is_short_witness :
  exists td text,
    _create_template_dictionary Sample.drawers Sample.transit_table_chart = Ok td /\
    td !! "top_left_1" = Some (SStr text) /\ (String.length text <= 38)%nat.
Proof.
  destruct (is_ok_Ok _ transit_table_chart_renders) as [td Htd].
  destruct (location_line_is_short Sample.drawers Sample.transit_table_chart td)
    as (text & Hslot & Hshort); [discriminate | exact Htd |].
  exists td, text. split; [exact Htd|]. split; [exact Hslot | exact Hshort].
Defined.

(** ** The writers *)


Lemma append_inj_l (p a b : string) : p +:+ a = p +:+ b -> a = b.
Proof.
  induction p as [|x p IH]; [done|]. rewrite !append_cons. intros [= H]. by apply IH.
Qed.

(** X14. The three writers of one instance never write the same file: their
    file names differ from one another. *)
Theorem writers_use_different_files (self : KerykeionChartSVG) :
  makeSVG_chartname self <> makeWheelOnlySVG_chartname self /\
  makeSVG_chartname self <> makeAspectGridOnlySVG_chartname self /\
  makeWheelOnlySVG_chartname self <> makeAspectGridOnlySVG_chartname self.
Proof.
  unfold makeSVG_chartname, makeWheelOnlySVG_chartname, makeAspectGridOnlySVG_chartname.
  repeat split; intros H; do 3 apply append_inj_l in H; discriminate H.
Qed.

(** ** The keys of the translated names *)

Lemma lower_ascii_not_upper (x : ascii) :
  let n := nat_of_ascii (lower_ascii x) in (Nat.leb 65 n && Nat.leb n 90)%bool = false.
Proof. destruct x as [[] [] [] [] [] [] [] []]; reflexivity. Qed.

Lemma lower_no_upper (c : ascii) (s : string) :
  (Nat.leb 65 (nat_of_ascii c) && Nat.leb (nat_of_ascii c) 90)%bool = true ->
  contains (char c) (lower s) = false.
Proof.
  intros Hupper. induction s as [|x s IH]; [done|].
  cbn [lower]. rewrite contains_char_cons, IH, orb_false_r.
  apply Ascii.eqb_neq. intros ->.
  pose proof (lower_ascii_not_upper x) as Hlower. cbv zeta in Hlower. congruence.
Qed.

(** X15. The key under which the name of a lunar phase or of a perspective is
    looked up in the language table holds no space and no capital letter
    A to Z. *)
Theorem label_of_has_no_space_nor_capital (s : string) :
  contains " " (label_of s) = false /\
  forall c, (65 <= nat_of_ascii c <= 90)%nat -> contains (char c) (label_of s) = false.
Proof.
  unfold label_of. split.
  - by apply (replace_char_gone " " "_").
  - intros c [Hlow Hhigh]. unfold replace. apply replace_from_no_new_char.
    + rewrite contains_char_cons. cbn [contains char String.prefix orb].
      rewrite orb_false_r. apply Ascii.eqb_neq. intros ->.
      change (nat_of_ascii "_") with 95%nat in Hhigh. lia.
    + apply lower_no_upper. apply andb_true_iff. split; by apply Nat.leb_le.
Qed.

Lemma sidereal_chart_needs_its_mode_witness :
  td_bottom_left Sample.drawers Sample.sidereal_chart ∅ = Err TypeError /\
  is_ok (_create_template_dictionary Sample.drawers Sample.sidereal_chart) = false.
Proof.
  destruct (sidereal_chart_needs_its_mode Sample.drawers Sample.sidereal_chart)
    as [Hblock Hfails]; [discriminate | reflexivity |].
  split; [apply Hblock | exact Hfails].
Defined.

(** ** Rendering after [makeSVG] *)

Lemma bind_ext {A B} (m m' : result A) (f f' : A -> result B) :
  m = m' -> (forall x, f x = f' x) -> (m ≫= f) = (m' ≫= f').
Proof. intros -> Hf. destruct m' as [x|e]; [apply Hf | done]. Qed.

Section StoredTemplate.

Variables (D : Drawers) (self : KerykeionChartSVG) (stored : option string).

Lemma zodiac_slices_loop_stored (r i : Z) (sings : list string) (output : string) :
  zodiac_slices_loop D (set_template stored self) r i sings output
  = zodiac_slices_loop D self r i sings output.
Proof.
  revert i output. induction sings as [|sing sings IH]; intros i output; [done|].
  cbn [zodiac_slices_loop]. apply bind_ext; [done|]. intros bg. apply IH.
Qed.

Lemma zodiac_colors_loop_stored (indices : list Z) (td : TemplateDict) :
  zodiac_colors_loop (set_template stored self) indices td
  = zodiac_colors_loop self indices td.
Proof.
  revert td. induction indices as [|i indices IH]; intros td; [done|].
  cbn [zodiac_colors_loop]. apply bind_ext; [done|]. intros icon. apply IH.
Qed.

Lemma aspects_lines_loop_stored (r ar : Z) (aspects : list AspectModel) (out : string) :
  aspects_lines_loop D (set_template stored self) r ar aspects out
  = aspects_lines_loop D self r ar aspects out.
Proof.
  revert out. induction aspects as [|a aspects IH]; intros out; [done|].
  cbn [aspects_lines_loop]. apply IH.
Qed.

Lemma td_rings_stored (td : TemplateDict) :
  td_rings D (set_template stored self) td = td_rings D self td.
Proof.
  unfold td_rings, _draw_all_aspects_lines, _draw_all_transit_aspects_lines.
  by rewrite !aspects_lines_loop_stored.
Qed.

Lemma td_colors_stored (td : TemplateDict) :
  td_colors (set_template stored self) td = td_colors self td.
Proof.
  unfold td_colors. apply bind_ext; [done|]. intros paper_0.
  apply bind_ext; [done|]. intros paper_1. by rewrite zodiac_colors_loop_stored.
Qed.

Lemma td_houses_stored (td : TemplateDict) :
  td_houses D (set_template stored self) td = td_houses D self td.
Proof.
  unfold td_houses, _draw_zodiac_circle_slices. by rewrite zodiac_slices_loop_stored.
Qed.

Lemma assembly_stored :
  _create_template_dictionary D (set_template stored self)
  = _create_template_dictionary D self.
Proof.
  unfold _create_template_dictionary. cbv zeta.
  apply bind_ext; [apply td_rings_stored | intros td1].
  apply bind_ext; [done | intros td2].
  apply bind_ext; [done | intros td3].
  apply bind_ext; [done | intros td4].
  apply bind_ext; [done | intros td5].
  apply bind_ext; [done | intros td6].
  apply bind_ext; [apply td_colors_stored | intros td7].
  apply bind_ext; [apply td_houses_stored | intros td8].
  apply bind_ext; [done | intros td9].
  apply bind_ext; [done | intros td10].
  apply bind_ext; [done | intros td11].
  done.
Qed.

End StoredTemplate.

(** X16. What [makeSVG] stores does not show in a later rendering: after
    [makeSVG], whether it returned or raised, the template dictionary and the
    text of [makeTemplate] are what they were before. *)
Theorem rendering_after_makeSVG (D : Drawers) (self : KerykeionChartSVG)
    (minify remove_css_variables minify' remove_css_variables' : bool) :
  let after := fst (makeSVG D minify remove_css_variables self) in
  _create_template_dictionary D after = _create_template_dictionary D self /\
  snd (makeTemplate D minify' remove_css_variables' after)
  = snd (makeTemplate D minify' remove_css_variables' self).
Proof.
  assert (Hafter : fst (makeSVG D minify remove_css_variables self) = self \/
                   exists out, fst (makeSVG D minify remove_css_variables self)
                               = set_template (Some out) self).
  { unfold makeSVG, mbind, M_bind.
    pose proof (makeTemplate_leaves D minify remove_css_variables self) as Hsame.
    destruct (makeTemplate D minify remove_css_variables self) as [self' [out|e]];
      simpl in *; subst self'; eauto. }
  cbv zeta. destruct Hafter as [-> | [out ->]]; [done|].
  split; [apply assembly_stored|].
  unfold makeTemplate, reading, mbind, M_bind, mret, M_ret.
  rewrite !assembly_stored.
  destruct (_create_template_dictionary D self) as [td|e]; [|done].
  by destruct (substitute D (chart_xml D) td).
Qed.

(** ** Labels needed at construction *)

(** X17. The constructor reads the language table first: when the settings have
    no table for [chart_language], it raises [KeyError] of that language,
    whatever the other arguments; and a Transit chart with a second subject
    needs the label [transit_name] at construction, raising [KeyError] of it
    when the table lacks it. *)
Theorem construction_needs_its_labels (C : Collaborators) (a : InitArgs) :
  (settings_language_settings (get_settings C (arg_new_settings_file a))
     !! arg_chart_language a = None ->
   __init__ C a = Err (KeyError (arg_chart_language a))) /\
  (forall language t,
     settings_language_settings (get_settings C (arg_new_settings_file a))
       !! arg_chart_language a = Some language ->
     arg_chart_type a = Transit -> arg_second_obj a = Some t ->
     language !! "transit_name" = None ->
     __init__ C a = Err (KeyError "transit_name")).
Proof.
  split.
  - intros Hnone. unfold __init__, py_getitem. by rewrite Hnone.
  - intros language t Hlanguage Htype Hsecond Hname.
    unfold __init__, py_getitem. rewrite Hlanguage, Htype, Hsecond.
    cbn [mbind result_bind]. by rewrite Hname.
Qed.

Lemma construction_needs_its_labels_witness :
  __init__ Sample.collaborators
    (Sample.args (ASubject Sample.john) Natal None None GridList ["Sun"])
  <> Err (KeyError "EN") /\
  __init__ Sample.collaborators
    {| arg_first_obj := ASubject Sample.john; arg_chart_type := Transit;
       arg_second_obj := None; arg_new_output_directory := None;
       arg_new_settings_file := SettingsDefault; arg_theme := None;
       arg_double_chart_aspect_grid_type := GridList; arg_chart_language := "IT";
       arg_active_points := ["Sun"]; arg_active_aspects := [] |}
  = Err (KeyError "IT").
Proof.
  split; [vm_compute; discriminate|].
  apply (construction_needs_its_labels Sample.collaborators
           {| arg_first_obj := ASubject Sample.john; arg_chart_type := Transit;
              arg_second_obj := None; arg_new_output_directory := None;
              arg_new_settings_file := SettingsDefault; arg_theme := None;
              arg_double_chart_aspect_grid_type := GridList; arg_chart_language := "IT";
              arg_active_points := ["Sun"]; arg_active_aspects := [] |}).
  reflexivity.
Defined.

Lemma label_of_has_no_space_nor_capital_witness :
  label_of "Last Quarter" = "last_quarter" /\
  contains (char "L") (label_of "Last Quarter") = false.
Proof.
  split; [reflexivity|].
  apply (label_of_has_no_space_nor_capital "Last Quarter"). vm_compute. lia.
Defined.
